(** * AutomatedHomeV2: the rule-driven dispatch engine

    A shallow embedding of [RuleEngineWrapper/__init__.py] (type coercion,
    rule loading and hot reload, rule evaluation) and, in [ah_master.py],
    of [MQTTInterface.on_message] (state store, dispatch queue, liveness
    ping), of the drain loop of [MQTTInterface.start] and of
    [JSONWebInterface.execute_command], with the properties of the
    engine's specification stated and settled against it.

    Conventions.
    - A Python [str] is a [string]: the UTF-8 encoding of its text.  The
      string operations the code uses ([replace] of one ASCII character,
      [startswith], [in], [rsplit] on ['/'], [lower] compared with ASCII
      words) act on ASCII characters only, which never occur inside a
      multi-byte UTF-8 sequence.  [int] and [float] read the text
      character by character, through its code points.
    - A Python [float] is a binary64 number, a [spec_float] of the
      Standard Library.
    - Python values are the inductive [pyval]; a Python [dict] is an
      association list in insertion order with unique keys.
    - A Python call that can raise returns a [result]; code that mutates
      state and can raise lives in the monad [M], in which the state written
      before a [raise] survives it, as it does in Python. *)

From Stdlib Require Import String Ascii List ZArith NArith Bool Lia.
From Stdlib Require Import Floats.SpecFloat.
From Stdlib Require Strings.Byte DecimalString.
Import ListNotations.
Local Open Scope string_scope.
Local Open Scope Z_scope.

Set Implicit Arguments.
Set Warnings "-register-all".

(* ================================================================= *)
(** ** Exceptions and results *)

(** The exception classes that the modelled code raises, catches or lets
    through.  All of them derive from Python's [Exception]. *)
Inductive exn : Type :=
  | ValueError
  | UnicodeDecodeError      (* subclass of ValueError *)
  | SyntaxError
  | TypeError
  | KeyError
  | AttributeError
  | UnboundLocalError
  | OverflowError
  | MemoryError
  | RecursionError
  | OSError
  | FileNotFoundError       (* subclass of OSError *)
  | RuleSyntaxError         (* rule_engine.errors.RuleSyntaxError *)
  | FloatSyntaxError        (* rule_engine.errors.FloatSyntaxError *)
  | SymbolResolutionError   (* rule_engine.errors.SymbolResolutionError *)
  | EvaluationError.        (* any other rule_engine evaluation error *)

Definition exn_eqb (a b : exn) : bool :=
  match a, b with
  | ValueError, ValueError | UnicodeDecodeError, UnicodeDecodeError
  | SyntaxError, SyntaxError | TypeError, TypeError | KeyError, KeyError
  | AttributeError, AttributeError | UnboundLocalError, UnboundLocalError
  | MemoryError, MemoryError | RecursionError, RecursionError
  | OverflowError, OverflowError
  | OSError, OSError | FileNotFoundError, FileNotFoundError
  | RuleSyntaxError, RuleSyntaxError
  | FloatSyntaxError, FloatSyntaxError
  | SymbolResolutionError, SymbolResolutionError
  | EvaluationError, EvaluationError => true
  | _, _ => false
  end.

(** [isinstance e cls]: what an [except cls] clause catches. *)
Definition isinstance (e cls : exn) : bool :=
  match cls, e with
  | ValueError, UnicodeDecodeError => true
  | OSError, FileNotFoundError => true
  | EvaluationError, SymbolResolutionError => true
  | _, _ => exn_eqb e cls
  end.

Inductive result (A : Type) : Type :=
  | Ret (a : A)
  | Raise (e : exn).
Arguments Ret {A} a.
Arguments Raise {A} e.

Definition is_ret {A} (r : result A) : bool :=
  match r with Ret _ => true | Raise _ => false end.

Definition rbind {A B} (r : result A) (k : A -> result B) : result B :=
  match r with
  | Ret a => k a
  | Raise e => Raise e
  end.

Declare Scope result_scope.
Delimit Scope result_scope with result.
Notation "x <- r ;; k" := (rbind r (fun x => k))
  (at level 61, r at next level, right associativity) : result_scope.

(* ================================================================= *)
(** ** Python values *)

(** A [float] is a binary64 number: a signed zero, an infinity, a NaN or
    [m * 2^e] with a sign. *)
Definition pyfloat : Type := spec_float.

Inductive pyval : Type :=
  | VNone
  | VBool (b : bool)
  | VInt (n : Z)
  | VFloat (f : pyfloat)
  | VStr (s : string)
  | VList (items : list pyval)
  | VTuple (items : list pyval)
  | VSet (items : list pyval)
  | VDict (entries : list (pyval * pyval)).

(** [==] on floats: a NaN equals nothing, the two zeros are equal. *)
Definition pyfloat_eqb (a b : pyfloat) : bool := SFeqb a b.

(** Structural equality, standing for [==] on dictionary keys. *)
Fixpoint pyval_eqb (a b : pyval) {struct a} : bool :=
  let fix list_eqb (l : list pyval) (l' : list pyval) {struct l} : bool :=
    match l, l' with
    | [], [] => true
    | x :: t, y :: t' => pyval_eqb x y && list_eqb t t'
    | _, _ => false
    end in
  let fix entries_eqb (l : list (pyval * pyval)) (l' : list (pyval * pyval))
      {struct l} : bool :=
    match l, l' with
    | [], [] => true
    | (k, v) :: t, (k', v') :: t' =>
        pyval_eqb k k' && pyval_eqb v v' && entries_eqb t t'
    | _, _ => false
    end in
  match a, b with
  | VNone, VNone => true
  | VBool x, VBool y => Bool.eqb x y
  | VInt x, VInt y => x =? y
  | VFloat x, VFloat y => pyfloat_eqb x y
  | VStr x, VStr y => String.eqb x y
  | VList x, VList y => list_eqb x y
  | VTuple x, VTuple y => list_eqb x y
  | VSet x, VSet y => list_eqb x y
  | VDict x, VDict y => entries_eqb x y
  | _, _ => false
  end.

(* ================================================================= *)
(** ** Dictionaries: association lists in insertion order *)

Module PyDict.
Section Dict.
Variable V : Type.

(** A [dict] with [str] keys. *)
Definition dict : Type := list (string * V).

(** [d.get(k)]; [None] when [k not in d]. *)
Fixpoint get (k : string) (d : dict) : option V :=
  match d with
  | [] => None
  | (k', v) :: t => if String.eqb k k' then Some v else get k t
  end.

(** [k in d.keys()] *)
Definition mem (k : string) (d : dict) : bool :=
  match get k d with Some _ => true | None => false end.

(** [d[k] = v]: overwrite in place, or append a new entry. *)
Fixpoint set (k : string) (v : V) (d : dict) : dict :=
  match d with
  | [] => [(k, v)]
  | (k', v') :: t =>
      if String.eqb k k' then (k', v) :: t else (k', v') :: set k v t
  end.
End Dict.
End PyDict.

(* ================================================================= *)
(** ** String operations of the Python standard library *)

Module PyStr.

(** [s.replace(c, d)] for one-character [c] and [d]. *)
Fixpoint replace_char (c d : ascii) (s : string) : string :=
  match s with
  | EmptyString => EmptyString
  | String x t =>
      String (if Ascii.eqb x c then d else x) (replace_char c d t)
  end.

Definition lower_char (c : ascii) : ascii :=
  let n := nat_of_ascii c in
  if (Nat.leb 65 n && Nat.leb n 90)%bool then ascii_of_nat (n + 32) else c.

(** [s.lower()] on ASCII letters. *)
Fixpoint lower (s : string) : string :=
  match s with
  | EmptyString => EmptyString
  | String x t => String (lower_char x) (lower t)
  end.

(** [s.startswith(p)] *)
Definition startswith (s p : string) : bool := String.prefix p s.

(** [sub in s] *)
Fixpoint contains (sub s : string) : bool :=
  String.prefix sub s ||
  match s with
  | EmptyString => false
  | String _ t => contains sub t
  end.

(** The text before the last ['/'], when there is one. *)
Fixpoint before_last_slash (s : string) : option string :=
  match s with
  | EmptyString => None
  | String c t =>
      match before_last_slash t with
      | Some h => Some (String c h)
      | None => if Ascii.eqb c "/" then Some EmptyString else None
      end
  end.

(** [s.rsplit('/', 1)[0]] *)
Definition rsplit_slash_head (s : string) : string :=
  match before_last_slash s with
  | Some h => h
  | None => s
  end.

End PyStr.

(* ================================================================= *)
(** ** The characters of a text *)

(** [int] and [float] first pass their argument through
    [_PyUnicode_TransformDecimalAndSpaceToASCII]: a character below
    U+007F is kept, any other white space becomes a blank, any other
    decimal digit becomes the ASCII digit of its value, and anything else
    makes the text invalid.  The two tables are those of the Unicode
    Character Database 14.0.0, which CPython 3.11 carries. *)
Module Unicode.
Local Open Scope N_scope.

(** The payload of a continuation byte. *)
Definition cont (c : ascii) : option N :=
  let n := N_of_ascii c in
  if (128 <=? n) && (n <=? 191) then Some (n - 128) else None.

(** A code point that needs the bytes it was written with (at least
    [lo]), is no surrogate and is at most U+10FFFF. *)
Definition scalar (lo cp : N) : option N :=
  if (lo <=? cp) && (cp <=? 1114111)
     && negb ((55296 <=? cp) && (cp <=? 57343))
  then Some cp else None.

Definition seq2 (b0 b1 : ascii) : option N :=
  match cont b1 with
  | Some x1 =>
      if 192 <=? N_of_ascii b0
      then scalar 128 ((N_of_ascii b0 - 192) * 64 + x1) else None
  | None => None
  end.

Definition seq3 (b0 b1 b2 : ascii) : option N :=
  match cont b1, cont b2 with
  | Some x1, Some x2 =>
      scalar 2048 (((N_of_ascii b0 - 224) * 64 + x1) * 64 + x2)
  | _, _ => None
  end.

Definition seq4 (b0 b1 b2 b3 : ascii) : option N :=
  match cont b1, cont b2, cont b3 with
  | Some x1, Some x2, Some x3 =>
      if N_of_ascii b0 <? 248
      then scalar 65536
             ((((N_of_ascii b0 - 240) * 64 + x1) * 64 + x2) * 64 + x3)
      else None
  | _, _, _ => None
  end.

Definition push {A : Type} (x : option A) (r : option (list A))
  : option (list A) :=
  match x, r with
  | Some a, Some l => Some (a :: l)
  | _, _ => None
  end.

(** The code points of a text; [None] for bytes that are not the UTF-8
    encoding of any text. *)
Fixpoint points (l : list ascii) : option (list N) :=
  match l with
  | [] => Some []
  | b0 :: t =>
      if N_of_ascii b0 <? 128 then push (Some (N_of_ascii b0)) (points t)
      else
        match t with
        | [] => None
        | b1 :: t1 =>
            if N_of_ascii b0 <? 224 then push (seq2 b0 b1) (points t1)
            else
              match t1 with
              | [] => None
              | b2 :: t2 =>
                  if N_of_ascii b0 <? 240
                  then push (seq3 b0 b1 b2) (points t2)
                  else
                    match t2 with
                    | [] => None
                    | b3 :: t3 => push (seq4 b0 b1 b2 b3) (points t3)
                    end
              end
        end
  end.

(** [Py_UNICODE_ISSPACE] from U+007F on. *)
Definition is_space (cp : N) : bool :=
  (cp =? 133) || (cp =? 160) || (cp =? 5760)
  || ((8192 <=? cp) && (cp <=? 8202))
  || (cp =? 8232) || (cp =? 8233) || (cp =? 8239) || (cp =? 8287)
  || (cp =? 12288).

(** The digit zero of every decimal script from U+007F on; its nine
    successors are the digits one to nine. *)
Definition decimal_zeros : list N :=
  [1632; 1776; 1984; 2406; 2534; 2662; 2790; 2918; 3046; 3174; 3302; 3430;
   3558; 3664; 3792; 3872; 4160; 4240; 6112; 6160; 6470; 6608; 6784; 6800;
   6992; 7088; 7232; 7248; 42528; 43216; 43264; 43472; 43504; 43600; 44016;
   65296; 66720; 68912; 69734; 69872; 69942; 70096; 70384; 70736; 70864;
   71248; 71360; 71472; 71904; 72016; 72784; 73040; 73120; 92768; 92864;
   93008; 120782; 120792; 120802; 120812; 120822; 123200; 123632; 125264;
   130032].

(** [Py_UNICODE_TODECIMAL] from U+007F on. *)
Definition decimal (cp : N) : option N :=
  match find (fun z => (z <=? cp) && (cp <? z + 10)) decimal_zeros with
  | Some z => Some (cp - z)
  | None => None
  end.

Definition to_ascii_point (cp : N) : option ascii :=
  if cp <? 127 then Some (ascii_of_N cp)
  else if is_space cp then Some " "%char
  else match decimal cp with
       | Some d => Some (ascii_of_N (48 + d))
       | None => None
       end.

Fixpoint to_ascii_points (l : list N) : option (list ascii) :=
  match l with
  | [] => Some []
  | cp :: t => push (to_ascii_point cp) (to_ascii_points t)
  end.

(** The transformed text; [None] when a character is neither below
    U+007F, nor white space, nor a decimal digit. *)
Definition to_ascii (l : list ascii) : option (list ascii) :=
  match points l with
  | Some pts => to_ascii_points pts
  | None => None
  end.

End Unicode.

(* ================================================================= *)
(** ** The builtins [int(s)] and [float(s)] on text *)

Module PyNum.

(** [Py_ISSPACE]: what [int] and [float] skip at both ends of the
    transformed text. *)
Definition is_space (c : ascii) : bool :=
  let n := nat_of_ascii c in
  (Nat.leb 9 n && Nat.leb n 13) || Nat.eqb n 32.

Definition digit (c : ascii) : option Z :=
  let n := nat_of_ascii c in
  if (Nat.leb 48 n && Nat.leb n 57)%bool then Some (Z.of_nat (n - 48))
  else None.

Definition is_digit (c : ascii) : bool :=
  match digit c with Some _ => true | None => false end.

Fixpoint lstrip (l : list ascii) : list ascii :=
  match l with
  | c :: t => if is_space c then lstrip t else l
  | [] => []
  end.

Definition strip (l : list ascii) : list ascii :=
  rev (lstrip (rev (lstrip l))).

Definition starts_with_digit (l : list ascii) : bool :=
  match l with c :: _ => is_digit c | [] => false end.

(** The longest prefix [digit (["_"] digit)*], as its digits, and what
    follows it.  No digit is read when the text does not start with
    one; an underscore is taken only between two digits. *)
Fixpoint digitpart (l : list ascii) : list Z * list ascii :=
  match l with
  | c :: t =>
      match digit c with
      | None => ([], l)
      | Some d =>
          let (ds, r) :=
            match t with
            | u :: t' =>
                if (Ascii.eqb u "_" && starts_with_digit t')%bool
                then digitpart t' else digitpart t
            | [] => ([], [])
            end in
          (d :: ds, r)
      end
  | [] => ([], [])
  end.

Definition digits_value (ds : list Z) : Z :=
  fold_left (fun acc d => 10 * acc + d) ds 0.

(** An optional sign: [true] for ["-"]. *)
Definition sign (l : list ascii) : bool * list ascii :=
  match l with
  | c :: t =>
      if Ascii.eqb c "-" then (true, t)
      else if Ascii.eqb c "+" then (false, t)
      else (false, l)
  | [] => (false, [])
  end.

Definition signed (neg : bool) (n : Z) : Z := if neg then - n else n.

(** [sys.get_int_max_str_digits()], which the program leaves at its
    default. *)
Definition int_max_str_digits : Z := 4300.

(** [int(s)] in base 10; [None] is [ValueError], which is also what text
    of more than [int_max_str_digits] digits raises. *)
Definition int_of_str (s : string) : option Z :=
  match Unicode.to_ascii (list_ascii_of_string s) with
  | None => None
  | Some l =>
      let (neg, body) := sign (strip l) in
      match digitpart body with
      | (d :: ds, []) =>
          if Z.of_nat (length (d :: ds)) <=? int_max_str_digits
          then Some (signed neg (digits_value (d :: ds)))
          else None
      | _ => None
      end
  end.

(** The parameters of binary64. *)
Definition prec : Z := 53.
Definition emax : Z := 1024.

(** The binary64 number nearest to [m * 10^e], ties to even; an
    infinity beyond the largest finite number. *)
Definition round_decimal (neg : bool) (m e : Z) : pyfloat :=
  match m with
  | Zpos p =>
      if 0 <=? e
      then binary_round prec emax neg (Z.to_pos (Zpos p * 10 ^ e)) 0
      else SFdiv prec emax (S754_finite neg p 0)
             (S754_finite false (Z.to_pos (10 ^ (- e))) 0)
  | _ => S754_zero neg
  end.

Definition is_e (c : ascii) : bool := Ascii.eqb c "e" || Ascii.eqb c "E".

(** [[("e" | "E") [sign] digitpart]] up to the end of the text. *)
Definition exponent (l : list ascii) : option Z :=
  match l with
  | [] => Some 0
  | c :: t =>
      if is_e c then
        let (neg, body) := sign t in
        match digitpart body with
        | (d :: ds, []) => Some (signed neg (digits_value (d :: ds)))
        | _ => None
        end
      else None
  end.

Definition special (l : list ascii) : option (bool -> pyfloat) :=
  let w := PyStr.lower (string_of_list_ascii l) in
  if String.eqb w "inf" || String.eqb w "infinity" then Some S754_infinity
  else if String.eqb w "nan" then Some (fun _ => S754_nan)
  else None.

(** [float(s)]; [None] is [ValueError].  The grammar is
    [[sign] (number [exponent] | "inf" | "infinity" | "nan")] with
    [number ::= [digitpart] "." digitpart | digitpart ["."]]; a number too
    large for binary64 is an infinity, not an error. *)
Definition float_of_str (s : string) : option pyfloat :=
  match Unicode.to_ascii (list_ascii_of_string s) with
  | None => None
  | Some l =>
      let (neg, body) := sign (strip l) in
      match special body with
      | Some f => Some (f neg)
      | None =>
          let (ip, r1) := digitpart body in
          let (fp, r2) :=
            match r1 with
            | c :: t => if Ascii.eqb c "." then digitpart t else ([], r1)
            | [] => ([], [])
            end in
          match (ip ++ fp)%list, exponent r2 with
          | d :: ds, Some ex =>
              Some (round_decimal neg (digits_value (d :: ds))
                      (ex - Z.of_nat (length fp)))
          | _, _ => None
          end
      end
  end.

(** [float(n)] for an [int]: the nearest binary64 number, or
    [OverflowError]. *)
Definition float_of_int (n : Z) : option pyfloat :=
  match binary_normalize prec emax n 0 false with
  | S754_infinity _ => None
  | f => Some f
  end.

(** [int(f)] for a [float]: towards zero; [None] for an infinity or a
    NaN. *)
Definition int_of_float (f : pyfloat) : option Z :=
  match f with
  | S754_zero _ => Some 0
  | S754_finite s m e =>
      Some (signed s (if 0 <=? e then Zpos m * 2 ^ e
                      else Zpos m / 2 ^ (- e)))
  | _ => None
  end.

End PyNum.

(* ================================================================= *)
(** ** Type coercion: [RuleEngineWrapper.get_var] and its predicates *)

Section Coercion.

(** [ast.literal_eval] applied to text.  It is a function of the text
    alone and, besides returning a value, may raise [ValueError],
    [SyntaxError], [TypeError], [MemoryError] or [RecursionError]. *)
Variable literal_eval_str : string -> result pyval.

Local Open Scope result_scope.

(** [ast.literal_eval(v)]: anything that is neither text nor a syntax
    tree is a "malformed node or string". *)
Definition literal_eval (v : pyval) : result pyval :=
  match v with
  | VStr s => literal_eval_str s
  | _ => Raise ValueError
  end.

(** [int(v)] *)
Definition py_int (v : pyval) : result Z :=
  match v with
  | VInt n => Ret n
  | VBool b => Ret (if b then 1 else 0)
  | VFloat f =>
      match PyNum.int_of_float f, f with
      | Some n, _ => Ret n
      | None, S754_nan => Raise ValueError
      | None, _ => Raise OverflowError
      end
  | VStr s =>
      match PyNum.int_of_str s with
      | Some n => Ret n
      | None => Raise ValueError
      end
  | _ => Raise TypeError
  end.

(** [float(v)] *)
Definition py_float (v : pyval) : result pyfloat :=
  match v with
  | VFloat f => Ret f
  | VInt n =>
      match PyNum.float_of_int n with
      | Some f => Ret f
      | None => Raise OverflowError
      end
  | VBool b => Ret (PyNum.round_decimal false (if b then 1 else 0) 0)
  | VStr s =>
      match PyNum.float_of_str s with
      | Some f => Ret f
      | None => Raise ValueError
      end
  | _ => Raise TypeError
  end.

(** [v.lower()]: only [str] has the method. *)
Definition py_lower (v : pyval) : result string :=
  match v with
  | VStr s => Ret (PyStr.lower s)
  | _ => Raise AttributeError
  end.

(** On text, [int] raises nothing but [ValueError], which the [except]
    clause turns into [False]. *)
Definition _is_int (s : pyval) : bool :=
  match s with
  | VInt _ => true
  | VStr t =>
      if (0 <? Z.of_nat (String.length t)) then
        match py_int s with
        | Raise _ => false
        | Ret _ =>
            negb (PyStr.contains "." t) && negb (PyStr.contains "e" t)
        end
      else false
  | _ => false
  end.

(** Likewise for [float]; the test for an exponent is on the lowered
    text. *)
Definition _is_float (s : pyval) : bool :=
  match s with
  | VFloat _ => true
  | VStr t =>
      if (0 <? Z.of_nat (String.length t)) then
        match py_float s with
        | Raise _ => false
        | Ret _ =>
            PyStr.contains "." t || PyStr.contains "e" (PyStr.lower t)
        end
      else false
  | _ => false
  end.

Definition _is_bool (s : pyval) : bool :=
  match s with
  | VBool _ => true
  | VStr t =>
      if (0 <? Z.of_nat (String.length t)) then
        String.eqb (PyStr.lower t) "true"
        || String.eqb (PyStr.lower t) "false"
      else false
  | _ => false
  end.

(** Only [ValueError] and [SyntaxError] are caught; for a value that is
    neither a [dict] nor a [str] the answer is [True]. *)
Definition _is_dict (s : pyval) : result bool :=
  match s with
  | VDict _ => Ret true
  | VStr _ =>
      match literal_eval s with
      | Ret _ => Ret true
      | Raise e =>
          if isinstance e ValueError then Ret false
          else if isinstance e SyntaxError then Ret false
          else Raise e
      end
  | _ => Ret true
  end.

(** [get_var(s)]: the first predicate that holds decides; the branch of
    [_is_bool] calls [s.lower()] and that of [_is_dict] calls
    [ast.literal_eval(s)], whatever the type of [s]. *)
Definition get_var (s : pyval) : result pyval :=
  if _is_int s then
    n <- py_int s ;; Ret (VInt n)
  else if _is_float s then
    f <- py_float s ;; Ret (VFloat f)
  else if _is_bool s then
    l <- py_lower s ;; Ret (VBool (String.eqb l "true"))
  else
    d <- _is_dict s ;;
    if (d : bool) then literal_eval s else Ret s.

End Coercion.

(* ================================================================= *)
(** ** A reference evaluator for a fragment of [ast.literal_eval] *)

(** The general results below hold for every behaviour of
    [ast.literal_eval]; this evaluator serves to run the model on concrete
    text.  Its fragment: decimal integers (with an optional minus sign),
    string literals in single or double quotes without escape sequences,
    [True], [False], [None], lists, tuples and dictionaries, separated by
    spaces or tabs.  Like Python it parses first ([SyntaxError]), then
    converts the tree from left to right ([ValueError] for a name,
    [TypeError] for an unhashable key).  Text outside the fragment
    (floats, sets, escapes, other number bases, operators, tuples without
    parentheses, adjacent strings, line breaks) is answered with
    [SyntaxError], which
    Python does not do in every such case; dictionary keys are compared
    structurally. *)
Module Lit.

Inductive token : Type :=
  | TInt (n : Z)
  | TStr (s : string)
  | TName (s : string)
  | TOpen (c : ascii)       (* one of [ ( { *)
  | TClose (c : ascii)      (* one of ] ) } *)
  | TComma
  | TColon
  | TMinus.

Definition is_name_start (c : ascii) : bool :=
  let n := nat_of_ascii c in
  (Nat.leb 65 n && Nat.leb n 90) || (Nat.leb 97 n && Nat.leb n 122)
  || Nat.eqb n 95.

Definition is_name_char (c : ascii) : bool :=
  is_name_start c || PyNum.is_digit c.

Fixpoint span (p : ascii -> bool) (l : list ascii)
  : list ascii * list ascii :=
  match l with
  | c :: t => if p c then let (a, b) := span p t in (c :: a, b) else ([], l)
  | [] => ([], [])
  end.

(** The body of a string literal opened by [q]: up to the next [q],
    with no backslash and no line break in between. *)
Fixpoint string_body (q : ascii) (l : list ascii)
  : option (list ascii * list ascii) :=
  match l with
  | [] => None
  | c :: t =>
      if Ascii.eqb c q then Some ([], t)
      else if Ascii.eqb c "\" || Ascii.eqb c "010" || Ascii.eqb c "013"
      then None
      else match string_body q t with
           | Some (a, b) => Some (c :: a, b)
           | None => None
           end
  end.

Definition closing (c : ascii) : ascii :=
  if Ascii.eqb c "[" then "]" else if Ascii.eqb c "(" then ")" else "}".

Fixpoint lex (fuel : nat) (l : list ascii) : option (list token) :=
  match fuel with
  | O => None
  | S fuel' =>
      let cons_tok (t : token) (r : list ascii) :=
        match lex fuel' r with
        | Some ts => Some (t :: ts)
        | None => None
        end in
      match l with
      | [] => Some []
      | c :: t =>
          if Ascii.eqb c " " || Ascii.eqb c "009" then lex fuel' t
          else if Ascii.eqb c "[" || Ascii.eqb c "(" || Ascii.eqb c "{"
          then cons_tok (TOpen c) t
          else if Ascii.eqb c "]" || Ascii.eqb c ")" || Ascii.eqb c "}"
          then cons_tok (TClose c) t
          else if Ascii.eqb c "," then cons_tok TComma t
          else if Ascii.eqb c ":" then cons_tok TColon t
          else if Ascii.eqb c "-" then cons_tok TMinus t
          else if Ascii.eqb c "'" || Ascii.eqb c "034" then
            match string_body c t with
            | Some (body, r) => cons_tok (TStr (string_of_list_ascii body)) r
            | None => None
            end
          else if is_name_start c then
            let (w, r) := span is_name_char l in
            cons_tok (TName (string_of_list_ascii w)) r
          else if PyNum.is_digit c then
            let (ds, r) := PyNum.digitpart l in
            let n := PyNum.digits_value ds in
            let leading_zero :=
              match ds with
              | 0 :: _ :: _ => negb (n =? 0)
              | _ => false
              end in
            let glued :=
              match r with
              | c' :: _ => is_name_char c' || Ascii.eqb c' "."
              | [] => false
              end in
            if leading_zero || glued then None else cons_tok (TInt n) r
          else None
      end
  end.

(** Syntax trees of the fragment. *)
Inductive ast : Type :=
  | AConst (v : pyval)
  | AName (s : string)
  | ANeg (a : ast)
  | AList (items : list ast)
  | ATuple (items : list ast)
  | ADict (entries : list (ast * ast)).

Definition name_node (s : string) : ast :=
  if String.eqb s "True" then AConst (VBool true)
  else if String.eqb s "False" then AConst (VBool false)
  else if String.eqb s "None" then AConst VNone
  else AName s.

Fixpoint parse (fuel : nat) (ts : list token) : option (ast * list token) :=
  match fuel with
  | O => None
  | S fuel' =>
      match ts with
      | TInt n :: r => Some (AConst (VInt n), r)
      | TStr s :: r => Some (AConst (VStr s), r)
      | TName s :: r => Some (name_node s, r)
      | TMinus :: r =>
          match parse fuel' r with
          | Some (a, r') => Some (ANeg a, r')
          | None => None
          end
      | TOpen c :: r =>
          if Ascii.eqb c "{" then
            match parse_entries fuel' r with
            | Some (es, r') => Some (ADict es, r')
            | None => None
            end
          else if Ascii.eqb c "[" then
            match parse_items fuel' "]" r with
            | Some (xs, _, r') => Some (AList xs, r')
            | None => None
            end
          else
            match parse_items fuel' ")" r with
            | Some ([x], false, r') => Some (x, r')
            | Some (xs, _, r') => Some (ATuple xs, r')
            | None => None
            end
      | _ => None
      end
  end

(** Items up to the closing bracket [close]; the flag tells whether a
    comma was read. *)
with parse_items (fuel : nat) (close : ascii) (ts : list token)
  : option (list ast * bool * list token) :=
  match fuel with
  | O => None
  | S fuel' =>
      match ts with
      | TClose c :: r =>
          if Ascii.eqb c close then Some ([], false, r) else None
      | _ =>
          match parse fuel' ts with
          | Some (x, TComma :: r) =>
              match parse_items fuel' close r with
              | Some (xs, _, r') => Some (x :: xs, true, r')
              | None => None
              end
          | Some (x, TClose c :: r) =>
              if Ascii.eqb c close then Some ([x], false, r) else None
          | _ => None
          end
      end
  end

with parse_entries (fuel : nat) (ts : list token)
  : option (list (ast * ast) * list token) :=
  match fuel with
  | O => None
  | S fuel' =>
      match ts with
      | TClose c :: r => if Ascii.eqb c "}" then Some ([], r) else None
      | _ =>
          match parse fuel' ts with
          | Some (k, TColon :: r) =>
              match parse fuel' r with
              | Some (v, TComma :: r') =>
                  match parse_entries fuel' r' with
                  | Some (es, r'') => Some ((k, v) :: es, r'')
                  | None => None
                  end
              | Some (v, TClose c :: r') =>
                  if Ascii.eqb c "}" then Some ([(k, v)], r') else None
              | _ => None
              end
          | _ => None
          end
      end
  end.

Fixpoint hashable (v : pyval) : bool :=
  match v with
  | VList _ | VSet _ | VDict _ => false
  | VTuple items => forallb hashable items
  | _ => true
  end.

(** [d[k] = v] on the entries of a [dict] under construction. *)
Fixpoint insert (k v : pyval) (d : list (pyval * pyval))
  : list (pyval * pyval) :=
  match d with
  | [] => [(k, v)]
  | (k', v') :: t =>
      if pyval_eqb k k' then (k', v) :: t else (k', v') :: insert k v t
  end.

Local Open Scope result_scope.

(** The conversion of a tree into a value. *)
Fixpoint convert (a : ast) : result pyval :=
  let fix convert_all (l : list ast) : result (list pyval) :=
    match l with
    | [] => Ret []
    | x :: t =>
        v <- convert x ;; vs <- convert_all t ;; Ret (v :: vs)
    end in
  let fix convert_entries (l : list (ast * ast)) (d : list (pyval * pyval))
    : result (list (pyval * pyval)) :=
    match l with
    | [] => Ret d
    | (k, v) :: t =>
        k' <- convert k ;;
        v' <- convert v ;;
        if hashable k' then convert_entries t (insert k' v' d)
        else Raise TypeError
    end in
  match a with
  | AConst v => Ret v
  | AName _ => Raise ValueError
  | ANeg (AConst (VInt n)) => Ret (VInt (- n))
  | ANeg _ => Raise ValueError
  | AList items => vs <- convert_all items ;; Ret (VList vs)
  | ATuple items => vs <- convert_all items ;; Ret (VTuple vs)
  | ADict entries => d <- convert_entries entries [] ;; Ret (VDict d)
  end.

Definition literal_eval (s : string) : result pyval :=
  let l := list_ascii_of_string s in
  match lex (S (List.length l)) l with
  | None => Raise SyntaxError
  | Some ts =>
      match parse (S (List.length ts)) ts with
      | Some (a, []) => convert a
      | _ => Raise SyntaxError
      end
  end.

End Lit.

(* ================================================================= *)
(** ** Stateful code that can raise *)

(** A computation runs from a state to an outcome and a state; a raised
    exception keeps the state reached so far. *)
Section StateExc.
Variable S : Type.

Definition M (A : Type) : Type := S -> result A * S.

Definition ret {A} (a : A) : M A := fun s => (Ret a, s).

Definition raise {A} (e : exn) : M A := fun s => (Raise e, s).

Definition bind {A B} (c : M A) (k : A -> M B) : M B :=
  fun s =>
    match c s with
    | (Ret a, s') => k a s'
    | (Raise e, s') => (Raise e, s')
    end.

Definition lift {A} (r : result A) : M A := fun s => (r, s).

Definition get : M S := fun s => (Ret s, s).

Definition modify (f : S -> S) : M unit := fun s => (Ret tt, f s).

(** [try: c  except <catches>: h]: the first matching clause of
    [handlers] runs, in the state the exception left. *)
Fixpoint dispatch {A} (handlers : list (exn * (exn -> M A))) (e : exn)
  : M A :=
  match handlers with
  | [] => raise e
  | (cls, h) :: rest =>
      if isinstance e cls then h e else dispatch rest e
  end.

Definition try_except {A} (c : M A) (handlers : list (exn * (exn -> M A)))
  : M A :=
  fun s =>
    match c s with
    | (Ret a, s') => (Ret a, s')
    | (Raise e, s') => dispatch handlers e s'
    end.

(** [try: c  except Exception as e: h e] *)
Definition try_except_Exception {A} (c : M A) (h : exn -> M A) : M A :=
  fun s =>
    match c s with
    | (Ret a, s') => (Ret a, s')
    | (Raise e, s') => h e s'
    end.

(** [for x in l: body x] *)
Fixpoint for_each {A} (l : list A) (body : A -> M unit) : M unit :=
  match l with
  | [] => ret tt
  | x :: t => bind (body x) (fun _ => for_each t body)
  end.

End StateExc.

Arguments ret {S A} a.
Arguments raise {S A} e.
Arguments lift {S A} r.
Arguments get {S}.

Declare Scope monad_scope.
Delimit Scope monad_scope with monad.
Notation "x <- c ;; k" := (bind c (fun x => k))
  (at level 61, c at next level, right associativity) : monad_scope.
Notation "c ;; k" := (bind c (fun _ => k))
  (at level 61, right associativity) : monad_scope.

(* ================================================================= *)
(** ** Subscripting and iterating Python values *)

Module PyVal.

Fixpoint lookup (k : pyval) (d : list (pyval * pyval)) : option pyval :=
  match d with
  | [] => None
  | (k', v) :: t => if pyval_eqb k k' then Some v else lookup k t
  end.

(** [v[key]] for a [str] key: a [dict] answers or raises [KeyError];
    every other type raises [TypeError]. *)
Definition getitem (v : pyval) (key : string) : result pyval :=
  match v with
  | VDict d =>
      match lookup (VStr key) d with
      | Some x => Ret x
      | None => Raise KeyError
      end
  | _ => Raise TypeError
  end.

(** [v[key] = x] for a [str] key: only a [dict] accepts it. *)
Definition setitem (v : pyval) (key : string) (x : pyval) : result pyval :=
  match v with
  | VDict d => Ret (VDict (Lit.insert (VStr key) x d))
  | _ => Raise TypeError
  end.

Definition is_continuation (c : ascii) : bool :=
  let n := nat_of_ascii c in Nat.leb 128 n && Nat.leb n 191.

(** The characters of a text: each UTF-8 sequence is one character. *)
Fixpoint chars (s : string) : list string :=
  match s with
  | EmptyString => []
  | String c t =>
      match chars t with
      | (String c' _ as h) :: r =>
          if is_continuation c' then String c h :: r
          else String c EmptyString :: h :: r
      | r => String c EmptyString :: r
      end
  end.

(** What [for x in v] visits; [TypeError] when [v] is not iterable. *)
Definition iter (v : pyval) : result (list pyval) :=
  match v with
  | VList l | VTuple l | VSet l => Ret l
  | VDict d => Ret (map fst d)
  | VStr s => Ret (map VStr (chars s))
  | _ => Raise TypeError
  end.

End PyVal.

(* ================================================================= *)
(** ** Rule evaluation: [RuleEngineWrapper.evaluate_rules] *)

(** What [logging] records at levels above [debug], and the one [debug]
    line written as the rule engine is about to run an expression. *)
Inductive log_event : Type :=
  | DebugRuleEngine (rule_str : string)
  | ErrorRuleSyntax (rule_str : string)
  | InfoNotFound (e : exn)
  | ErrorUnexpected (e : exn).

Record eval_state : Type := mk_eval_state {
  output : list pyval;
  log : list log_event
}.

Definition append_output (a : pyval) : M eval_state unit :=
  modify (fun s => mk_eval_state (output s ++ [a]) (log s)).

Definition logging (ev : log_event) : M eval_state unit :=
  modify (fun s => mk_eval_state (output s) (log s ++ [ev])).

Section RuleEvaluation.

Variable literal_eval_str : string -> result pyval.

(** [rule_engine.Rule(rule_str).matches(data)]: the external matcher.
    Building the rule may raise [RuleSyntaxError]; matching may raise
    [SymbolResolutionError] or another error of the engine. *)
Variable rule_matches : string -> PyDict.dict pyval -> result bool.

Local Open Scope result_scope.

(** [rule_str.replace('/', '_')]; only [str] has the method. *)
Definition _preprocess_rule (rule_str : pyval) : result string :=
  match rule_str with
  | VStr s => Ret (PyStr.replace_char "/" "_" s)
  | _ => Raise AttributeError
  end.

(** The dictionary comprehension over [data.items()], entry by entry. *)
Fixpoint _preprocess_data_from (data : PyDict.dict string)
    (acc : PyDict.dict pyval) : result (PyDict.dict pyval) :=
  match data with
  | [] => Ret acc
  | (key, value) :: rest =>
      v <- get_var literal_eval_str (VStr value) ;;
      _preprocess_data_from rest
        (PyDict.set (PyStr.replace_char "/" "_" key) v acc)
  end.

Definition _preprocess_data (data : PyDict.dict string)
  : result (PyDict.dict pyval) :=
  _preprocess_data_from data [].

Local Open Scope monad_scope.

(** The body of [for rule_info in self.rules]. *)
Definition evaluate_rule (preprocessed_data : PyDict.dict pyval)
    (rule_filter : string) (rule_info : pyval) : M eval_state unit :=
  rule <- lift (PyVal.getitem rule_info "rule") ;;
  rule_str <- lift (_preprocess_rule rule) ;;
  actions <- lift (PyVal.getitem rule_info "actions") ;;
  try_except
    (f <- lift (_preprocess_rule (VStr rule_filter)) ;;
     if PyStr.contains f rule_str then
       logging (DebugRuleEngine rule_str) ;;
       matched <- lift (rule_matches rule_str preprocessed_data) ;;
       if (matched : bool) then
         items <- lift (PyVal.iter actions) ;;
         for_each items append_output
       else ret tt
     else ret tt)
    [ (RuleSyntaxError, fun _ => logging (ErrorRuleSyntax rule_str));
      (SymbolResolutionError, fun e => logging (InfoNotFound e)) ].

(** The pass inside the outer [try]. *)
Definition evaluate_pass (rules : pyval) (data : PyDict.dict string)
    (rule_filter : string) : M eval_state unit :=
  preprocessed_data <- lift (_preprocess_data data) ;;
  rule_infos <- lift (PyVal.iter rules) ;;
  for_each rule_infos (evaluate_rule preprocessed_data rule_filter).

Definition evaluate_rules_body (rules : pyval) (data : PyDict.dict string)
    (rule_filter : string) : M eval_state (list pyval) :=
  match rules with
  | VNone => ret tt
  | _ =>
      try_except_Exception (evaluate_pass rules data rule_filter)
        (fun e => logging (ErrorUnexpected e))
  end ;;
  s <- get ;;
  ret (output s).

(** [evaluate_rules(data, rule_filter)] with [self.rules = rules]: what
    the call returns or raises, and what it logged. *)
Definition evaluate_rules (rules : pyval) (data : PyDict.dict string)
    (rule_filter : string) : result (list pyval) * list log_event :=
  let (r, s) := evaluate_rules_body rules data rule_filter
                  (mk_eval_state [] []) in
  (r, log s).

End RuleEvaluation.

(* ================================================================= *)
(** ** The rule repository: [load_rules] and [load_and_run] *)

Record RuleEngineWrapper : Type := mk_wrapper {
  yaml_file : option string;
  rules : pyval;                        (* [None] is [VNone] *)
  last_modified_time : option Z
}.

Module Repository.

Record load_state : Type := mk_load_state {
  loaded : pyval;                     (* the local [rules] *)
  load_errors : list exn              (* what [logging.error] recorded *)
}.

Local Open Scope monad_scope.

(** [load_rules()].  [safe_load_rules] is what
    [yaml.safe_load(file)['rules']] gives for the file as it is now:
    a value, or the exception of [open], of the YAML parser or of the
    subscript. *)
Definition load_rules_body (file : option string)
    (safe_load_rules : result pyval) : M load_state unit :=
  try_except_Exception
    (match file with
     | Some _ =>
         r <- lift safe_load_rules ;;
         modify (fun s => mk_load_state r (load_errors s)) ;;
         items <- lift (PyVal.iter r) ;;
         for_each items (fun _ => ret tt)
     | None => ret tt
     end)
    (fun e => modify (fun s => mk_load_state (loaded s) (load_errors s ++ [e]))).

Definition load_rules (file : option string)
    (safe_load_rules : result pyval) : pyval :=
  loaded (snd (load_rules_body file safe_load_rules (mk_load_state VNone []))).

(** The state of the watcher thread: the wrapper it updates and its
    local [current_modified_time], unbound ([None]) until the first
    successful [os.path.getmtime]. *)
Record watcher : Type := mk_watcher {
  self : RuleEngineWrapper;
  current_modified_time : option Z
}.

Definition set_rules (r : pyval) (w : watcher) : watcher :=
  mk_watcher
    (mk_wrapper (yaml_file (self w)) r (last_modified_time (self w)))
    (current_modified_time w).

Definition set_last_modified_time (t : Z) (w : watcher) : watcher :=
  mk_watcher
    (mk_wrapper (yaml_file (self w)) (rules (self w)) (Some t))
    (current_modified_time w).

Definition set_current (t : Z) (w : watcher) : watcher :=
  mk_watcher (self w) (Some t).

(** Reading the local variable. *)
Definition read_current : M watcher Z :=
  w <- get ;;
  match current_modified_time w with
  | Some t => ret t
  | None => raise UnboundLocalError
  end.

(** One turn of the [while True] loop of [load_and_run], up to the
    [sleep].  [getmtime] is the outcome of [os.path.getmtime] at this
    turn; a raised result ends the thread. *)
Definition load_and_run_turn (getmtime : result Z)
    (safe_load_rules : result pyval) : M watcher unit :=
  try_except
    (t <- lift getmtime ;; modify (set_current t))
    [ (FileNotFoundError, fun _ => ret tt) ] ;;
  w <- get ;;
  changed <-
    match last_modified_time (self w) with
    | None => ret true
    | Some last => t <- read_current ;; ret (negb (t =? last))
    end ;;
  if (changed : bool) then
    modify (set_rules (load_rules (yaml_file (self w)) safe_load_rules)) ;;
    t <- read_current ;;
    modify (set_last_modified_time t)
  else ret tt.

(** The loop over the observations of successive turns. *)
Fixpoint load_and_run (turns : list (result Z * result pyval))
  : M watcher unit :=
  match turns with
  | [] => ret tt
  | (getmtime, safe_load_rules) :: rest =>
      load_and_run_turn getmtime safe_load_rules ;; load_and_run rest
  end.

(** [__init__]: no rules yet, no fingerprint yet. *)
Definition init (file : option string) : watcher :=
  mk_watcher (mk_wrapper file VNone None) None.

End Repository.

(* ================================================================= *)
(** ** Message intake: [MQTTInterface.on_message] *)

Module Utf8.
Import Strings.Byte.

Definition between (lo hi : N) (b : byte) : bool :=
  (N.leb lo (to_N b) && N.leb (to_N b) hi)%bool.

Definition cont : byte -> bool := between 128 191.

(** Well-formed UTF-8: shortest forms only, no surrogates, at most
    U+10FFFF. *)
Fixpoint well_formed (l : list byte) : bool :=
  match l with
  | [] => true
  | b0 :: t =>
      if between 0 127 b0 then well_formed t
      else match t with
      | [] => false
      | b1 :: t1 =>
          if between 194 223 b0 then cont b1 && well_formed t1
          else match t1 with
          | [] => false
          | b2 :: t2 =>
              if between 224 239 b0 then
                (if between 224 224 b0 then between 160 191 b1
                 else if between 237 237 b0 then between 128 159 b1
                 else cont b1)
                && cont b2 && well_formed t2
              else match t2 with
              | [] => false
              | b3 :: t3 =>
                  if between 240 244 b0 then
                    (if between 240 240 b0 then between 144 191 b1
                     else if between 244 244 b0 then between 128 143 b1
                     else cont b1)
                    && cont b2 && cont b3 && well_formed t3
                  else false
              end
          end
      end
  end.

(** [bytes.decode()] *)
Definition decode (l : list byte) : result string :=
  if well_formed l then Ret (string_of_list_byte l)
  else Raise UnicodeDecodeError.

End Utf8.

(** The transport's [MQTTMessage]: the topic is kept as the bytes that
    arrived, and the property [msg.topic] decodes them at every access. *)
Module Paho.

Record MQTTMessage : Type := mk_MQTTMessage {
  _topic : list Init.Byte.byte;
  payload : list Init.Byte.byte
}.

(** [msg.topic] *)
Definition topic (msg : MQTTMessage) : result string :=
  Utf8.decode (_topic msg).

End Paho.

(** A message whose topic decodes: [topic] is the text that [msg.topic]
    returns at each access.  [on_message_callback] below is the handler
    on the message as the transport delivers it. *)
Record mqtt_message : Type := mk_message {
  topic : string;
  payload : list Init.Byte.byte
}.

(** What the handler does that is neither a store nor a queue: the calls
    of [evaluate_rules], with the snapshot and filter they were given and
    what the evaluation logged, and the line printed by the [except]
    clause. *)
Inductive hub_event : Type :=
  | Evaluated (snapshot : PyDict.dict string) (rule_filter : string)
      (logged : list log_event)
  | PrintedError (e : exn).

Record MQTTInterface : Type := mk_hub {
  messages : PyDict.dict string;
  db_queue : list (string * string);
  publish_queue : list (pyval * string);
  rule_engine : option RuleEngineWrapper;
  topic_ping : string;
  events : list hub_event
}.

(** The default [topic_ping]. *)
Definition default_topic_ping : string := "/global/ping/devices".

Section Intake.

Variable literal_eval_str : string -> result pyval.
Variable rule_matches : string -> PyDict.dict pyval -> result bool.

(** [str(v)] *)
Variable py_str : pyval -> string.

(** The frame of one call: the interface and the local [payload],
    unbound ([None]) until the decoding succeeded. *)
Record frame : Type := mk_frame {
  this : MQTTInterface;
  payload_var : option string
}.

Definition update (f : MQTTInterface -> MQTTInterface) : M frame unit :=
  modify (fun fr => mk_frame (f (this fr)) (payload_var fr)).

Definition set_message (k v : string) (h : MQTTInterface) : MQTTInterface :=
  mk_hub (PyDict.set k v (messages h)) (db_queue h) (publish_queue h)
    (rule_engine h) (topic_ping h) (events h).

Definition db_put (x : string * string) (h : MQTTInterface)
  : MQTTInterface :=
  mk_hub (messages h) (db_queue h ++ [x]) (publish_queue h)
    (rule_engine h) (topic_ping h) (events h).

Definition publish_put (x : pyval * string) (h : MQTTInterface)
  : MQTTInterface :=
  mk_hub (messages h) (db_queue h) (publish_queue h ++ [x])
    (rule_engine h) (topic_ping h) (events h).

Definition record (ev : hub_event) (h : MQTTInterface) : MQTTInterface :=
  mk_hub (messages h) (db_queue h) (publish_queue h)
    (rule_engine h) (topic_ping h) (events h ++ [ev]).

Local Open Scope monad_scope.

(** [self.messages[k]] *)
Definition read_message (k : string) : M frame string :=
  fr <- get ;;
  match PyDict.get k (messages (this fr)) with
  | Some v => ret v
  | None => raise KeyError
  end.

(** What one action puts on the queue: the pair of
    [action_dict['topic']] and [str(action_dict['params'])] with every
    single quote replaced by a double quote, where
    [action_dict = get_var(action)]. *)
Definition action_request (action : pyval) : result (pyval * string) :=
  (action_dict <- get_var literal_eval_str action ;;
   t <- PyVal.getitem action_dict "topic" ;;
   params <- PyVal.getitem action_dict "params" ;;
   Ret (t, PyStr.replace_char "'" "034" (py_str params)))%result.

(** The body of [for action in actions]. *)
Definition enqueue_action (action : pyval) : M frame unit :=
  request <- lift (action_request action) ;;
  update (publish_put request).

(** [if self.rule_engine is not None: ...] *)
Definition process_rules (msg_topic : string) : M frame unit :=
  fr <- get ;;
  match rule_engine (this fr) with
  | None => ret tt
  | Some engine =>
      let (returned, logged) :=
        evaluate_rules literal_eval_str rule_matches (rules engine)
          (messages (this fr)) msg_topic in
      update (record (Evaluated (messages (this fr)) msg_topic logged)) ;;
      actions <- lift returned ;;
      for_each actions enqueue_action
  end.

(** [if not msg.topic.startswith('/global/'): ...]; [now] is the text of
    [datetime.datetime.now().strftime(...)]. *)
Definition process_liveness (now msg_topic payload : string)
  : M frame unit :=
  if negb (PyStr.startswith msg_topic "/global/") then
    update (db_put (msg_topic, payload)) ;;
    fr <- get ;;
    (if negb (PyDict.mem (topic_ping (this fr)) (messages (this fr)))
     then update (set_message (topic_ping (this fr)) "{}")
     else ret tt) ;;
    stored <- read_message (topic_ping (this fr)) ;;
    ping_dict <- lift (literal_eval literal_eval_str (VStr stored)) ;;
    ping_dict' <- lift (PyVal.setitem ping_dict
                          (PyStr.rsplit_slash_head msg_topic) (VStr now)) ;;
    update (publish_put (VStr (topic_ping (this fr)), py_str ping_dict'))
  else ret tt.

(** The gate of the store:
    [(topic not in self.messages.keys()) or (self.messages[topic] != payload)],
    on the raw text. *)
Definition changed (h : MQTTInterface) (msg_topic payload : string) : bool :=
  negb (PyDict.mem msg_topic (messages h))
  || negb (match PyDict.get msg_topic (messages h) with
           | Some v => String.eqb v payload
           | None => false
           end).

(** The [try] block. *)
Definition on_message_try (now : string) (msg : mqtt_message)
  : M frame unit :=
  p <- lift (Utf8.decode (payload msg)) ;;
  modify (fun fr => mk_frame (this fr) (Some p)) ;;
  if negb (PyStr.startswith (topic msg) "/") then ret tt
  else
    fr <- get ;;
    if changed (this fr) (topic msg) p then
      update (set_message (topic msg) p) ;;
      process_rules (topic msg) ;;
      process_liveness now (topic msg) p
    else ret tt.

(** The [except Exception as e] clause: its message formats [payload]. *)
Definition on_message_except (e : exn) : M frame unit :=
  fr <- get ;;
  match payload_var fr with
  | None => raise UnboundLocalError
  | Some _ => update (record (PrintedError e))
  end.

(** [on_message(client, userdata, msg)] for a message whose topic
    decodes: what the call returns or raises, and the interface it
    leaves. *)
Definition on_message (now : string) (msg : mqtt_message)
    (h : MQTTInterface) : result unit * MQTTInterface :=
  let (r, fr) :=
    try_except_Exception (on_message_try now msg) on_message_except
      (mk_frame h None) in
  (r, this fr).

(** The handler on the message as delivered.  The [try] block reads
    [msg.topic] for the first time in the [print] that follows the
    decoding of the payload; from there on it is [on_message_try] on the
    text read. *)
Definition after_decode (now msg_topic p : string) : M frame unit :=
  if negb (PyStr.startswith msg_topic "/") then ret tt
  else
    fr <- get ;;
    if changed (this fr) msg_topic p then
      update (set_message msg_topic p) ;;
      process_rules msg_topic ;;
      process_liveness now msg_topic p
    else ret tt.

Definition callback_try (now : string) (msg : Paho.MQTTMessage)
  : M frame unit :=
  p <- lift (Utf8.decode (Paho.payload msg)) ;;
  modify (fun fr => mk_frame (this fr) (Some p)) ;;
  t <- lift (Paho.topic msg) ;;
  after_decode now t p.

(** The [except] clause formats [e], then [msg.topic], then [payload]. *)
Definition callback_except (msg : Paho.MQTTMessage) (e : exn)
  : M frame unit :=
  lift (Paho.topic msg) ;;
  on_message_except e.

Definition on_message_callback (now : string) (msg : Paho.MQTTMessage)
    (h : MQTTInterface) : result unit * MQTTInterface :=
  let (r, fr) :=
    try_except_Exception (callback_try now msg) (callback_except msg)
      (mk_frame h None) in
  (r, this fr).

End Intake.


(* ================================================================= *)
(** ** The dispatcher: the loop of [MQTTInterface.start] *)

(** The interface and what the transport has taken so far. *)
Record dispatcher : Type := mk_dispatcher {
  iface : MQTTInterface;
  published : list (pyval * string)
}.

Definition set_publish_queue (q : list (pyval * string)) (h : MQTTInterface)
  : MQTTInterface :=
  mk_hub (messages h) (db_queue h) q (rule_engine h) (topic_ping h)
    (events h).

Section Dispatcher.

(** [self.client.publish(topic, payload)]: the transport either takes the
    message or raises. *)
Variable client_publish : pyval -> string -> result unit.

Local Open Scope monad_scope.

(** One turn of the [while] loop: [publish_queue.get(timeout=1)] takes
    the oldest request, or raises [queue.Empty], which is passed over;
    the request taken is handed to the transport. *)
Definition start_turn : M dispatcher unit :=
  s <- get ;;
  match publish_queue (iface s) with
  | [] => ret tt
  | (t, p) :: rest =>
      modify (fun s => mk_dispatcher (set_publish_queue rest (iface s))
                         (published s)) ;;
      lift (client_publish t p) ;;
      modify (fun s => mk_dispatcher (iface s) (published s ++ [(t, p)]))
  end.

(** The loop for as many turns as the stop event stays unset. *)
Fixpoint start_loop (turns : nat) : M dispatcher unit :=
  match turns with
  | O => ret tt
  | S n => start_turn ;; start_loop n
  end.

End Dispatcher.

(* ================================================================= *)
(** ** The query surface: [JSONWebInterface.execute_command] *)

Module Web.

(** [execute_command] raises a bare [Exception] for an unknown command,
    besides the exceptions of the builtins it calls. *)
Inductive web_exn : Type :=
  | CommandNotKnown
  | Builtin (e : exn).

(** room, then device, then attribute. *)
Definition nested_dict : Type :=
  PyDict.dict (PyDict.dict (PyDict.dict string)).

(** [key.lstrip('/')] *)
Fixpoint lstrip_slash (s : string) : string :=
  match s with
  | String c t => if Ascii.eqb c "/" then lstrip_slash t else s
  | EmptyString => EmptyString
  end.

(** [s.split('/')] *)
Fixpoint split_slash (s : string) : list string :=
  match s with
  | EmptyString => [EmptyString]
  | String c t =>
      if Ascii.eqb c "/" then EmptyString :: split_slash t
      else match split_slash t with
           | h :: r => String c h :: r
           | [] => [String c EmptyString]
           end
  end.

(** The three statements that file one value under room, device and
    attribute, creating the inner dictionaries that are missing. *)
Definition file_value (room device attribute value : string)
    (nested : nested_dict) : nested_dict :=
  let devices :=
    match PyDict.get room nested with
    | Some d => d
    | None => []
    end in
  let attributes :=
    match PyDict.get device devices with
    | Some a => a
    | None => []
    end in
  PyDict.set room
    (PyDict.set device (PyDict.set attribute value attributes) devices)
    nested.

(** The loop of [__get_nested_dict]: unpacking [parts] into three names
    raises [ValueError] for any other number of parts. *)
Fixpoint nest_items (items : PyDict.dict string) (nested : nested_dict)
  : result nested_dict :=
  match items with
  | [] => Ret nested
  | (key, value) :: rest =>
      match split_slash (lstrip_slash key) with
      | [room; device; attribute] =>
          nest_items rest (file_value room device attribute value nested)
      | _ => Raise ValueError
      end
  end.

(** [__get_nested_dict(input_dict)]; [None] has no [items]. *)
Definition __get_nested_dict (input_dict : option (PyDict.dict string))
  : result nested_dict :=
  match input_dict with
  | None => Raise AttributeError
  | Some d => nest_items d []
  end.

(** [output or {}] *)
Definition or_empty (output : option (PyDict.dict string))
  : PyDict.dict string :=
  match output with
  | Some (x :: t) => x :: t
  | _ => []
  end.

(** The loop over [self.messages.items()] that collects the entries whose
    key starts with [patt]. *)
Fixpoint collect (patt : string) (items : PyDict.dict string)
    (output : option (PyDict.dict string)) : option (PyDict.dict string) :=
  match items with
  | [] => output
  | (key, value) :: rest =>
      if PyStr.startswith key patt
      then collect patt rest (Some (PyDict.set key value (or_empty output)))
      else collect patt rest output
  end.

(** A request argument inside an f-string: an absent one prints as
    [None]. *)
Definition format_arg (a : option string) : string :=
  match a with
  | Some s => s
  | None => "None"
  end.

(** [execute_command(command, args)] on the shared [messages]; the value
    under ['output'] of what it returns. *)
Definition execute_command (command room device : option string)
    (messages : PyDict.dict string) : web_exn + nested_dict :=
  let finish (output : option (PyDict.dict string)) :=
    match __get_nested_dict output with
    | Ret nested => inr nested
    | Raise e => inl (Builtin e)
    end in
  match command with
  | Some c =>
      if String.eqb c "list_device" then
        finish (collect ("/" ++ format_arg room ++ "/" ++ format_arg device
                         ++ "/") messages None)
      else if String.eqb c "list_all_devices" then
        finish (collect "/" messages None)
      else inl CommandNotKnown
  | None => inl CommandNotKnown
  end.

(** [nested[room][device][attribute]], as a client reads the answer. *)
Definition attribute_of (nested : nested_dict)
    (room device attribute : string) : option string :=
  match PyDict.get room nested with
  | Some devices =>
      match PyDict.get device devices with
      | Some attributes => PyDict.get attribute attributes
      | None => None
      end
  | None => None
  end.

(** [web_request()]: the status code and the ['output'] of the answer. *)
Definition web_request (command room device : option string)
    (messages : PyDict.dict string) : Z * option nested_dict :=
  match execute_command command room device messages with
  | inr nested => (200, Some nested)
  | inl _ => (400, None)
  end.

End Web.

(* ================================================================= *)
(** ** Reference instances *)

(** A reference [str()], for running the model: [repr], without escape
    sequences in text. *)
Module RefStr.

Definition of_Z (n : Z) : string :=
  DecimalString.NilZero.string_of_int (Z.to_int n).

(** Whether [num / den < 10^k], for positive [num] and [den]. *)
Definition below_pow10 (num den k : Z) : bool :=
  if 0 <=? k then num <? den * 10 ^ k else num * 10 ^ (- k) <? den.

(** The least [k' >= k] with [num / den < 10^k']. *)
Fixpoint decpt_from (fuel : nat) (num den k : Z) : Z :=
  match fuel with
  | O => k
  | S fuel' =>
      if below_pow10 num den k then k else decpt_from fuel' num den (k + 1)
  end.

Definition decpt (num den : Z) : Z :=
  decpt_from 8 num den
    ((Z.log2 num - Z.log2 den) * 30103 / 100000 - 2).

(** [floor (num / den * 10^x)] *)
Definition scaled (num den x : Z) : Z :=
  if 0 <=? x then (num * 10 ^ x) / den else num / (den * 10 ^ (- x)).

(** Which of [c * 10^x] and [(c + 1) * 10^x] is nearer to [num / den],
    the even one when they are equally near. *)
Definition nearest (num den x c : Z) : Z :=
  match (if 0 <=? x
         then 2 * num * 10 ^ x ?= (2 * c + 1) * den
         else 2 * num ?= (2 * c + 1) * den * 10 ^ (- x)) with
  | Lt => c
  | Gt => c + 1
  | Eq => if Z.even c then c else c + 1
  end.

(** The digits and the exponent of the shortest decimal with at most
    [p + fuel] digits, tried from [p] digits on. *)
Fixpoint shortest_from (fuel : nat) (f : pyfloat) (num den k p : Z)
  : Z * Z :=
  let x := p - k in
  let c := scaled num den x in
  let down := SFeqb (PyNum.round_decimal false c (- x)) f in
  let up := SFeqb (PyNum.round_decimal false (c + 1) (- x)) f in
  match fuel with
  | O => (c, - x)
  | S fuel' =>
      if down && up then (nearest num den x c, - x)
      else if down then (c, - x)
      else if up then (c + 1, - x)
      else shortest_from fuel' f num den k (p + 1)
  end.

(** Drop the factors ten of [c * 10^x]. *)
Fixpoint drop_zeros (fuel : nat) (c x : Z) : Z * Z :=
  match fuel with
  | O => (c, x)
  | S fuel' =>
      if (c mod 10 =? 0) && negb (c =? 0)
      then drop_zeros fuel' (c / 10) (x + 1)
      else (c, x)
  end.

Fixpoint zeros (n : nat) : string :=
  match n with O => "" | S n' => "0" ++ zeros n' end.

Definition exponent_text (e : Z) : string :=
  (if e <? 0 then "-" else "+")
  ++ (if Z.abs e <? 10 then "0" else "") ++ of_Z (Z.abs e).

(** The text of the positive number [0.D * 10^point], [D] the digits of
    [c]. *)
Definition layout (c point : Z) : string :=
  let d := of_Z c in
  let n := Z.of_nat (String.length d) in
  if (point <=? -4) || (16 <? point) then
    String.substring 0 1 d
    ++ (if 1 <? n then "." ++ String.substring 1 (String.length d - 1) d
        else "")
    ++ "e" ++ exponent_text (point - 1)
  else if point <=? 0 then "0." ++ zeros (Z.to_nat (- point)) ++ d
  else if n <=? point then d ++ zeros (Z.to_nat (point - n)) ++ ".0"
  else String.substring 0 (Z.to_nat point) d ++ "."
       ++ String.substring (Z.to_nat point)
            (String.length d - Z.to_nat point) d.

(** The shortest decimal [c * 10^x] of the positive number [m * 2^e]. *)
Definition shortest (m : positive) (e : Z) : Z * Z :=
  let num := if 0 <=? e then Zpos m * 2 ^ e else Zpos m in
  let den := if 0 <=? e then 1 else 2 ^ (- e) in
  let k := decpt num den in
  let (c, x) := shortest_from 17 (S754_finite false m e) num den k 1 in
  drop_zeros 20 c x.

(** [repr] of a float: the shortest decimal that reads back as the same
    number, the one nearest to it when there are several, in positional
    notation from [0.0001] up to sixteen digits before the point and in
    exponent notation otherwise. *)
Definition of_float (f : pyfloat) : string :=
  match f with
  | S754_nan => "nan"
  | S754_infinity s => if s then "-inf" else "inf"
  | S754_zero s => if s then "-0.0" else "0.0"
  | S754_finite s m e =>
      let (c, x) := shortest m e in
      (if s then "-" else "")
      ++ layout c (x + Z.of_nat (String.length (of_Z c)))
  end.

Fixpoint join (l : list string) : string :=
  match l with
  | [] => ""
  | [x] => x
  | x :: t => x ++ ", " ++ join t
  end.

Fixpoint repr (v : pyval) : string :=
  let fix all (l : list pyval) : list string :=
    match l with
    | [] => []
    | x :: t => repr x :: all t
    end in
  let fix entries (l : list (pyval * pyval)) : list string :=
    match l with
    | [] => []
    | (k, x) :: t => (repr k ++ ": " ++ repr x) :: entries t
    end in
  match v with
  | VNone => "None"
  | VBool b => if b then "True" else "False"
  | VInt n => of_Z n
  | VFloat f => of_float f
  | VStr s => "'" ++ s ++ "'"
  | VList l => "[" ++ join (all l) ++ "]"
  | VTuple [x] => "(" ++ repr x ++ ",)"
  | VTuple l => "(" ++ join (all l) ++ ")"
  | VSet [] => "set()"
  | VSet l => "{" ++ join (all l) ++ "}"
  | VDict d => "{" ++ join (entries d) ++ "}"
  end.

Definition str (v : pyval) : string :=
  match v with
  | VStr s => s
  | _ => repr v
  end.

End RefStr.

(** A reference matcher for expressions of the form [name == number],
    [number] an unsigned decimal integer: [FloatSyntaxError] for a number
    written with leading zeros, [RuleSyntaxError] for any other text, which
    the engine does not answer in every such case, and
    [SymbolResolutionError] when [name] is not in the data.  The engine
    compares numbers as decimals, a [float] through its [repr]; a value
    of another type does not equal a number. *)
Module RefEngine.

(** [Decimal(repr(f)) == n] *)
Definition float_equals (f : pyfloat) (n : Z) : bool :=
  match f with
  | S754_zero _ => n =? 0
  | S754_finite s m e =>
      let (c, x) := RefStr.shortest m e in
      if 0 <=? x then PyNum.signed s (c * 10 ^ x) =? n
      else PyNum.signed s c =? n * 10 ^ (- x)
  | _ => false
  end.

Definition equals_number (v : pyval) (n : Z) : bool :=
  match v with
  | VInt k => k =? n
  | VFloat f => float_equals f n
  | _ => false
  end.

Definition matches (rule_str : string) (data : PyDict.dict pyval)
  : result bool :=
  let (name, rest) :=
    Lit.span Lit.is_name_char (list_ascii_of_string rule_str) in
  match name, rest with
  | c :: _, " " :: "=" :: "=" :: " " :: d :: ds =>
      if Lit.is_name_start c && forallb PyNum.is_digit (d :: ds) then
        if Ascii.eqb d "0" && negb (Nat.eqb (length ds) 0)
        then Raise FloatSyntaxError
        else
          match PyDict.get (string_of_list_ascii name) data with
          | None => Raise SymbolResolutionError
          | Some v =>
              Ret (equals_number v
                     (PyNum.digits_value (fst (PyNum.digitpart (d :: ds)))))
          end
      else Raise RuleSyntaxError
  | _, _ => Raise RuleSyntaxError
  end%char.

End RefEngine.

(** A small installation: one rule on [/a/b/c], a rule on a device that
    has not reported, a rule with a syntax error, a rule record that is
    not a dictionary, and a rule whose number has a leading zero. *)
Module Example.

Definition rule_info (text : string) (acts : list pyval) : pyval :=
  VDict [(VStr "rule", VStr text); (VStr "actions", VList acts)].

Definition switch_on : pyval :=
  VStr "{'topic': '/x/y/z', 'params': {'on': True}}".

Definition fan_on : pyval :=
  VStr "{'topic': '/k/fan/cmd', 'params': {'on': True}}".

Definition r_match : pyval := rule_info "/a/b/c == 5" [switch_on].
Definition r_absent : pyval := rule_info "/q/r/s == 1" [fan_on].
Definition r_syntax : pyval := rule_info "/a/b/c is 5" [fan_on].
Definition r_broken : pyval := VStr "/a/b/c == 5".
Definition r_leading_zero : pyval := rule_info "/a/b/c == 05" [fan_on].

Definition snapshot : PyDict.dict string := [("/a/b/c", "5")].

Definition engine : RuleEngineWrapper :=
  mk_wrapper (Some "rules.yaml") (VList [r_absent; r_match]) (Some 100).

Definition watcher : Repository.watcher :=
  Repository.mk_watcher engine (Some 100).

Definition hub : MQTTInterface :=
  mk_hub [("/a/b/c", "4")] [] [] (Some engine) default_topic_ping [].

Definition now : string := "2024-05-01 10:00:00".

Definition message (t p : string) : mqtt_message :=
  mk_message t (list_byte_of_string p).

Definition on_message : string -> mqtt_message -> MQTTInterface ->
                        result unit * MQTTInterface :=
  on_message Lit.literal_eval RefEngine.matches RefStr.str.

(** An engine that answers [True] on every expression that does not
    mention [_a_b], and is the reference engine on the others. *)
Definition eager_matches (rule_str : string) (data : PyDict.dict pyval)
  : result bool :=
  if PyStr.contains "_a_b" rule_str then RefEngine.matches rule_str data
  else Ret true.

End Example.

(** Whether a pass was cut short: [evaluate_rules] logs
    [ErrorUnexpected] in its outer [except] clause and nowhere else. *)
Definition is_unexpected (ev : log_event) : bool :=
  match ev with ErrorUnexpected _ => true | _ => false end.

Definition aborted (l : list log_event) : bool := existsb is_unexpected l.

(* ================================================================= *)
(** * Properties *)

Local Open Scope list_scope.

(** ** Strings *)

Lemma lower_char_inv (c : ascii) :
  c = PyStr.lower_char c \/
  c = ascii_of_nat (nat_of_ascii (PyStr.lower_char c) - 32).
Proof.
  destruct c as [[] [] [] [] [] [] [] []]; vm_compute; auto.
Qed.

Lemma contains_empty (s : string) : PyStr.contains "" s = true.
Proof. destruct s; reflexivity. Qed.

Lemma replace_char_empty (c d : ascii) : PyStr.replace_char c d "" = "".
Proof. reflexivity. Qed.

Lemma replace_char_eq_empty (c d : ascii) (s : string) :
  PyStr.replace_char c d s = "" -> s = "".
Proof. destruct s; simpl; [reflexivity | discriminate]. Qed.

(** ** Type coercion *)

Ltac split_letter H :=
  match type of H with
  | PyStr.lower_char ?c = _ =>
      let E := fresh "E" in
      destruct (lower_char_inv c) as [E | E];
      rewrite H in E; vm_compute in E; subst c; clear H
  end.

(** The sixteen spellings of [true] and the thirty-two of [false] are
    neither integers nor floats. *)
Lemma bool_word_not_number (s : string) :
  PyStr.lower s = "true" \/ PyStr.lower s = "false" ->
  s <> "" /\ PyNum.int_of_str s = None /\ PyNum.float_of_str s = None.
Proof.
  intros [H | H].
  - destruct s as [|c1 [|c2 [|c3 [|c4 [|c5 s]]]]]; simpl in H;
      try discriminate.
    injection H as H1 H2 H3 H4.
    split_letter H1; split_letter H2; split_letter H3; split_letter H4;
      (split; [discriminate | split; reflexivity]).
  - destruct s as [|c1 [|c2 [|c3 [|c4 [|c5 [|c6 s]]]]]]; simpl in H;
      try discriminate.
    injection H as H1 H2 H3 H4 H5.
    split_letter H1; split_letter H2; split_letter H3; split_letter H4;
      split_letter H5; (split; [discriminate | split; reflexivity]).
Qed.

(** The characters that text accepted by [int] is made of. *)
Lemma lstrip_keeps (l : list ascii) (c : ascii) :
  In c l -> PyNum.is_space c = true \/ In c (PyNum.lstrip l).
Proof.
  induction l as [|x t IH]; simpl; [tauto|].
  intros [-> | H].
  - destruct (PyNum.is_space c) eqn:E; [left; reflexivity | right; now left].
  - destruct (PyNum.is_space x) eqn:E; [auto | right; now right].
Qed.

Lemma strip_keeps (l : list ascii) (c : ascii) :
  In c l -> PyNum.is_space c = true \/ In c (PyNum.strip l).
Proof.
  intros H. unfold PyNum.strip.
  destruct (lstrip_keeps l c H) as [|H1]; [now left|].
  apply in_rev in H1.
  destruct (lstrip_keeps _ c H1) as [|H2]; [now left|].
  right. now apply in_rev in H2.
Qed.

Lemma sign_keeps (l body : list ascii) (neg : bool) (c : ascii) :
  PyNum.sign l = (neg, body) -> In c l ->
  c = "-"%char \/ c = "+"%char \/ In c body.
Proof.
  destruct l as [|x t]; simpl; [tauto|].
  destruct (Ascii.eqb_spec x "-"); [|destruct (Ascii.eqb_spec x "+")];
    intros [= <- <-]; simpl; intuition congruence.
Qed.

Lemma digitpart_all_bounded (n : nat) :
  forall (l : list ascii) (ds : list Z),
    (length l <= n)%nat -> PyNum.digitpart l = (ds, []) ->
    forall c, In c l -> PyNum.is_digit c = true \/ c = "_"%char.
Proof.
  induction n as [|n IH]; intros l ds Hlen H c Hin.
  - destruct l; [contradiction | simpl in Hlen; lia].
  - destruct l as [|x t]; [contradiction|].
    simpl in H, Hlen.
    destruct (PyNum.digit x) as [d|] eqn:Hx; [|discriminate].
    assert (Hdx : PyNum.is_digit x = true)
      by (unfold PyNum.is_digit; now rewrite Hx).
    destruct Hin as [<- | Hin]; [now left|].
    destruct t as [|u t']; [contradiction|].
    destruct (Ascii.eqb u "_" && PyNum.starts_with_digit t')%bool eqn:Hu.
    + apply andb_prop in Hu as [Hu _]. apply Ascii.eqb_eq in Hu. subst u.
      destruct Hin as [<- | Hin]; [now right|].
      destruct (PyNum.digitpart t') as [ds' r] eqn:Ht'.
      injection H as _ ->.
      apply (@IH t' ds'); [simpl in Hlen; lia | assumption | assumption].
    + destruct (PyNum.digitpart (u :: t')) as [ds' r] eqn:Ht.
      injection H as _ ->.
      apply (@IH (u :: t') ds'); [lia | assumption | assumption].
Qed.

Lemma cont_high (c : ascii) (x : N) :
  Unicode.cont c = Some x -> (128 <= N_of_ascii c)%N.
Proof.
  unfold Unicode.cont.
  destruct (N.leb_spec 128 (N_of_ascii c)); [trivial | discriminate].
Qed.

Lemma push_some {A : Type} (x : option A) (r : option (list A))
    (l : list A) :
  Unicode.push x r = Some l ->
  exists a t, x = Some a /\ r = Some t /\ l = a :: t.
Proof.
  destruct x as [a|], r as [t|]; simpl; try discriminate.
  intros [= <-]. eauto.
Qed.

(** A byte below 128 is a character of its own. *)
Lemma points_keeps (n : nat) :
  forall (l : list ascii) (pts : list N),
    (length l <= n)%nat -> Unicode.points l = Some pts ->
    forall c, In c l -> (N_of_ascii c < 128)%N -> In (N_of_ascii c) pts.
Proof.
  induction n as [|n IH]; intros l pts Hlen H c Hin Hc.
  - destruct l; [contradiction | simpl in Hlen; lia].
  - destruct l as [|b0 t]; [contradiction|].
    cbn [Unicode.points] in H. simpl in Hlen.
    destruct (N.ltb_spec (N_of_ascii b0) 128) as [H0|H0].
    { apply push_some in H as (a & r & [= <-] & Hr & ->).
      destruct Hin as [<- | Hin]; [now left | right].
      apply (IH t r); [lia | assumption | assumption | assumption]. }
    destruct Hin as [<- | Hin]; [lia|].
    destruct t as [|b1 t1]; [discriminate|].
    destruct (N_of_ascii b0 <? 224)%N.
    { apply push_some in H as (a & r & Ha & Hr & ->).
      unfold Unicode.seq2 in Ha.
      destruct (Unicode.cont b1) as [x1|] eqn:H1; [|discriminate].
      apply cont_high in H1.
      destruct Hin as [<- | Hin]; [lia | right].
      apply (IH t1 r); [simpl in Hlen; lia | assumption | assumption
                       | assumption]. }
    destruct t1 as [|b2 t2]; [discriminate|].
    destruct (N_of_ascii b0 <? 240)%N.
    { apply push_some in H as (a & r & Ha & Hr & ->).
      unfold Unicode.seq3 in Ha.
      destruct (Unicode.cont b1) as [x1|] eqn:H1; [|discriminate].
      destruct (Unicode.cont b2) as [x2|] eqn:H2; [|discriminate].
      apply cont_high in H1. apply cont_high in H2.
      destruct Hin as [<- | [<- | Hin]]; [lia | lia | right].
      apply (IH t2 r); [simpl in Hlen; lia | assumption | assumption
                       | assumption]. }
    destruct t2 as [|b3 t3]; [discriminate|].
    apply push_some in H as (a & r & Ha & Hr & ->).
    unfold Unicode.seq4 in Ha.
    destruct (Unicode.cont b1) as [x1|] eqn:H1; [|discriminate].
    destruct (Unicode.cont b2) as [x2|] eqn:H2; [|discriminate].
    destruct (Unicode.cont b3) as [x3|] eqn:H3; [|discriminate].
    apply cont_high in H1. apply cont_high in H2. apply cont_high in H3.
    destruct Hin as [<- | [<- | [<- | Hin]]]; [lia | lia | lia | right].
    apply (IH t3 r); [simpl in Hlen; lia | assumption | assumption
                     | assumption].
Qed.

Lemma to_ascii_points_keeps (pts : list N) :
  forall l : list ascii,
    Unicode.to_ascii_points pts = Some l ->
    forall cp, In cp pts -> (cp < 128)%N -> In (ascii_of_N cp) l.
Proof.
  induction pts as [|p t IH]; intros l H cp Hin Hcp; [contradiction|].
  cbn [Unicode.to_ascii_points] in H.
  apply push_some in H as (a & r & Ha & Hr & ->).
  destruct Hin as [-> | Hin]; [left | right; now apply IH].
  unfold Unicode.to_ascii_point in Ha.
  destruct (N.ltb_spec cp 127) as [Hlt|Hge]; [congruence|].
  assert (cp = 127%N) by lia. subst cp. discriminate.
Qed.

(** The transformation keeps every byte below 128. *)
Lemma to_ascii_keeps (l l' : list ascii) (c : ascii) :
  Unicode.to_ascii l = Some l' -> In c l ->
  (128 <=? N_of_ascii c)%N = true \/ In c l'.
Proof.
  unfold Unicode.to_ascii. intros H Hin.
  destruct (Unicode.points l) as [pts|] eqn:Hp; [|discriminate].
  destruct (N.leb_spec 128 (N_of_ascii c)) as [|Hc]; [now left | right].
  rewrite <- (ascii_N_embedding c).
  apply (to_ascii_points_keeps pts H).
  - now apply (@points_keeps (length l) l pts (le_n _) Hp).
  - assumption.
Qed.

Lemma int_of_str_chars (s : string) (n : Z) :
  PyNum.int_of_str s = Some n ->
  forall c, In c (list_ascii_of_string s) ->
    (128 <=? N_of_ascii c)%N = true \/
    PyNum.is_space c = true \/ c = "-"%char \/ c = "+"%char \/
    PyNum.is_digit c = true \/ c = "_"%char.
Proof.
  unfold PyNum.int_of_str. intros H c Hin.
  destruct (Unicode.to_ascii (list_ascii_of_string s)) as [l|] eqn:Hl;
    [|discriminate].
  destruct (PyNum.sign (PyNum.strip l)) as [neg body] eqn:Hs.
  destruct (PyNum.digitpart body) as [ds r] eqn:Hd.
  destruct ds as [|d ds]; [discriminate|].
  destruct r; [|discriminate].
  destruct (to_ascii_keeps _ c Hl Hin) as [|H0]; [now left | right].
  destruct (strip_keeps _ c H0) as [|H1]; [now left|].
  destruct (sign_keeps _ c Hs H1) as [|[|H2]]; [tauto | tauto |].
  destruct (@digitpart_all_bounded _ _ _ (le_n _) Hd c H2); tauto.
Qed.

Lemma contains_char_false (x : ascii) (s : string) :
  ~ In x (list_ascii_of_string s) ->
  PyStr.contains (String x "") s = false.
Proof.
  induction s as [|c t IH]; simpl; [reflexivity|].
  intros H.
  destruct (ascii_dec x c) as [->|Hne]; [exfalso; apply H; now left|].
  simpl. apply IH. intros Hin. apply H. now right.
Qed.

Lemma int_text_has_no_point_or_e (s : string) (n : Z) :
  PyNum.int_of_str s = Some n ->
  s <> "" /\ PyStr.contains "." s = false /\ PyStr.contains "e" s = false.
Proof.
  intros H. split; [|split].
  - intros ->. discriminate.
  - apply contains_char_false. intros Hin.
    destruct (int_of_str_chars s H _ Hin) as [E|[E|[E|[E|[E|E]]]]];
      vm_compute in E; discriminate.
  - apply contains_char_false. intros Hin.
    destruct (int_of_str_chars s H _ Hin) as [E|[E|[E|[E|[E|E]]]]];
      vm_compute in E; discriminate.
Qed.

Lemma length_pos (s : string) :
  s <> "" -> (0 <? Z.of_nat (String.length s)) = true.
Proof. destruct s; [congruence | intros _; apply Z.ltb_lt; simpl; lia]. Qed.

Lemma is_int_text (s : string) :
  _is_int (VStr s) = true <-> exists n, PyNum.int_of_str s = Some n.
Proof.
  unfold _is_int, py_int. split.
  - destruct (0 <? Z.of_nat (String.length s)); [|discriminate].
    destruct (PyNum.int_of_str s) as [n|]; [eauto | discriminate].
  - intros [n H].
    destruct (int_text_has_no_point_or_e s H) as (Hne & Hp & He).
    now rewrite (length_pos Hne), H, Hp, He.
Qed.

Lemma is_int_text_false (s : string) :
  PyNum.int_of_str s = None -> _is_int (VStr s) = false.
Proof.
  intros H. destruct (_is_int (VStr s)) eqn:E; [|reflexivity].
  apply is_int_text in E as [n E]. congruence.
Qed.

Lemma is_float_text (s : string) :
  _is_float (VStr s) = true <->
  exists f, PyNum.float_of_str s = Some f /\
            PyStr.contains "." s || PyStr.contains "e" (PyStr.lower s) = true.
Proof.
  unfold _is_float, py_float. split.
  - destruct (0 <? Z.of_nat (String.length s)); [|discriminate].
    destruct (PyNum.float_of_str s) as [f|]; [eauto | discriminate].
  - intros (f & H & Hc).
    assert (Hne : s <> "") by (intros ->; discriminate).
    now rewrite (length_pos Hne), H.
Qed.

Lemma is_bool_text (s : string) :
  _is_bool (VStr s) = true <->
  PyStr.lower s = "true" \/ PyStr.lower s = "false".
Proof.
  unfold _is_bool. split.
  - destruct (0 <? Z.of_nat (String.length s)); [|discriminate].
    intros H. apply orb_prop in H as [H | H]; apply String.eqb_eq in H; auto.
  - intros H.
    assert (Hne : s <> "") by (destruct H as [H|H]; intros ->; discriminate).
    rewrite (length_pos Hne).
    destruct H as [-> | ->]; reflexivity.
Qed.

Section CoercionFacts.

Variable le : string -> result pyval.

Lemma get_var_int_text (s : string) (n : Z) :
  PyNum.int_of_str s = Some n -> get_var le (VStr s) = Ret (VInt n).
Proof.
  intros H. unfold get_var.
  rewrite (proj2 (is_int_text s) (ex_intro _ n H)).
  simpl. now rewrite H.
Qed.

Lemma get_var_float_text (s : string) (f : pyfloat) :
  PyNum.int_of_str s = None ->
  PyNum.float_of_str s = Some f ->
  PyStr.contains "." s || PyStr.contains "e" (PyStr.lower s) = true ->
  get_var le (VStr s) = Ret (VFloat f).
Proof.
  intros Hi Hf Hc. unfold get_var.
  rewrite (is_int_text_false s Hi).
  rewrite (proj2 (is_float_text s) (ex_intro _ f (conj Hf Hc))).
  simpl. now rewrite Hf.
Qed.

Lemma is_float_text_false (s : string) :
  PyNum.float_of_str s = None \/
  PyStr.contains "." s || PyStr.contains "e" (PyStr.lower s) = false ->
  _is_float (VStr s) = false.
Proof.
  intros H. destruct (_is_float (VStr s)) eqn:E; [|reflexivity].
  apply is_float_text in E as (f & Hf & Hc).
  destruct H; congruence.
Qed.

Lemma get_var_bool_text (s : string) :
  PyStr.lower s = "true" \/ PyStr.lower s = "false" ->
  get_var le (VStr s) = Ret (VBool (String.eqb (PyStr.lower s) "true")).
Proof.
  intros H. unfold get_var.
  destruct (bool_word_not_number s H) as (_ & Hi & Hf).
  rewrite (is_int_text_false s Hi), (is_float_text_false s (or_introl Hf)).
  now rewrite (proj2 (is_bool_text s) H).
Qed.

Lemma is_bool_text_false (s : string) :
  PyStr.lower s <> "true" -> PyStr.lower s <> "false" ->
  _is_bool (VStr s) = false.
Proof.
  intros H1 H2. destruct (_is_bool (VStr s)) eqn:E; [|reflexivity].
  apply is_bool_text in E. tauto.
Qed.

(** Below the three scalar levels the outcome is that of
    [ast.literal_eval]: its value, the text itself when it raised
    [ValueError] or [SyntaxError], its exception otherwise. *)
Lemma get_var_literal_text (s : string) :
  _is_int (VStr s) = false -> _is_float (VStr s) = false ->
  _is_bool (VStr s) = false ->
  get_var le (VStr s) =
  match le s with
  | Ret v => Ret v
  | Raise e =>
      if isinstance e ValueError || isinstance e SyntaxError
      then Ret (VStr s) else Raise e
  end.
Proof.
  intros Hi Hf Hb. unfold get_var. rewrite Hi, Hf, Hb.
  unfold _is_dict, literal_eval. cbn beta iota.
  destruct (le s) as [v|e]; [reflexivity|].
  destruct e; reflexivity.
Qed.

End CoercionFacts.

(** [int] and [float] at work: an Arabic-Indic digit three, a file
    separator that is no blank for them, blanks and an underscore, a
    number too large for binary64, and one that is rounded. *)
Example int_and_float_examples :
  PyNum.int_of_str (String "217" (String "163" "")) = Some 3 /\
  PyNum.int_of_str (String "5" (String "028" "")) = None /\
  PyNum.int_of_str " 1_000 " = Some 1000 /\
  PyNum.float_of_str "1e400" = Some (S754_infinity false) /\
  PyNum.float_of_str "0.1"
    = Some (S754_finite false 7205759403792794 (-56)) /\
  RefStr.of_float (S754_finite false 7205759403792794 (-56)) = "0.1".
Proof. repeat split; reflexivity. Qed.

(** C1 (the code departs from it).  The examples of the specification
    evaluate as it says.  But below the three scalar levels [get_var]
    does not look at what [ast.literal_eval] returned: [_is_dict] answers
    [True] for every text that is a literal, and the value of the literal
    is returned whatever it is.  So [None], a quoted string and a
    parenthesised number come back as [None], the string without its
    quotes and the number: neither a structured value nor the text
    unchanged. *)
Theorem get_var_returns_any_literal :
  (forall le,
      get_var le (VStr "5") = Ret (VInt 5) /\
      get_var le (VStr "5.0")
        = Ret (VFloat (S754_finite false 5629499534213120 (-50))) /\
      get_var le (VStr "True") = Ret (VBool true) /\
      get_var le (VStr "false") = Ret (VBool false)) /\
  get_var Lit.literal_eval (VStr "{'a': 1}")
    = Ret (VDict [(VStr "a", VInt 1)]) /\
  get_var Lit.literal_eval (VStr "hello") = Ret (VStr "hello") /\
  (forall le s v,
      _is_int (VStr s) = false -> _is_float (VStr s) = false ->
      _is_bool (VStr s) = false ->
      le s = Ret v ->
      _is_dict le (VStr s) = Ret true /\ get_var le (VStr s) = Ret v) /\
  get_var Lit.literal_eval (VStr "None") = Ret VNone /\
  get_var Lit.literal_eval (VStr "'hello'") = Ret (VStr "hello") /\
  get_var Lit.literal_eval (VStr "(5)") = Ret (VInt 5).
Proof.
  split; [|split; [|split; [|split; [|split; [|split]]]]];
    try reflexivity.
  - intros le. repeat split; reflexivity.
  - intros le s v Hi Hf Hb Hv. split.
    + unfold _is_dict, literal_eval. now rewrite Hv.
    + now rewrite get_var_literal_text, Hv.
Qed.

(** C5 (the code departs from it).  [get_var] passes an [int] and a
    [float] through, but raises [AttributeError] on a [bool], whose
    [lower] it calls, and [ValueError] on a [dict], which it hands to
    [ast.literal_eval]; on text it lets through every exception of
    [ast.literal_eval] other than [ValueError] and [SyntaxError], such as
    the [TypeError] of an unhashable dictionary key. *)
Theorem get_var_exceptions_escape :
  forall le,
    (forall n, get_var le (VInt n) = Ret (VInt n)) /\
    (forall f, get_var le (VFloat f) = Ret (VFloat f)) /\
    (forall b, get_var le (VBool b) = Raise AttributeError) /\
    (forall d, get_var le (VDict d) = Raise ValueError) /\
    get_var Lit.literal_eval (VStr "{[1]: 2}") = Raise TypeError.
Proof.
  intros le. repeat split; reflexivity.
Qed.

(** ** The state and exception monad *)

Ltac run_m :=
  unfold bind, lift, ret, raise, try_except, try_except_Exception,
    logging, modify, get in *;
  cbn beta iota in *.

Lemma for_each_app {S A : Type} (l1 l2 : list A) (body : A -> M S unit)
    (s : S) :
  for_each (l1 ++ l2) body s =
  match for_each l1 body s with
  | (Ret _, s') => for_each l2 body s'
  | (Raise e, s') => (Raise e, s')
  end.
Proof.
  revert s. induction l1 as [|x t IH]; intros s; simpl; [reflexivity|].
  unfold bind. destruct (body x s) as [[[]|e] s']; [apply IH | reflexivity].
Qed.

Lemma for_each_append_output (items : list pyval) (s : eval_state) :
  for_each items append_output s =
  (Ret tt, mk_eval_state (output s ++ items) (log s)).
Proof.
  revert s. induction items as [|x t IH]; intros s; simpl.
  - rewrite app_nil_r. now destruct s.
  - unfold bind, append_output at 1, modify. rewrite IH. simpl.
    now rewrite <- app_assoc.
Qed.

(** ** Rule evaluation *)

Lemma iter_raises (v : pyval) (e : exn) :
  PyVal.iter v = Raise e -> e = TypeError.
Proof. destruct v; simpl; congruence. Qed.

Section EvaluationFacts.

Variable le : string -> result pyval.

(** One rule, whatever the state it starts from: it returns or raises,
    appends some actions and some log lines, appends no action when it
    raises, never logs [ErrorUnexpected], and runs the engine only on an
    expression that contains the filter. *)
Lemma evaluate_rule_shape (m : string -> PyDict.dict pyval -> result bool)
    (pd : PyDict.dict pyval) (f : string) (r : pyval) :
  exists (res : result unit) (o : list pyval) (lg : list log_event),
    (forall s, evaluate_rule m pd f r s
               = (res, mk_eval_state (output s ++ o) (log s ++ lg))) /\
    (is_ret res = false -> o = []) /\
    aborted lg = false /\
    (forall rs, In (DebugRuleEngine rs) lg ->
                PyStr.contains (PyStr.replace_char "/" "_" f) rs = true).
Proof.
  unfold evaluate_rule.
  assert (Hid : forall s : eval_state,
             s = mk_eval_state (output s ++ []) (log s ++ []))
    by (intros []; simpl; now rewrite !app_nil_r).
  run_m.
  destruct (PyVal.getitem r "rule") as [rule|e]; cbn beta iota;
    [|exists (Raise e), [], []; repeat split;
      [intros; f_equal; apply Hid | contradiction]].
  destruct (_preprocess_rule rule) as [rule_str|e]; cbn beta iota;
    [|exists (Raise e), [], []; repeat split;
      [intros; f_equal; apply Hid | contradiction]].
  destruct (PyVal.getitem r "actions") as [actions|e]; cbn beta iota;
    [|exists (Raise e), [], []; repeat split;
      [intros; f_equal; apply Hid | contradiction]].
  cbn [_preprocess_rule].
  destruct (PyStr.contains (PyStr.replace_char "/" "_" f) rule_str) eqn:Hc;
    [|exists (Ret tt), [], []; repeat split;
      [intros; f_equal; apply Hid | contradiction]].
  assert (Hin : forall l rs,
             In (DebugRuleEngine rs) (DebugRuleEngine rule_str :: l) ->
             (forall ev, In ev l -> ev <> DebugRuleEngine rs) ->
             PyStr.contains (PyStr.replace_char "/" "_" f) rs = true).
  { intros l rs [[= <-] | H] Hl; [assumption | now apply Hl in H]. }
  destruct (m rule_str pd) as [[|]|e].
  - destruct (PyVal.iter actions) as [items|e] eqn:Hit.
    + exists (Ret tt), items, [DebugRuleEngine rule_str].
      repeat split; [|discriminate | intros rs H; apply (Hin [] rs H); intros ev []].
      intros s. simpl. now rewrite for_each_append_output.
    + exists (Raise e), [], [DebugRuleEngine rule_str].
      repeat split; [|intros rs H; apply (Hin [] rs H); intros ev []].
      intros s. simpl. rewrite (iter_raises _ Hit). simpl.
      now rewrite app_nil_r.
  - exists (Ret tt), [], [DebugRuleEngine rule_str].
    repeat split; [|intros rs H; apply (Hin [] rs H); intros ev []].
    intros s. simpl. now rewrite app_nil_r.
  - destruct (isinstance e RuleSyntaxError) eqn:E1;
      [|destruct (isinstance e SymbolResolutionError) eqn:E2].
    + exists (Ret tt), [], [DebugRuleEngine rule_str; ErrorRuleSyntax rule_str].
      repeat split;
        [|intros rs H; apply (Hin _ rs H); intros ev [<-|[]]; discriminate].
      intros s. cbn [dispatch]. rewrite E1. simpl.
      now rewrite app_nil_r, <- app_assoc.
    + exists (Ret tt), [], [DebugRuleEngine rule_str; InfoNotFound e].
      repeat split;
        [|intros rs H; apply (Hin _ rs H); intros ev [<-|[]]; discriminate].
      intros s. cbn [dispatch]. rewrite E1, E2. simpl.
      now rewrite app_nil_r, <- app_assoc.
    + exists (Raise e), [], [DebugRuleEngine rule_str].
      repeat split; [|intros rs H; apply (Hin [] rs H); intros ev []].
      intros s. cbn [dispatch]. rewrite E1, E2. simpl.
      now rewrite app_nil_r.
Qed.

(** The loop over the rules has the same shape. *)
Lemma rules_loop_shape (m : string -> PyDict.dict pyval -> result bool)
    (pd : PyDict.dict pyval) (f : string) (l : list pyval) :
  exists (res : result unit) (o : list pyval) (lg : list log_event),
    (forall s, for_each l (evaluate_rule m pd f) s
               = (res, mk_eval_state (output s ++ o) (log s ++ lg))) /\
    aborted lg = false /\
    (forall rs, In (DebugRuleEngine rs) lg ->
                PyStr.contains (PyStr.replace_char "/" "_" f) rs = true).
Proof.
  induction l as [|r t (res & o & lg & IH & IHa & IHd)].
  - exists (Ret tt), [], []. repeat split; [|contradiction].
    intros []. simpl. unfold ret. now rewrite !app_nil_r.
  - destruct (evaluate_rule_shape m pd f r)
      as (res1 & o1 & lg1 & H1 & Ho1 & Ha1 & Hd1).
    destruct res1 as [[]|e].
    + exists res, (o1 ++ o), (lg1 ++ lg). split; [|split].
      * intros s. simpl. unfold bind. rewrite H1, IH. simpl.
        now rewrite !app_assoc.
      * unfold aborted in *. rewrite existsb_app, Ha1, IHa. reflexivity.
      * intros rs H. apply in_app_or in H as [H | H]; auto.
    + exists (Raise e), o1, lg1. split; [|split]; auto.
      intros s. simpl. unfold bind. now rewrite H1.
Qed.

(** [evaluate_rules] in closed form. *)
Lemma evaluate_rules_eq (m : string -> PyDict.dict pyval -> result bool)
    (rules : pyval) (data : PyDict.dict string) (f : string) :
  evaluate_rules le m rules data f =
  match rules with
  | VNone => (Ret [], [])
  | _ =>
      match _preprocess_data le data with
      | Raise e => (Ret [], [ErrorUnexpected e])
      | Ret pd =>
          match PyVal.iter rules with
          | Raise e => (Ret [], [ErrorUnexpected e])
          | Ret l =>
              let (res, s) :=
                for_each l (evaluate_rule m pd f) (mk_eval_state [] []) in
              (Ret (output s),
               match res with
               | Ret _ => log s
               | Raise e => log s ++ [ErrorUnexpected e]
               end)
          end
      end
  end.
Proof.
  unfold evaluate_rules, evaluate_rules_body, evaluate_pass.
  destruct rules; try reflexivity; run_m;
    destruct (_preprocess_data le data) as [pd|e]; try reflexivity;
    cbn beta iota;
    match goal with
    | |- context [PyVal.iter ?v] =>
        destruct (PyVal.iter v) as [l|e]; try reflexivity; cbn beta iota;
        destruct (for_each l (evaluate_rule m pd f) (mk_eval_state [] []))
          as [[[]|e'] st]; reflexivity
    end.
Qed.

Lemma evaluate_rules_list (m : string -> PyDict.dict pyval -> result bool)
    (l : list pyval) (data : PyDict.dict string) (f : string)
    (pd : PyDict.dict pyval) :
  _preprocess_data le data = Ret pd ->
  evaluate_rules le m (VList l) data f =
  let (res, s) := for_each l (evaluate_rule m pd f) (mk_eval_state [] []) in
  (Ret (output s),
   match res with
   | Ret _ => log s
   | Raise e => log s ++ [ErrorUnexpected e]
   end).
Proof. intros H. rewrite evaluate_rules_eq, H. reflexivity. Qed.

End EvaluationFacts.

Lemma for_each_ext {S A : Type} (l : list A) (body body' : A -> M S unit) :
  (forall x s, body x s = body' x s) ->
  forall s, for_each l body s = for_each l body' s.
Proof.
  intros H. induction l as [|x t IH]; intros s; simpl; [reflexivity|].
  unfold bind. rewrite H. destruct (body' x s) as [[[]|e] s']; auto.
Qed.

(** A rule on which the engine raises one of the two errors of the
    inner [except] clauses returns normally and appends no action. *)
Lemma evaluate_rule_skips (m : string -> PyDict.dict pyval -> result bool)
    (pd : PyDict.dict pyval) (f : string) (r : pyval) (text : string)
    (acts : pyval) (e : exn) :
  PyVal.getitem r "rule" = Ret (VStr text) ->
  PyVal.getitem r "actions" = Ret acts ->
  m (PyStr.replace_char "/" "_" text) pd = Raise e ->
  e = RuleSyntaxError \/ e = SymbolResolutionError ->
  forall s,
    evaluate_rule m pd f r s =
    (Ret tt,
     mk_eval_state (output s)
       (log s ++
        if PyStr.contains (PyStr.replace_char "/" "_" f)
             (PyStr.replace_char "/" "_" text)
        then [DebugRuleEngine (PyStr.replace_char "/" "_" text);
              if exn_eqb e RuleSyntaxError
              then ErrorRuleSyntax (PyStr.replace_char "/" "_" text)
              else InfoNotFound e]
        else [])).
Proof.
  intros Hr Ha Hm He s. unfold evaluate_rule. run_m.
  rewrite Hr. cbn. rewrite Ha. cbn.
  destruct (PyStr.contains _ _).
  - rewrite Hm. destruct He as [-> | ->]; cbn; now rewrite <- app_assoc.
  - rewrite app_nil_r. now destruct s.
Qed.

(** A well-formed rule that passes the pre-filter and on which the
    engine raises anything but the two errors of the inner [except]
    clauses raises in its turn, after the engine line is logged. *)
Lemma evaluate_rule_raises (m : string -> PyDict.dict pyval -> result bool)
    (pd : PyDict.dict pyval) (f : string) (r : pyval) (text : string)
    (acts : pyval) (e : exn) :
  PyVal.getitem r "rule" = Ret (VStr text) ->
  PyVal.getitem r "actions" = Ret acts ->
  PyStr.contains (PyStr.replace_char "/" "_" f)
    (PyStr.replace_char "/" "_" text) = true ->
  m (PyStr.replace_char "/" "_" text) pd = Raise e ->
  isinstance e RuleSyntaxError = false ->
  isinstance e SymbolResolutionError = false ->
  forall s,
    evaluate_rule m pd f r s =
    (Raise e,
     mk_eval_state (output s)
       (log s ++ [DebugRuleEngine (PyStr.replace_char "/" "_" text)])).
Proof.
  intros Hr Ha Hc Hm H1 H2 s. unfold evaluate_rule. run_m.
  rewrite Hr. cbn. rewrite Ha. cbn. rewrite Hc, Hm.
  cbn in H1, H2 |- *. now rewrite H1, H2.
Qed.

Lemma not_aborted_returns (lg : list log_event) (res : result unit) :
  aborted match res with
          | Ret _ => lg
          | Raise e => lg ++ [ErrorUnexpected e]
          end = false ->
  res = Ret tt.
Proof.
  destruct res as [[]|e]; [reflexivity|].
  unfold aborted. rewrite existsb_app. simpl.
  rewrite orb_true_r. discriminate.
Qed.

(** C3 (the code departs from it).  The inner [except] clauses name
    [RuleSyntaxError] and [SymbolResolutionError] only.  A rule on which
    the engine raises another error, such as the [FloatSyntaxError] it
    has for a number written with a leading zero, is not skipped alone:
    the error reaches the outer clause, which ends the pass.  The call
    returns the actions of the rules before that one, and no later rule
    is evaluated, whatever it is. *)
Theorem unhandled_engine_error_aborts_pass :
  forall (le : string -> result pyval)
         (m : string -> PyDict.dict pyval -> result bool)
         (data : PyDict.dict string) (f : string) (pd : PyDict.dict pyval)
         (l1 l2 : list pyval) (r : pyval) (text : string) (acts : pyval)
         (e : exn),
    _preprocess_data le data = Ret pd ->
    PyVal.getitem r "rule" = Ret (VStr text) ->
    PyVal.getitem r "actions" = Ret acts ->
    PyStr.contains (PyStr.replace_char "/" "_" f)
      (PyStr.replace_char "/" "_" text) = true ->
    m (PyStr.replace_char "/" "_" text) pd = Raise e ->
    isinstance e RuleSyntaxError = false ->
    isinstance e SymbolResolutionError = false ->
    aborted (snd (evaluate_rules le m (VList l1) data f)) = false ->
    evaluate_rules le m (VList (l1 ++ r :: l2)) data f
    = (fst (evaluate_rules le m (VList l1) data f),
       snd (evaluate_rules le m (VList l1) data f)
       ++ [DebugRuleEngine (PyStr.replace_char "/" "_" text);
           ErrorUnexpected e]).
Proof.
  intros le m data f pd l1 l2 r text acts e Hpd Hr Ha Hc Hm H1 H2.
  rewrite !(evaluate_rules_list le m _ data f Hpd), for_each_app.
  destruct (for_each l1 (evaluate_rule m pd f) (mk_eval_state [] []))
    as [res1 s1].
  cbn [snd fst]. intros Hab. apply not_aborted_returns in Hab. subst res1.
  cbn [for_each]. unfold bind at 1.
  rewrite (evaluate_rule_raises m pd f r Hr Ha Hc Hm H1 H2).
  cbn [output log]. now rewrite <- app_assoc.
Qed.

Lemma evaluate_rule_agree (m m' : string -> PyDict.dict pyval -> result bool)
    (f : string) :
  (forall rs pd, PyStr.contains (PyStr.replace_char "/" "_" f) rs = true ->
                 m rs pd = m' rs pd) ->
  forall pd r s, evaluate_rule m pd f r s = evaluate_rule m' pd f r s.
Proof.
  intros H pd r s. unfold evaluate_rule. run_m.
  destruct (PyVal.getitem r "rule") as [rule|e]; [|reflexivity].
  cbn beta iota.
  destruct (_preprocess_rule rule) as [rule_str|e]; [|reflexivity].
  cbn beta iota.
  destruct (PyVal.getitem r "actions") as [actions|e]; [|reflexivity].
  cbn.
  destruct (PyStr.contains (PyStr.replace_char "/" "_" f) rule_str) eqn:Hc;
    [|reflexivity].
  now rewrite (H rule_str pd Hc).
Qed.

Lemma evaluate_rules_debug_lines (le : string -> result pyval)
    (m : string -> PyDict.dict pyval -> result bool) (rules : pyval)
    (data : PyDict.dict string) (f rs : string) :
  In (DebugRuleEngine rs) (snd (evaluate_rules le m rules data f)) ->
  PyStr.contains (PyStr.replace_char "/" "_" f) rs = true.
Proof.
  rewrite evaluate_rules_eq.
  assert (Hone : forall e, In (DebugRuleEngine rs) [ErrorUnexpected e] ->
                           PyStr.contains (PyStr.replace_char "/" "_" f) rs
                           = true)
    by (intros e [H|[]]; discriminate).
  assert (Hgen :
    In (DebugRuleEngine rs)
      (snd match _preprocess_data le data with
           | Raise e => (Ret [], [ErrorUnexpected e])
           | Ret pd =>
               match PyVal.iter rules with
               | Raise e => (Ret [], [ErrorUnexpected e])
               | Ret l =>
                   let (res, s) :=
                     for_each l (evaluate_rule m pd f) (mk_eval_state [] []) in
                   (Ret (output s),
                    match res with
                    | Ret _ => log s
                    | Raise e => log s ++ [ErrorUnexpected e]
                    end)
               end
           end) ->
    PyStr.contains (PyStr.replace_char "/" "_" f) rs = true).
  { destruct (_preprocess_data le data) as [pd|e]; [|apply Hone].
    destruct (PyVal.iter rules) as [l|e]; [|apply Hone].
    destruct (rules_loop_shape m pd f l) as (res & o & lg & H & _ & Hd).
    rewrite H. simpl. destruct res as [[]|e]; [apply Hd|].
    intros Hin. apply in_app_or in Hin as [Hin | Hin]; [auto | eauto]. }
  destruct rules; try exact Hgen. intros [].
Qed.

(** With the empty filter, a rule that returns has had its expression
    handed to the engine, and its actions appended when the engine
    answered [True]. *)
Lemma evaluate_rule_empty_filter
    (m : string -> PyDict.dict pyval -> result bool)
    (pd : PyDict.dict pyval) (r : pyval) (s s' : eval_state) :
  evaluate_rule m pd "" r s = (Ret tt, s') ->
  exists text acts,
    PyVal.getitem r "rule" = Ret (VStr text) /\
    PyVal.getitem r "actions" = Ret acts /\
    In (DebugRuleEngine (PyStr.replace_char "/" "_" text)) (log s') /\
    (m (PyStr.replace_char "/" "_" text) pd = Ret true ->
     exists items, PyVal.iter acts = Ret items /\ incl items (output s')).
Proof.
  unfold evaluate_rule. run_m.
  destruct (PyVal.getitem r "rule") as [rule|e]; [|discriminate].
  cbn beta iota.
  destruct rule as [| | | |text| | | |]; try discriminate.
  cbn [_preprocess_rule].
  destruct (PyVal.getitem r "actions") as [acts|e]; [|discriminate].
  cbn beta iota. rewrite replace_char_empty, contains_empty.
  intros H. exists text, acts. split; [reflexivity | split; [reflexivity|]].
  destruct (m (PyStr.replace_char "/" "_" text) pd) as [[|]|e].
  - destruct (PyVal.iter acts) as [items|e] eqn:Hit.
    + cbn in H. rewrite for_each_append_output in H. cbn in H.
      injection H as <-. cbn [log output]. split.
      * apply in_or_app. right. now left.
      * intros _. exists items. split; [reflexivity|].
        intros x Hx. apply in_or_app. now right.
    + rewrite (iter_raises _ Hit) in H. discriminate.
  - injection H as <-. cbn [log]. split; [|discriminate].
    apply in_or_app. right. now left.
  - cbn [dispatch] in H. split; [|discriminate].
    destruct (isinstance e RuleSyntaxError);
      [|destruct (isinstance e SymbolResolutionError)];
      [| |discriminate];
      injection H as <-; cbn [log];
      apply in_or_app; left; apply in_or_app; right; now left.
Qed.

Lemma empty_filter_loop (m : string -> PyDict.dict pyval -> result bool)
    (pd : PyDict.dict pyval) (l : list pyval) :
  forall s s' : eval_state,
    for_each l (evaluate_rule m pd "") s = (Ret tt, s') ->
    forall r, In r l ->
      exists text acts,
        PyVal.getitem r "rule" = Ret (VStr text) /\
        PyVal.getitem r "actions" = Ret acts /\
        In (DebugRuleEngine (PyStr.replace_char "/" "_" text)) (log s') /\
        (m (PyStr.replace_char "/" "_" text) pd = Ret true ->
         exists items, PyVal.iter acts = Ret items /\
                       incl items (output s')).
Proof.
  induction l as [|x t IH]; intros s s' H r Hin; [contradiction|].
  cbn [for_each] in H. unfold bind in H.
  destruct (evaluate_rule m pd "" x s) as [[[]|e] s1] eqn:Hx;
    [|discriminate].
  destruct Hin as [<- | Hin]; [|now apply (IH s1 s' H)].
  destruct (evaluate_rule_empty_filter m pd x s Hx)
    as (text & acts & Hr & Ha & Hlog & Hout).
  destruct (rules_loop_shape m pd "" t) as (res & o & lg & Ht & _).
  rewrite Ht in H. injection H as _ <-. cbn [log output].
  exists text, acts. split; [assumption | split; [assumption | split]].
  - apply in_or_app. now left.
  - intros Hm. destruct (Hout Hm) as (items & Hit & Hincl).
    exists items. split; [assumption|].
    intros a Hi. apply in_or_app. left. now apply Hincl.
Qed.

(** C6.  The pre-filter decides, on the preprocessed texts alone, which
    expressions reach the rule engine: the engine runs only on
    expressions that contain the preprocessed filter, and the whole
    evaluation, actions and log, is the same for any two engines that
    agree on those expressions, whatever they would answer on the others.
    The preprocessed empty filter is contained in every expression, and
    with it no rule is skipped: in a pass that is not cut short, the
    expression of every rule of the list is handed to the engine, and the
    actions of every rule on which the engine answers [True] are among
    those returned. *)
Theorem filter_excludes_unrelated_rules :
  (forall (le : string -> result pyval)
          (m m' : string -> PyDict.dict pyval -> result bool)
          (rules : pyval) (data : PyDict.dict string) (f : string),
      (forall rs pd,
          PyStr.contains (PyStr.replace_char "/" "_" f) rs = true ->
          m rs pd = m' rs pd) ->
      evaluate_rules le m rules data f = evaluate_rules le m' rules data f) /\
  (forall (le : string -> result pyval)
          (m : string -> PyDict.dict pyval -> result bool)
          (rules : pyval) (data : PyDict.dict string) (f rs : string),
      PyStr.contains (PyStr.replace_char "/" "_" f) rs = false ->
      ~ In (DebugRuleEngine rs) (snd (evaluate_rules le m rules data f))) /\
  (forall rs : string,
      PyStr.contains (PyStr.replace_char "/" "_" "") rs = true) /\
  (forall (le : string -> result pyval)
          (m : string -> PyDict.dict pyval -> result bool)
          (l : list pyval) (data : PyDict.dict string)
          (pd : PyDict.dict pyval) (out : list pyval),
      _preprocess_data le data = Ret pd ->
      aborted (snd (evaluate_rules le m (VList l) data "")) = false ->
      fst (evaluate_rules le m (VList l) data "") = Ret out ->
      forall r, In r l ->
        exists text acts,
          PyVal.getitem r "rule" = Ret (VStr text) /\
          PyVal.getitem r "actions" = Ret acts /\
          In (DebugRuleEngine (PyStr.replace_char "/" "_" text))
            (snd (evaluate_rules le m (VList l) data "")) /\
          (m (PyStr.replace_char "/" "_" text) pd = Ret true ->
           exists items, PyVal.iter acts = Ret items /\ incl items out)).
Proof.
  split; [|split; [|split]].
  - intros le m m' rules data f H.
    rewrite !evaluate_rules_eq.
    destruct (_preprocess_data le data) as [pd|e]; [|reflexivity].
    destruct (PyVal.iter rules) as [l|e]; [|reflexivity].
    now rewrite (for_each_ext l _ _ (evaluate_rule_agree m m' f H pd)).
  - intros le m rules data f rs Hc Hin.
    apply evaluate_rules_debug_lines in Hin. congruence.
  - intros rs. apply contains_empty.
  - intros le m l data pd out Hpd.
    rewrite (evaluate_rules_list le m l data "" Hpd).
    destruct (for_each l (evaluate_rule m pd "") (mk_eval_state [] []))
      as [res s'] eqn:Hloop.
    cbn [fst snd]. intros Hab [= <-] r Hin.
    apply not_aborted_returns in Hab. subst res.
    apply (empty_filter_loop m pd l _ Hloop r Hin).
Qed.

Lemma aborted_app_unexpected (lg : list log_event) (e : exn) :
  aborted (lg ++ [ErrorUnexpected e]) = true.
Proof.
  unfold aborted. rewrite existsb_app. simpl. apply orb_true_r.
Qed.

(** C7.  [evaluate_rules] returns a list and never raises; with no rules
    loaded it returns the empty list and logs nothing; with an empty rule
    list, or when the snapshot cannot be preprocessed, it returns the empty
    list; and when a rule cuts the pass short, the call returns the actions
    collected from the rules before it. *)
Theorem evaluate_rules_never_raises :
  forall (le : string -> result pyval)
         (m : string -> PyDict.dict pyval -> result bool)
         (data : PyDict.dict string) (f : string),
    (forall rules,
        exists out, fst (evaluate_rules le m rules data f) = Ret out) /\
    evaluate_rules le m VNone data f = (Ret [], []) /\
    fst (evaluate_rules le m (VList []) data f) = Ret [] /\
    (forall rules e,
        _preprocess_data le data = Raise e ->
        fst (evaluate_rules le m rules data f) = Ret []) /\
    (forall l1 r l2,
        aborted (snd (evaluate_rules le m (VList l1) data f)) = false ->
        aborted (snd (evaluate_rules le m (VList [r]) data f)) = true ->
        aborted (snd (evaluate_rules le m (VList (l1 ++ r :: l2)) data f))
        = true /\
        fst (evaluate_rules le m (VList (l1 ++ r :: l2)) data f)
        = fst (evaluate_rules le m (VList l1) data f)).
Proof.
  intros le m data f. split; [|split; [|split; [|split]]].
  - intros rules. rewrite evaluate_rules_eq.
    destruct rules; try (eexists; reflexivity);
      destruct (_preprocess_data le data) as [pd|e];
      try (eexists; reflexivity); cbn beta iota;
      match goal with
      | |- context [PyVal.iter ?v] =>
          destruct (PyVal.iter v) as [l|e]; try (eexists; reflexivity);
          cbn beta iota;
          destruct (for_each l (evaluate_rule m pd f) (mk_eval_state [] []));
          eexists; reflexivity
      end.
  - reflexivity.
  - rewrite evaluate_rules_eq.
    destruct (_preprocess_data le data); reflexivity.
  - intros rules e H. rewrite evaluate_rules_eq, H. now destruct rules.
  - intros l1 r l2.
    destruct (_preprocess_data le data) as [pd|e] eqn:Hpd.
    + rewrite !(evaluate_rules_list le m _ data f Hpd), for_each_app.
      destruct (rules_loop_shape m pd f l1) as (res1 & o1 & lg1 & H1 & Ha1 & _).
      destruct (evaluate_rule_shape m pd f r)
        as (resr & o & lg & Hr & Ho & Har & _).
      rewrite H1. cbn [for_each]. unfold bind. rewrite !Hr. cbn.
      destruct res1 as [[]|e1]; [|now rewrite aborted_app_unexpected].
      intros _. destruct resr as [[]|e].
      * unfold ret. cbn [snd log]. rewrite Har. discriminate.
      * intros _. cbn [snd fst log output]. rewrite (Ho eq_refl), app_nil_r.
        split; [apply aborted_app_unexpected | reflexivity].
    + rewrite (evaluate_rules_eq le m (VList l1)), Hpd. discriminate.
Qed.

(** ** The rule repository *)

Lemma load_rules_failure (file : option string) (e : exn) :
  Repository.load_rules file (Raise e) = VNone.
Proof. destruct file; reflexivity. Qed.

Lemma load_rules_list (file : string) (l : list pyval) :
  Repository.load_rules (Some file) (Ret (VList l)) = VList l.
Proof.
  unfold Repository.load_rules, Repository.load_rules_body. run_m.
  cbn [PyVal.iter].
  assert (H : forall s : Repository.load_state,
             for_each l (fun _ : pyval => @ret Repository.load_state _ tt) s
             = (Ret tt, s)).
  { induction l as [|x t IH]; intros s; [reflexivity|].
    simpl. unfold bind, ret at 1. apply IH. }
  now rewrite H.
Qed.

Lemma load_rules_any (file : string) (v : pyval) :
  Repository.load_rules (Some file) (Ret v) = v.
Proof.
  unfold Repository.load_rules, Repository.load_rules_body. run_m.
  destruct (PyVal.iter v) as [items|e]; [|reflexivity].
  assert (H : forall s : Repository.load_state,
             for_each items (fun _ : pyval => @ret Repository.load_state _ tt)
               s = (Ret tt, s)).
  { induction items as [|x t IH]; intros s; [reflexivity|].
    simpl. unfold bind, ret at 1. apply IH. }
  now rewrite H.
Qed.

(** The first turn of a fresh watcher loads the rules it parses; the
    example watcher is in the state that first load leaves. *)
Lemma first_load_installs_rules (file : string) (t : Z) (l : list pyval) :
  Repository.load_and_run_turn (Ret t) (Ret (VList l))
    (Repository.init (Some file))
  = (Ret tt,
     Repository.mk_watcher (mk_wrapper (Some file) (VList l) (Some t))
       (Some t)).
Proof.
  unfold Repository.load_and_run_turn, Repository.read_current. run_m.
  cbn. now rewrite load_rules_list.
Qed.

Lemma example_watcher_reached :
  Repository.load_and_run
    [(Ret 100, Ret (VList [Example.r_absent; Example.r_match]))]
    (Repository.init (Some "rules.yaml"))
  = (Ret tt, Example.watcher).
Proof. reflexivity. Qed.

(** C2 as the specification states it fails: with rules loaded under
    fingerprint 100, a turn that sees fingerprint 101 and cannot parse the
    source does not keep the rules. *)
Lemma failed_reload_drops_rules :
  ~ (forall (w : Repository.watcher) (t0 t : Z) (e : exn),
        rules (Repository.self w) <> VNone ->
        last_modified_time (Repository.self w) = Some t0 ->
        Repository.current_modified_time w = Some t0 ->
        t <> t0 ->
        rules (Repository.self
                 (snd (Repository.load_and_run_turn (Ret t) (Raise e) w)))
        = rules (Repository.self w)).
Proof.
  intros H.
  specialize (H Example.watcher 100 101 SyntaxError).
  vm_compute in H.
  discriminate H; [discriminate | reflexivity | reflexivity | discriminate].
Qed.

(** A watcher whose two fingerprints agree is left as it is by every
    turn that does not see another fingerprint, whether the turn returns
    or ends the thread. *)
Lemma idle_turn (w : Repository.watcher) (t : Z) (mt : result Z)
    (read : result pyval) :
  last_modified_time (Repository.self w) = Some t ->
  Repository.current_modified_time w = Some t ->
  (forall t', mt = Ret t' -> t' = t) ->
  snd (Repository.load_and_run_turn mt read w) = w /\
  (fst (Repository.load_and_run_turn mt read w) = Ret tt \/
   exists e, mt = Raise e /\
             fst (Repository.load_and_run_turn mt read w) = Raise e).
Proof.
  destruct w as [[file r last] cur]. cbn [Repository.self
    Repository.current_modified_time last_modified_time].
  intros -> -> Hmt.
  unfold Repository.load_and_run_turn, Repository.read_current. run_m.
  destruct mt as [t'|e].
  - rewrite (Hmt t' eq_refl). cbn. rewrite Z.eqb_refl. cbn. auto.
  - cbn [dispatch].
    destruct (isinstance e FileNotFoundError); cbn.
    + rewrite Z.eqb_refl. cbn. auto.
    + eauto.
Qed.

Lemma idle_turns (turns : list (result Z * result pyval)) :
  forall (w : Repository.watcher) (t : Z),
    last_modified_time (Repository.self w) = Some t ->
    Repository.current_modified_time w = Some t ->
    (forall t' read, In (Ret t', read) turns -> t' = t) ->
    snd (Repository.load_and_run turns w) = w.
Proof.
  induction turns as [|[mt read] rest IH]; intros w t Hl Hc Hin;
    [reflexivity|].
  cbn [Repository.load_and_run]. unfold bind.
  destruct (@idle_turn w t mt read Hl Hc) as [Hs Hf].
  { intros t' ->. apply (Hin t' read). now left. }
  destruct (Repository.load_and_run_turn mt read w) as [res w1].
  cbn [fst snd] in Hs, Hf. subst w1.
  destruct res as [[]|e]; [|reflexivity].
  apply (IH w t Hl Hc). intros t' read' H. apply (Hin t' read'). now right.
Qed.

(** C2, amended.  When the fingerprint has changed and the source cannot
    be read or parsed, the turn ends normally with no rules loaded
    ([None]) and the new fingerprint recorded, and [load_rules] has
    logged the error.  The previous rules are gone: evaluation returns
    the empty list, and the watcher stays as it is through every later
    turn that does not see yet another fingerprint, whatever the source
    then contains.  At a turn that does see another fingerprint, a source
    that still fails leaves no rules again, and a source that parses is
    installed. *)
Theorem failed_reload_clears_rules :
  forall (w : Repository.watcher) (t0 t : Z) (e : exn),
    last_modified_time (Repository.self w) = Some t0 ->
    t <> t0 ->
    let w' := Repository.mk_watcher
                (mk_wrapper (yaml_file (Repository.self w)) VNone (Some t))
                (Some t) in
    Repository.load_and_run_turn (Ret t) (Raise e) w = (Ret tt, w') /\
    (forall file lg,
        yaml_file (Repository.self w) = Some file ->
        Repository.load_rules_body (Some file) (Raise e)
          (Repository.mk_load_state VNone lg)
        = (Ret tt, Repository.mk_load_state VNone (lg ++ [e]))) /\
    (forall le m data f,
        evaluate_rules le m (rules (Repository.self w')) data f
        = (Ret [], [])) /\
    (forall turns,
        (forall t' read, In (Ret t', read) turns -> t' = t) ->
        snd (Repository.load_and_run turns w') = w') /\
    (forall t' e',
        t' <> t ->
        rules (Repository.self
                 (snd (Repository.load_and_run_turn (Ret t') (Raise e') w')))
        = VNone) /\
    (forall file t' v,
        yaml_file (Repository.self w) = Some file ->
        t' <> t ->
        Repository.load_and_run_turn (Ret t') (Ret v) w'
        = (Ret tt,
           Repository.mk_watcher (mk_wrapper (Some file) v (Some t'))
             (Some t'))).
Proof.
  intros w t0 t e Hlast Hne w'.
  split; [|split; [|split; [|split; [|split]]]].
  - unfold Repository.load_and_run_turn, Repository.read_current. run_m.
    cbn. rewrite Hlast. cbn.
    rewrite (proj2 (Z.eqb_neq t t0) Hne). cbn.
    rewrite load_rules_failure. reflexivity.
  - intros file lg _. reflexivity.
  - intros le m data f. reflexivity.
  - intros turns Hin. now apply (@idle_turns turns w' t).
  - intros t' e' Hne'.
    unfold Repository.load_and_run_turn, Repository.read_current. run_m.
    cbn. rewrite (proj2 (Z.eqb_neq t' t) Hne'). cbn.
    apply load_rules_failure.
  - intros file t' v Hfile Hne'.
    unfold Repository.load_and_run_turn, Repository.read_current. run_m.
    cbn. rewrite (proj2 (Z.eqb_neq t' t) Hne'). cbn.
    rewrite Hfile, load_rules_any. subst w'.
    unfold Repository.set_last_modified_time, Repository.set_rules,
      Repository.set_current. cbn. now rewrite Hfile.
Qed.

Lemma failed_reload_clears_rules_witness :
  Repository.load_and_run_turn (Ret 101) (Raise SyntaxError) Example.watcher
  = (Ret tt,
     Repository.mk_watcher (mk_wrapper (Some "rules.yaml") VNone (Some 101))
       (Some 101)).
Proof.
  apply (@failed_reload_clears_rules Example.watcher 100 101 SyntaxError);
    [reflexivity | discriminate].
Defined.

(** ** Instances of the evaluation results *)

(** The example of the specification: with [/a/b/c = "5"] in the store,
    the rule on [/a/b/c == 5] yields exactly its one action. *)
Example evaluate_single_matching_rule :
  evaluate_rules Lit.literal_eval RefEngine.matches
    (VList [Example.r_match]) Example.snapshot ""
  = (Ret [Example.switch_on], [DebugRuleEngine "_a_b_c == 5"]).
Proof. reflexivity. Qed.

Lemma unhandled_engine_error_aborts_pass_witness :
  evaluate_rules Lit.literal_eval RefEngine.matches
    (VList ([] ++ Example.r_leading_zero :: [Example.r_match]))
    Example.snapshot ""
  = (Ret [],
     [DebugRuleEngine "_a_b_c == 05"; ErrorUnexpected FloatSyntaxError]).
Proof.
  apply (@unhandled_engine_error_aborts_pass Lit.literal_eval
           RefEngine.matches Example.snapshot "" [("_a_b_c", VInt 5)]
           [] [Example.r_match] Example.r_leading_zero "/a/b/c == 05"
           (VList [Example.fan_on]) FloatSyntaxError);
    reflexivity.
Defined.

Lemma filter_excludes_unrelated_rules_witness :
  evaluate_rules Lit.literal_eval RefEngine.matches
    (VList [Example.r_absent; Example.r_match]) Example.snapshot "/a/b"
  = evaluate_rules Lit.literal_eval Example.eager_matches
      (VList [Example.r_absent; Example.r_match]) Example.snapshot "/a/b" /\
  exists text acts,
    PyVal.getitem Example.r_match "rule" = Ret (VStr text) /\
    PyVal.getitem Example.r_match "actions" = Ret acts /\
    In (DebugRuleEngine (PyStr.replace_char "/" "_" text))
      (snd (evaluate_rules Lit.literal_eval RefEngine.matches
              (VList [Example.r_absent; Example.r_match])
              Example.snapshot "")) /\
    (RefEngine.matches (PyStr.replace_char "/" "_" text) [("_a_b_c", VInt 5)]
     = Ret true ->
     exists items,
       PyVal.iter acts = Ret items /\ incl items [Example.switch_on]).
Proof.
  split.
  - apply (proj1 filter_excludes_unrelated_rules).
    intros rs pd H. unfold Example.eager_matches.
    change (PyStr.replace_char "/" "_" "/a/b") with "_a_b" in H.
    now rewrite H.
  - apply (proj2 (proj2 (proj2 filter_excludes_unrelated_rules))
             Lit.literal_eval RefEngine.matches
             [Example.r_absent; Example.r_match] Example.snapshot
             [("_a_b_c", VInt 5)] [Example.switch_on]);
      [reflexivity | reflexivity | reflexivity | right; left; reflexivity].
Defined.

Lemma evaluate_rules_never_raises_witness :
  fst (evaluate_rules Lit.literal_eval RefEngine.matches
         (VList ([Example.r_match] ++ Example.r_broken :: [Example.r_match]))
         Example.snapshot "")
  = Ret [Example.switch_on].
Proof.
  destruct (evaluate_rules_never_raises Lit.literal_eval RefEngine.matches
              Example.snapshot "") as (_ & _ & _ & _ & H).
  destruct (H [Example.r_match] Example.r_broken [Example.r_match])
    as [_ ->]; reflexivity.
Defined.

(** ** The state store *)

Lemma get_set_same {V : Type} (k : string) (v : V) (d : PyDict.dict V) :
  PyDict.get k (PyDict.set k v d) = Some v.
Proof.
  induction d as [|[k' v'] t IH]; simpl.
  - now rewrite String.eqb_refl.
  - destruct (String.eqb k k') eqn:E; simpl; rewrite E; auto.
Qed.

Lemma get_set_other {V : Type} (k k' : string) (v : V) (d : PyDict.dict V) :
  k <> k' -> PyDict.get k (PyDict.set k' v d) = PyDict.get k d.
Proof.
  intros Hne. induction d as [|[k0 v0] t IH]; simpl.
  - now rewrite (proj2 (String.eqb_neq k k') Hne).
  - destruct (String.eqb k' k0) eqn:E; simpl.
    + apply String.eqb_eq in E. subst k0.
      now rewrite (proj2 (String.eqb_neq k k') Hne).
    + destruct (String.eqb k k0); auto.
Qed.

Lemma changed_false (h : MQTTInterface) (t p : string) :
  changed h t p = false <-> PyDict.get t (messages h) = Some p.
Proof.
  unfold changed, PyDict.mem.
  destruct (PyDict.get t (messages h)) as [v|]; simpl.
  - destruct (String.eqb_spec v p); simpl; split; congruence.
  - split; discriminate.
Qed.

(** ** Message intake *)

Section IntakeFacts.

Variable le : string -> result pyval.
Variable m : string -> PyDict.dict pyval -> result bool.
Variable str : pyval -> string.

(** The loop over the actions only appends requests to the publish
    queue, each of them computed from one of the actions. *)
Lemma enqueue_actions_shape (actions : list pyval) :
  exists (res : result unit) (reqs : list (pyval * string)),
    (forall fr,
        for_each actions (enqueue_action le str) fr =
        (res,
         mk_frame
           (mk_hub (messages (this fr)) (db_queue (this fr))
              (publish_queue (this fr) ++ reqs) (rule_engine (this fr))
              (topic_ping (this fr)) (events (this fr)))
           (payload_var fr))) /\
    (forall x, In x reqs ->
               exists a, In a actions /\ action_request le str a = Ret x).
Proof.
  induction actions as [|a t (res & reqs & IH & IHin)].
  - exists (Ret tt), []. split; [|contradiction].
    intros [[] ?]. simpl. unfold ret. now rewrite app_nil_r.
  - destruct (action_request le str a) as [x|e] eqn:Ha.
    + exists res, (x :: reqs). split.
      * intros fr. simpl. unfold enqueue_action at 1, update. run_m.
        rewrite Ha. cbn beta iota. rewrite IH. simpl.
        now rewrite <- app_assoc.
      * intros y [<- | Hy]; [exists a; split; [now left | assumption]|].
        destruct (IHin y Hy) as (a' & Hin & Hreq).
        exists a'. split; [now right | assumption].
    + exists (Raise e), []. split; [|contradiction].
      intros [[] ?]. simpl. unfold enqueue_action at 1, update. run_m.
      rewrite Ha. simpl. now rewrite app_nil_r.
Qed.

(** [process_rules] records the evaluation, when there is an engine, and
    appends requests computed from the returned actions; it touches
    nothing else. *)
Lemma process_rules_shape (t : string) (fr : frame) :
  exists (res : result unit) (reqs : list (pyval * string)),
    process_rules le m str t fr =
    (res,
     mk_frame
       (mk_hub (messages (this fr)) (db_queue (this fr))
          (publish_queue (this fr) ++ reqs) (rule_engine (this fr))
          (topic_ping (this fr))
          (events (this fr) ++
           match rule_engine (this fr) with
           | None => []
           | Some engine =>
               [Evaluated (messages (this fr)) t
                  (snd (evaluate_rules le m (rules engine)
                          (messages (this fr)) t))]
           end))
       (payload_var fr)) /\
    (forall x, In x reqs ->
       exists engine actions a,
         rule_engine (this fr) = Some engine /\
         fst (evaluate_rules le m (rules engine) (messages (this fr)) t)
         = Ret actions /\
         In a actions /\ action_request le str a = Ret x).
Proof.
  unfold process_rules. run_m.
  destruct fr as [h pv]. cbn [this payload_var].
  destruct (rule_engine h) as [engine|] eqn:He.
  - destruct (evaluate_rules le m (rules engine) (messages h) t)
      as [[actions|e] logged] eqn:Hev; unfold update; run_m; cbn.
    + destruct (enqueue_actions_shape actions) as (res & reqs & H & Hin).
      exists res, reqs. split.
      * rewrite H. cbn. now rewrite He.
      * intros x Hx. destruct (Hin x Hx) as (a & Ha & Hreq).
        exists engine, actions, a. now rewrite Hev.
    + exists (Raise e), []. split; [|contradiction].
      unfold record. now rewrite app_nil_r, He.
  - exists (Ret tt), []. split; [|contradiction].
    destruct h; simpl in *. subst. now rewrite !app_nil_r.
Qed.

(** [process_liveness] in closed form. *)
Lemma process_liveness_eq (now t p : string) (fr : frame) :
  process_liveness le str now t p fr =
  if PyStr.startswith t "/global/" then (Ret tt, fr)
  else
    let h := this fr in
    let ping := topic_ping h in
    let stored :=
      match PyDict.get ping (messages h) with
      | Some v => v
      | None => "{}"
      end in
    let h2 :=
      mk_hub
        (match PyDict.get ping (messages h) with
         | Some _ => messages h
         | None => PyDict.set ping "{}" (messages h)
         end)
        (db_queue h ++ [(t, p)]) (publish_queue h) (rule_engine h)
        ping (events h) in
    match (d <- le stored ;;
           PyVal.setitem d (PyStr.rsplit_slash_head t) (VStr now))%result with
    | Ret d' =>
        (Ret tt,
         mk_frame (publish_put (VStr ping, str d') h2) (payload_var fr))
    | Raise e => (Raise e, mk_frame h2 (payload_var fr))
    end.
Proof.
  unfold process_liveness.
  destruct (PyStr.startswith t "/global/"); [reflexivity|].
  destruct fr as [h pv]. unfold update, read_message. run_m.
  cbn [this payload_var negb db_put messages topic_ping].
  unfold PyDict.mem.
  destruct (PyDict.get (topic_ping h) (messages h)) as [v|] eqn:Hg;
    cbn [negb this payload_var set_message messages topic_ping].
  - change (messages (db_put (t, p) h)) with (messages h).
    rewrite Hg. cbn [literal_eval].
    destruct (le v) as [d|e]; [|reflexivity]. cbn [rbind].
    destruct (PyVal.setitem d (PyStr.rsplit_slash_head t) (VStr now));
      reflexivity.
  - change (messages (db_put (t, p) h)) with (messages h).
    rewrite get_set_same. cbn [literal_eval].
    destruct (le "{}") as [d|e]; [|reflexivity]. cbn [rbind].
    destruct (PyVal.setitem d (PyStr.rsplit_slash_head t) (VStr now));
      reflexivity.
Qed.

(** A payload that does not decode: the exception is raised before
    [payload] is bound, and the handler raises in its turn. *)
Lemma on_message_undecodable (now : string) (msg : mqtt_message)
    (h : MQTTInterface) (e : exn) :
  Utf8.decode (payload msg) = Raise e ->
  on_message le m str now msg h = (Raise UnboundLocalError, h).
Proof.
  intros H. unfold on_message, on_message_try, on_message_except. run_m.
  now rewrite H.
Qed.

Lemma on_message_off_tree (now : string) (msg : mqtt_message)
    (h : MQTTInterface) (p : string) :
  Utf8.decode (payload msg) = Ret p ->
  PyStr.startswith (topic msg) "/" = false ->
  on_message le m str now msg h = (Ret tt, h).
Proof.
  intros H Hs. unfold on_message, on_message_try. run_m.
  now rewrite H, Hs.
Qed.

Lemma on_message_unchanged (now : string) (msg : mqtt_message)
    (h : MQTTInterface) (p : string) :
  Utf8.decode (payload msg) = Ret p ->
  changed h (topic msg) p = false ->
  on_message le m str now msg h = (Ret tt, h).
Proof.
  intros H Hc. unfold on_message, on_message_try. run_m.
  rewrite H. destruct (PyStr.startswith (topic msg) "/"); [|reflexivity].
  cbn -[changed]. now rewrite Hc.
Qed.

(** A changed payload on a topic of the tree: store, rules, liveness,
    and the handler for whatever the last two raise. *)
Lemma on_message_changed (now : string) (msg : mqtt_message)
    (h : MQTTInterface) (p : string) :
  Utf8.decode (payload msg) = Ret p ->
  PyStr.startswith (topic msg) "/" = true ->
  changed h (topic msg) p = true ->
  on_message le m str now msg h =
  let (r2, fr2) :=
    process_rules le m str (topic msg)
      (mk_frame (set_message (topic msg) p h) (Some p)) in
  match r2 with
  | Raise e => (Ret tt, record (PrintedError e) (this fr2))
  | Ret _ =>
      let (r3, fr3) := process_liveness le str now (topic msg) p fr2 in
      match r3 with
      | Raise e => (Ret tt, record (PrintedError e) (this fr3))
      | Ret _ => (Ret tt, this fr3)
      end
  end.
Proof.
  intros H Hs Hc.
  unfold on_message, on_message_try, on_message_except, update. run_m.
  rewrite H, Hs. cbn -[changed process_rules process_liveness].
  rewrite Hc. cbn -[process_rules process_liveness].
  destruct (process_rules_shape (topic msg)
              (mk_frame (set_message (topic msg) p h) (Some p)))
    as (r2 & reqs & -> & _).
  destruct r2 as [[]|e]; [|reflexivity].
  rewrite process_liveness_eq.
  destruct (PyStr.startswith (topic msg) "/global/"); [reflexivity|].
  cbv zeta.
  match goal with
  | |- context [rbind ?a ?b] => destruct (rbind a b)
  end; reflexivity.
Qed.

End IntakeFacts.

Lemma startswith_global (t : string) :
  PyStr.startswith t "/global/" = true -> PyStr.startswith t "/" = true.
Proof.
  unfold PyStr.startswith. destruct t as [|c t]; [discriminate|].
  cbn [String.prefix].
  destruct (ascii_dec "/" c); [|discriminate].
  intros _. now destruct t.
Qed.

(** Every way through [on_message]: the payload does not decode, the
    topic is off the tree, the payload is unchanged, or the update runs,
    with [process_rules] and [process_liveness] replaced by their closed
    forms. *)
Ltac intake_cases le m str now msg h :=
  let p := fresh "p" in
  let e := fresh "e" in
  let Hd := fresh "Hdecode" in
  let Hs := fresh "Hslash" in
  let Hc := fresh "Hchanged" in
  let r2 := fresh "r2" in
  let reqs := fresh "reqs" in
  let Hreqs := fresh "Hreqs" in
  let Hr := fresh "Hrules" in
  let Hg := fresh "Hglobal" in
  let Hl := fresh "Hlive" in
  destruct (Utf8.decode (payload msg)) as [p|e] eqn:Hd;
  [ destruct (PyStr.startswith (topic msg) "/") eqn:Hs;
    [ destruct (changed h (topic msg) p) eqn:Hc;
      [ rewrite (on_message_changed le m str now msg h Hd Hs Hc);
        destruct (process_rules_shape le m str (topic msg)
                    (mk_frame (set_message (topic msg) p h) (Some p)))
          as (r2 & reqs & Hr & Hreqs);
        rewrite Hr;
        destruct r2 as [[]|e];
        [ rewrite process_liveness_eq;
          destruct (PyStr.startswith (topic msg) "/global/") eqn:Hg;
          [ | cbv zeta;
              match goal with
              | |- context [rbind ?a ?b] => destruct (rbind a b) eqn:Hl
              end ]
        | ]
      | rewrite (on_message_unchanged le m str now msg h Hd Hc) ]
    | rewrite (on_message_off_tree le m str now msg h Hd Hs) ]
  | rewrite (on_message_undecodable le m str now msg h Hd) ];
  cbn [snd fst this payload_var set_message record publish_put messages
       db_queue publish_queue rule_engine topic_ping events] in *.

(** C4.  The store is gated on the raw text: the gate is closed exactly
    when the topic holds that very text, and then the call changes
    nothing, neither the store nor a queue, and evaluates no rule; the
    store changes only when the topic was absent or held another text,
    and a changed payload on a topic of the tree is stored. *)
Theorem unchanged_payload_is_ignored :
  forall (le : string -> result pyval)
         (m : string -> PyDict.dict pyval -> result bool)
         (str : pyval -> string) (now : string) (msg : mqtt_message)
         (h : MQTTInterface) (p : string),
    Utf8.decode (payload msg) = Ret p ->
    (changed h (topic msg) p = false <->
     PyDict.get (topic msg) (messages h) = Some p) /\
    (PyDict.get (topic msg) (messages h) = Some p ->
     on_message le m str now msg h = (Ret tt, h)) /\
    (messages (snd (on_message le m str now msg h)) <> messages h ->
     PyDict.get (topic msg) (messages h) = None \/
     exists v, PyDict.get (topic msg) (messages h) = Some v /\ v <> p) /\
    (PyStr.startswith (topic msg) "/" = true ->
     changed h (topic msg) p = true ->
     PyDict.get (topic msg) (messages (snd (on_message le m str now msg h)))
     = Some p).
Proof.
  intros le m str now msg h p Hd.
  split; [apply changed_false | split; [|split]].
  - intros Hg. apply on_message_unchanged with (p := p); [assumption|].
    now apply changed_false.
  - intros Hne.
    destruct (PyDict.get (topic msg) (messages h)) as [v|] eqn:Hg;
      [|now left].
    right. exists v. split; [reflexivity|]. intros ->.
    apply Hne.
    rewrite (on_message_unchanged le m str now msg h Hd); [reflexivity|].
    now apply changed_false.
  - intros Hs Hc.
    intake_cases le m str now msg h; try congruence;
      injection Hd as <-; try apply get_set_same.
    + destruct (PyDict.get (topic_ping h)
                  (PyDict.set (topic msg) p0 (messages h))) eqn:Hg;
        [apply get_set_same|].
      rewrite get_set_other; [apply get_set_same|].
      intros E. rewrite <- E, get_set_same in Hg. discriminate.
    + destruct (PyDict.get (topic_ping h)
                  (PyDict.set (topic msg) p0 (messages h))) eqn:Hg;
        [apply get_set_same|].
      rewrite get_set_other; [apply get_set_same|].
      intros E. rewrite <- E, get_set_same in Hg. discriminate.
Qed.

(** C8.  A message on a topic under [/global/] is never persisted and
    never counted as a sign of life: the database queue is unchanged, the
    store changes at the message's own topic only (the ping topic is not
    initialised), and every request added to the publish queue was
    computed from an action returned by the evaluation; that evaluation
    does run, on the updated store and filtered by the topic, whenever the
    payload is new and an engine is attached. *)
Theorem reserved_topic_skips_persistence_and_liveness :
  forall (le : string -> result pyval)
         (m : string -> PyDict.dict pyval -> result bool)
         (str : pyval -> string) (now : string) (msg : mqtt_message)
         (h : MQTTInterface),
    PyStr.startswith (topic msg) "/global/" = true ->
    let h' := snd (on_message le m str now msg h) in
    db_queue h' = db_queue h /\
    (forall k, k <> topic msg ->
               PyDict.get k (messages h') = PyDict.get k (messages h)) /\
    (exists reqs,
        publish_queue h' = publish_queue h ++ reqs /\
        forall x, In x reqs ->
          exists p engine actions a,
            Utf8.decode (payload msg) = Ret p /\
            rule_engine h = Some engine /\
            fst (evaluate_rules le m (rules engine)
                   (PyDict.set (topic msg) p (messages h)) (topic msg))
            = Ret actions /\
            In a actions /\ action_request le str a = Ret x) /\
    (forall p engine,
        Utf8.decode (payload msg) = Ret p ->
        changed h (topic msg) p = true ->
        rule_engine h = Some engine ->
        exists rest,
          events h' =
          events h ++
          Evaluated (PyDict.set (topic msg) p (messages h)) (topic msg)
            (snd (evaluate_rules le m (rules engine)
                    (PyDict.set (topic msg) p (messages h)) (topic msg)))
          :: rest).
Proof.
  intros le m str now msg h Hres h'. subst h'.
  pose proof (startswith_global _ Hres) as Hroot.
  intake_cases le m str now msg h; try congruence.
  - (* rules returned *)
    split; [reflexivity | split; [|split]].
    + intros k Hk. now apply get_set_other.
    + exists reqs. split; [reflexivity|].
      intros x Hx. destruct (Hreqs x Hx) as (engine & actions & a & H).
      now exists p, engine, actions, a.
    + intros p' engine [= <-] _ He. rewrite He. now exists [].
  - (* rules raised: the handler prints *)
    split; [reflexivity | split; [|split]].
    + intros k Hk. now apply get_set_other.
    + exists reqs. split; [reflexivity|].
      intros x Hx. destruct (Hreqs x Hx) as (engine & actions & a & H).
      now exists p, engine, actions, a.
    + intros p' engine [= <-] _ He. rewrite He.
      exists [PrintedError e]. now rewrite <- app_assoc.
  - (* unchanged *)
    split; [reflexivity | split; [reflexivity | split]].
    + exists []. split; [now rewrite app_nil_r | contradiction].
    + intros p' engine [= <-] Hc. congruence.
  - (* undecodable *)
    split; [reflexivity | split; [reflexivity | split]].
    + exists []. split; [now rewrite app_nil_r | contradiction].
    + intros p' engine [=].
Qed.

(** C9 (the code departs from it).  A payload that is not valid UTF-8
    makes [decode] raise before [payload] is bound; the [except] clause
    formats [payload], so [UnboundLocalError] leaves [on_message]. *)
Theorem on_message_undecodable_payload_raises :
  forall (le : string -> result pyval)
         (m : string -> PyDict.dict pyval -> result bool)
         (str : pyval -> string) (now t : string) (h : MQTTInterface),
    on_message le m str now (mk_message t [Init.Byte.xff]) h
    = (Raise UnboundLocalError, h).
Proof.
  intros. apply on_message_undecodable with (e := UnicodeDecodeError).
  reflexivity.
Qed.

(** Every other error is caught: on a message whose topic decodes, a
    payload that decodes never makes [on_message] raise. *)
Lemma on_message_decodable_returns (le : string -> result pyval)
    (m : string -> PyDict.dict pyval -> result bool)
    (str : pyval -> string) (now : string) (msg : mqtt_message)
    (h : MQTTInterface) (p : string) :
  Utf8.decode (payload msg) = Ret p ->
  fst (on_message le m str now msg h) = Ret tt.
Proof.
  intros Hd. intake_cases le m str now msg h; congruence.
Qed.

(** C10.  An update on a topic outside [/global/] never writes the merged
    liveness record into the store: apart from the message's own topic,
    the only entry it can touch is the ping topic, and only to initialise
    it to the empty record when it was absent; when the update runs to
    its end, the record with the new timestamp is the last request on the
    publish queue while the store still holds the old one. *)
Theorem liveness_never_writes_aggregate_to_store :
  forall (le : string -> result pyval)
         (m : string -> PyDict.dict pyval -> result bool)
         (str : pyval -> string) (now : string) (msg : mqtt_message)
         (h : MQTTInterface),
    PyStr.startswith (topic msg) "/global/" = false ->
    let h' := snd (on_message le m str now msg h) in
    let ping := topic_ping h in
    let stored :=
      match PyDict.get ping (messages h) with
      | Some v => v
      | None => "{}"
      end in
    topic_ping h' = ping /\
    (forall k, k <> topic msg -> k <> ping ->
               PyDict.get k (messages h') = PyDict.get k (messages h)) /\
    (ping <> topic msg ->
     PyDict.get ping (messages h') = PyDict.get ping (messages h) \/
     (PyDict.get ping (messages h) = None /\
      PyDict.get ping (messages h') = Some "{}")) /\
    (forall p d d',
        Utf8.decode (payload msg) = Ret p ->
        PyStr.startswith (topic msg) "/" = true ->
        changed h (topic msg) p = true ->
        ping <> topic msg ->
        fst (process_rules le m str (topic msg)
               (mk_frame (set_message (topic msg) p h) (Some p))) = Ret tt ->
        le stored = Ret d ->
        PyVal.setitem d (PyStr.rsplit_slash_head (topic msg)) (VStr now)
        = Ret d' ->
        db_queue h' = db_queue h ++ [(topic msg, p)] /\
        (exists reqs,
            publish_queue h' = publish_queue h ++ reqs ++ [(VStr ping, str d')])
        /\ PyDict.get ping (messages h') = Some stored).
Proof.
  intros le m str now msg h Hres h' ping stored. subst h' ping stored.
  intake_cases le m str now msg h; try congruence.
  - (* the update ran to its end *)
    split; [reflexivity | split; [|split]].
    + intros k Hk Hping.
      destruct (PyDict.get (topic_ping h)
                  (PyDict.set (topic msg) p (messages h)));
        rewrite ?(get_set_other _ _ Hping); now apply get_set_other.
    + intros Hne. rewrite (get_set_other p (messages h) Hne).
      destruct (PyDict.get (topic_ping h) (messages h)) eqn:Hg.
      * left. now rewrite (get_set_other p (messages h) Hne).
      * right. split; [reflexivity | apply get_set_same].
    + intros p' d d' [= <-] _ _ Hne _ Hle Hset.
      rewrite (get_set_other p (messages h) Hne) in *.
      rewrite Hle in Hlive. cbn [rbind] in Hlive.
      rewrite Hset in Hlive. injection Hlive as <-.
      split; [reflexivity | split].
      * exists reqs. now rewrite <- app_assoc.
      * destruct (PyDict.get (topic_ping h) (messages h)) eqn:Hg.
        -- now rewrite (get_set_other p (messages h) Hne).
        -- apply get_set_same.
  - (* the liveness step raised: the handler prints *)
    split; [reflexivity | split; [|split]].
    + intros k Hk Hping.
      destruct (PyDict.get (topic_ping h)
                  (PyDict.set (topic msg) p (messages h)));
        rewrite ?(get_set_other _ _ Hping); now apply get_set_other.
    + intros Hne. rewrite (get_set_other p (messages h) Hne).
      destruct (PyDict.get (topic_ping h) (messages h)) eqn:Hg.
      * left. now rewrite (get_set_other p (messages h) Hne).
      * right. split; [reflexivity | apply get_set_same].
    + intros p' d d' [= <-] _ _ Hne _ Hle Hset.
      rewrite (get_set_other p (messages h) Hne) in *.
      rewrite Hle in Hlive. cbn [rbind] in Hlive.
      rewrite Hset in Hlive. discriminate.
  - (* the rules step raised: the handler prints *)
    split; [reflexivity | split; [|split]].
    + intros k Hk _. now apply get_set_other.
    + intros Hne. left. now apply get_set_other.
    + intros p' d d' [= <-] _ _ _ Hfst. rewrite Hrules in Hfst.
      discriminate.
  - (* unchanged *)
    split; [reflexivity | split; [reflexivity | split; [now left|]]].
    intros p' d d' [= <-]. congruence.
  - (* off the tree *)
    split; [reflexivity | split; [reflexivity | split; [now left|]]].
    intros p' d d' [= <-]. congruence.
  - (* undecodable *)
    split; [reflexivity | split; [reflexivity | split; [now left|]]].
    intros p' d d' [=].
Qed.

(** ** Instances of the intake results *)

Lemma unchanged_payload_is_ignored_witness :
  Example.on_message Example.now (Example.message "/a/b/c" "4") Example.hub
  = (Ret tt, Example.hub).
Proof.
  refine (proj1 (proj2
            (unchanged_payload_is_ignored Lit.literal_eval RefEngine.matches
               RefStr.str Example.now (Example.message "/a/b/c" "4")
               Example.hub (p := "4") _)) _); reflexivity.
Defined.

Lemma reserved_topic_skips_persistence_and_liveness_witness :
  db_queue (snd (Example.on_message Example.now
                   (Example.message "/global/mode" "night") Example.hub))
  = [].
Proof.
  refine (proj1
            (reserved_topic_skips_persistence_and_liveness Lit.literal_eval
               RefEngine.matches RefStr.str Example.now
               (Example.message "/global/mode" "night") Example.hub _)).
  reflexivity.
Defined.

Lemma liveness_never_writes_aggregate_to_store_witness :
  let h' := snd (Example.on_message Example.now
                   (Example.message "/a/b/c" "5") Example.hub) in
  db_queue h' = [] ++ [("/a/b/c", "5")] /\
  (exists reqs,
      publish_queue h' =
      [] ++ reqs ++
      [(VStr default_topic_ping, "{'/a/b': '2024-05-01 10:00:00'}")]) /\
  PyDict.get default_topic_ping (messages h') = Some "{}".
Proof.
  refine (proj2 (proj2 (proj2
            (liveness_never_writes_aggregate_to_store Lit.literal_eval
               RefEngine.matches RefStr.str Example.now
               (Example.message "/a/b/c" "5") Example.hub _)))
            "5" (VDict []) (VDict [(VStr "/a/b", VStr Example.now)])
            _ _ _ _ _ _ _);
    solve [reflexivity | discriminate].
Defined.

(* ================================================================= *)
(** * Further properties of the code *)

(** ** Type coercion *)

Lemma lower_chars (s : string) (x : ascii) :
  In x (list_ascii_of_string (PyStr.lower s)) ->
  exists c, In c (list_ascii_of_string s) /\ PyStr.lower_char c = x.
Proof.
  induction s as [|c t IH]; simpl; [contradiction|].
  intros [<- | H]; [exists c; auto|].
  destruct (IH H) as (c' & Hin & Hc). exists c'. auto.
Qed.

Lemma int_text_has_no_exponent (s : string) (n : Z) :
  PyNum.int_of_str s = Some n ->
  PyStr.contains "e" (PyStr.lower s) = false.
Proof.
  intros H. apply contains_char_false. intros Hin.
  apply lower_chars in Hin as (c & Hin & Hc).
  destruct (lower_char_inv c) as [E | E]; rewrite Hc in E;
    vm_compute in E; subst c;
    destruct (int_of_str_chars s H _ Hin) as [E|[E|[E|[E|[E|E]]]]];
    vm_compute in E; discriminate.
Qed.

(** X1.  On text the three scalar predicates exclude one another, so
    that the order in which [get_var] tries them never decides an
    outcome. *)
Theorem text_predicates_exclusive :
  forall s : string,
    (_is_int (VStr s) = true ->
     _is_float (VStr s) = false /\ _is_bool (VStr s) = false) /\
    (_is_float (VStr s) = true -> _is_bool (VStr s) = false).
Proof.
  intros s. split.
  - intros Hi. apply is_int_text in Hi as [n Hn].
    destruct (int_text_has_no_point_or_e s Hn) as (_ & Hp & _).
    split.
    + apply is_float_text_false. right.
      now rewrite Hp, (int_text_has_no_exponent s Hn).
    + destruct (_is_bool (VStr s)) eqn:Hb; [|reflexivity].
      apply is_bool_text in Hb.
      destruct (bool_word_not_number s Hb) as (_ & Hi & _). congruence.
  - intros Hf. apply is_float_text in Hf as (f & Hf & _).
    destruct (_is_bool (VStr s)) eqn:Hb; [|reflexivity].
    apply is_bool_text in Hb.
    destruct (bool_word_not_number s Hb) as (_ & _ & Hn). congruence.
Qed.

Lemma text_predicates_exclusive_witness :
  _is_float (VStr "-12") = false /\ _is_bool (VStr "-12") = false.
Proof.
  apply (proj1 (text_predicates_exclusive "-12")). reflexivity.
Defined.

(** X2.  When [get_var] raises, and what: never on an [int] or a [float];
    [AttributeError] on a [bool]; [ValueError] on every other value that
    is not text; and on text exactly when none of the scalar predicates
    holds and [ast.literal_eval] raises something other than a
    [ValueError] or a [SyntaxError], which is then what escapes. *)
Theorem get_var_raises_iff :
  forall (le : string -> result pyval) (v : pyval) (e : exn),
    get_var le v = Raise e <->
    match v with
    | VInt _ | VFloat _ => False
    | VBool _ => e = AttributeError
    | VStr s =>
        _is_int v = false /\ _is_float v = false /\ _is_bool v = false /\
        le s = Raise e /\
        isinstance e ValueError = false /\ isinstance e SyntaxError = false
    | _ => e = ValueError
    end.
Proof.
  intros le v e.
  destruct v as [|b|n|f|s|l|l|l|d];
    try (cbn; split; [intros [= <-]; reflexivity | intros ->; reflexivity]);
    try (cbn; split; [discriminate | contradiction]).
  destruct (_is_int (VStr s)) eqn:Hi.
  { apply is_int_text in Hi as [n Hn].
    rewrite (get_var_int_text le s Hn).
    split; [discriminate | intros (H & _); discriminate]. }
  destruct (_is_float (VStr s)) eqn:Hf.
  { unfold get_var. rewrite Hi, Hf.
    apply is_float_text in Hf as (f & Hf & _).
    cbn. rewrite Hf. cbn.
    split; [discriminate | intros (_ & H & _); discriminate]. }
  destruct (_is_bool (VStr s)) eqn:Hb.
  { unfold get_var. rewrite Hi, Hf, Hb. cbn.
    split; [discriminate | intros (_ & _ & H & _); discriminate]. }
  rewrite (get_var_literal_text le s Hi Hf Hb).
  destruct (le s) as [w|e'].
  - split; [discriminate | intros (_ & _ & _ & H & _); discriminate].
  - destruct (isinstance e' ValueError || isinstance e' SyntaxError) eqn:Hc.
    + split; [discriminate|].
      intros (_ & _ & _ & [= <-] & H1 & H2). rewrite H1, H2 in Hc.
      discriminate.
    + apply orb_false_iff in Hc as [H1 H2].
      split; [intros [= <-]; auto 6 | intros (_ & _ & _ & [= <-] & _); auto].
Qed.

Lemma get_var_raises_iff_witness :
  get_var Lit.literal_eval (VStr "{(1, [2]): 3}") = Raise TypeError.
Proof.
  apply (proj2 (get_var_raises_iff Lit.literal_eval
                  (VStr "{(1, [2]): 3}") TypeError)).
  repeat split; reflexivity.
Defined.

(** X29.  What [get_var] makes of text, level by level: text that [int]
    accepts becomes that integer, and the test for a point or an [e] in
    [_is_int] never turns such text down; text that [int] rejects and
    [float] accepts, with a point or an exponent, becomes that float;
    every spelling of [true] and [false] becomes a boolean, whatever
    [ast.literal_eval] would make of it; any other text becomes what
    [ast.literal_eval] returns, stays as it is when that raised
    [ValueError] or [SyntaxError], and lets any other exception through. *)
Theorem get_var_text_levels :
  forall (le : string -> result pyval) (s : string),
    (forall n,
        PyNum.int_of_str s = Some n ->
        _is_int (VStr s) = true /\ get_var le (VStr s) = Ret (VInt n)) /\
    (forall f,
        PyNum.int_of_str s = None ->
        PyNum.float_of_str s = Some f ->
        PyStr.contains "." s || PyStr.contains "e" (PyStr.lower s) = true ->
        get_var le (VStr s) = Ret (VFloat f)) /\
    (PyStr.lower s = "true" \/ PyStr.lower s = "false" ->
     get_var le (VStr s) = Ret (VBool (String.eqb (PyStr.lower s) "true"))) /\
    (PyNum.int_of_str s = None ->
     PyNum.float_of_str s = None \/
     PyStr.contains "." s || PyStr.contains "e" (PyStr.lower s) = false ->
     PyStr.lower s <> "true" -> PyStr.lower s <> "false" ->
     get_var le (VStr s) =
     match le s with
     | Ret v => Ret v
     | Raise e =>
         if isinstance e ValueError || isinstance e SyntaxError
         then Ret (VStr s) else Raise e
     end).
Proof.
  intros le s. split; [|split; [|split]].
  - intros n H. split; [apply is_int_text; eauto | now apply get_var_int_text].
  - intros f. apply get_var_float_text.
  - apply get_var_bool_text.
  - intros Hi Hf Hb1 Hb2.
    apply get_var_literal_text;
      auto using is_int_text_false, is_float_text_false, is_bool_text_false.
Qed.

Lemma get_var_text_levels_witness :
  get_var Lit.literal_eval (VStr " -1_0 ") = Ret (VInt (-10)) /\
  get_var Lit.literal_eval (VStr "1E-5")
    = Ret (VFloat (S754_finite false 5902958103587057 (-69))) /\
  get_var Lit.literal_eval (VStr "tRuE") = Ret (VBool true) /\
  get_var Lit.literal_eval (VStr "nan") = Ret (VStr "nan").
Proof.
  split; [|split; [|split]].
  - apply (proj1 (get_var_text_levels Lit.literal_eval " -1_0 ") (-10)).
    reflexivity.
  - apply (proj1 (proj2 (get_var_text_levels Lit.literal_eval "1E-5")));
      reflexivity.
  - apply (proj1 (proj2 (proj2 (get_var_text_levels Lit.literal_eval "tRuE")))).
    left. reflexivity.
  - apply (proj2 (proj2 (proj2 (get_var_text_levels Lit.literal_eval "nan"))));
      [reflexivity | right; reflexivity | discriminate | discriminate].
Defined.

(** ** Preprocessing of expressions, filters and snapshots *)

Lemma replace_char_removes (c d : ascii) (s : string) :
  c <> d -> PyStr.contains (String c "") (PyStr.replace_char c d s) = false.
Proof.
  intros Hne. apply contains_char_false.
  induction s as [|x t IH]; simpl; [tauto|].
  intros [H | H]; [|auto].
  destruct (Ascii.eqb_spec x c); congruence.
Qed.

Lemma replace_char_length (c d : ascii) (s : string) :
  String.length (PyStr.replace_char c d s) = String.length s.
Proof. induction s; simpl; congruence. Qed.

Lemma replace_char_absent (c d : ascii) (s : string) :
  PyStr.contains (String c "") s = false -> PyStr.replace_char c d s = s.
Proof.
  induction s as [|x t IH]; [reflexivity|].
  cbn [PyStr.contains String.prefix PyStr.replace_char].
  destruct (ascii_dec c x) as [->|Hne].
  - destruct t; discriminate.
  - intros H. rewrite (proj2 (Ascii.eqb_neq x c)) by congruence.
    now rewrite IH.
Qed.

Lemma replace_char_app (c d : ascii) (a b : string) :
  PyStr.replace_char c d (a ++ b)
  = (PyStr.replace_char c d a ++ PyStr.replace_char c d b)%string.
Proof. induction a; simpl; congruence. Qed.

Lemma prefix_app (p s : string) :
  String.prefix p s = true <-> exists b, s = (p ++ b)%string.
Proof.
  revert s. induction p as [|c p IH]; intros s.
  - split; [intros _; now exists s | intros _; now destruct s].
  - destruct s as [|x s]; cbn [String.prefix].
    + split; [discriminate | intros [b H]; discriminate].
    + destruct (ascii_dec c x) as [->|Hne].
      * rewrite IH. split; intros [b H]; exists b; simpl in *; congruence.
      * split; [discriminate | intros [b H]; simpl in H; congruence].
Qed.

Lemma contains_app (sub s : string) :
  PyStr.contains sub s = true <->
  exists a b, s = (a ++ sub ++ b)%string.
Proof.
  induction s as [|x t IH]; cbn [PyStr.contains].
  - rewrite orb_false_r, prefix_app. split.
    + intros [b H]. now exists "", b.
    + intros (a & b & H). destruct a; [now exists b | discriminate].
  - rewrite orb_true_iff, prefix_app, IH. split.
    + intros [[b H] | (a & b & H)].
      * now exists "", b.
      * exists (String x a), b. simpl. congruence.
    + intros (a & b & H). destruct a as [|y a].
      * left. now exists b.
      * right. exists a, b. simpl in H. congruence.
Qed.

(** X3.  Preprocessing an expression or a filter yields text of the same
    length with no path separator left, leaves text without a separator
    as it is, and is idempotent. *)
Theorem preprocess_rule_identifier_safe :
  forall s : string,
    exists s',
      _preprocess_rule (VStr s) = Ret s' /\
      String.length s' = String.length s /\
      PyStr.contains "/" s' = false /\
      _preprocess_rule (VStr s') = Ret s' /\
      (PyStr.contains "/" s = false -> s' = s).
Proof.
  intros s. exists (PyStr.replace_char "/" "_" s).
  assert (Hfree : PyStr.contains "/" (PyStr.replace_char "/" "_" s) = false)
    by (apply replace_char_removes; discriminate).
  repeat split.
  - apply replace_char_length.
  - exact Hfree.
  - cbn. f_equal. now apply replace_char_absent.
  - apply replace_char_absent.
Qed.

(** X4.  Preprocessing keeps containment: a filter that occurs in the
    text of a rule still occurs in it after both were preprocessed, so
    the pre-filter never hides a rule that names the topic, and such a
    rule, evaluated alone, reaches the engine. *)
Theorem prefilter_keeps_rules_naming_the_topic :
  forall (le : string -> result pyval)
         (m : string -> PyDict.dict pyval -> result bool)
         (data : PyDict.dict string) (pd : PyDict.dict pyval)
         (f text : string) (r acts : pyval),
    PyStr.contains f text = true ->
    PyStr.contains (PyStr.replace_char "/" "_" f)
      (PyStr.replace_char "/" "_" text) = true /\
    (_preprocess_data le data = Ret pd ->
     PyVal.getitem r "rule" = Ret (VStr text) ->
     PyVal.getitem r "actions" = Ret acts ->
     exists rest,
       snd (evaluate_rules le m (VList [r]) data f)
       = DebugRuleEngine (PyStr.replace_char "/" "_" text) :: rest).
Proof.
  intros le m data pd f text r acts Hc.
  assert (Hc' : PyStr.contains (PyStr.replace_char "/" "_" f)
                  (PyStr.replace_char "/" "_" text) = true).
  { apply contains_app in Hc as (a & b & ->). apply contains_app.
    exists (PyStr.replace_char "/" "_" a), (PyStr.replace_char "/" "_" b).
    now rewrite !replace_char_app. }
  split; [exact Hc'|].
  intros Hpd Hr Ha.
  rewrite (evaluate_rules_list le m _ data f Hpd).
  cbn [for_each]. unfold bind at 1, evaluate_rule. run_m.
  rewrite Hr. cbn. rewrite Ha. cbn. rewrite Hc'.
  destruct (m (PyStr.replace_char "/" "_" text) pd) as [[|]|e].
  - destruct (PyVal.iter acts) as [items|e] eqn:Hit.
    + rewrite for_each_append_output. cbn. now exists [].
    + rewrite (iter_raises _ Hit). cbn. eexists; reflexivity.
  - cbn. now exists [].
  - destruct e; cbn; eexists; reflexivity.
Qed.

Lemma prefilter_keeps_rules_naming_the_topic_witness :
  PyStr.contains "_a_b" "_a_b_c == 5" = true.
Proof.
  apply (proj1 (prefilter_keeps_rules_naming_the_topic Lit.literal_eval
                  RefEngine.matches Example.snapshot [("_a_b_c", VInt 5)]
                  "/a/b" "/a/b/c == 5" Example.r_match
                  (VList [Example.switch_on]) eq_refl)).
Defined.

Lemma preprocess_rule_identifier_safe_witness :
  exists s',
    _preprocess_rule (VStr "a_b == 5") = Ret s' /\ s' = "a_b == 5".
Proof.
  destruct (preprocess_rule_identifier_safe "a_b == 5")
    as (s' & H1 & _ & _ & _ & H5).
  exists s'. split; [exact H1 | apply H5; reflexivity].
Defined.

Section PreprocessDataFacts.

Variable le : string -> result pyval.

Lemma preprocess_data_from_app (d1 d2 : PyDict.dict string)
    (acc : PyDict.dict pyval) :
  _preprocess_data_from le (d1 ++ d2) acc =
  rbind (_preprocess_data_from le d1 acc) (_preprocess_data_from le d2).
Proof.
  revert acc. induction d1 as [|[k v] t IH]; intros acc; [reflexivity|].
  cbn [app _preprocess_data_from].
  destruct (get_var le (VStr v)); cbn [rbind]; [apply IH | reflexivity].
Qed.

Lemma preprocess_data_from_other (d : PyDict.dict string)
    (acc pd : PyDict.dict pyval) (k' : string) :
  Forall (fun kv => PyStr.replace_char "/" "_" (fst kv) <> k') d ->
  _preprocess_data_from le d acc = Ret pd ->
  PyDict.get k' pd = PyDict.get k' acc.
Proof.
  intros Hd. revert acc.
  induction Hd as [|[k v] t Hk _ IH]; intros acc; cbn [_preprocess_data_from].
  - now intros [= <-].
  - destruct (get_var le (VStr v)) as [w|e]; cbn [rbind]; [|discriminate].
    intros H. rewrite (IH _ H). apply get_set_other. cbn in Hk. congruence.
Qed.

Lemma preprocess_data_from_sound (d : PyDict.dict string) :
  forall (acc pd : PyDict.dict pyval) (k' : string) (w : pyval),
    _preprocess_data_from le d acc = Ret pd ->
    PyDict.get k' pd = Some w ->
    PyDict.get k' acc = Some w \/
    exists k v, In (k, v) d /\ k' = PyStr.replace_char "/" "_" k /\
                get_var le (VStr v) = Ret w.
Proof.
  induction d as [|[k v] t IH]; intros acc pd k' w; cbn [_preprocess_data_from].
  - intros [= <-]. auto.
  - destruct (get_var le (VStr v)) as [x|e] eqn:Hv; cbn [rbind];
      [|discriminate].
    intros H Hg. destruct (IH _ _ _ _ H Hg) as [Hacc | (k0 & v0 & Hin & ? & ?)].
    + destruct (String.eqb_spec k' (PyStr.replace_char "/" "_" k)) as [->|Hne].
      * rewrite get_set_same in Hacc. injection Hacc as <-.
        right. exists k, v. split; [now left | auto].
      * left. now rewrite get_set_other in Hacc.
    + right. exists k0, v0. split; [now right | auto].
Qed.

Lemma preprocess_data_from_raises (d : PyDict.dict string) (k v : string)
    (e : exn) :
  In (k, v) d -> get_var le (VStr v) = Raise e ->
  forall acc, exists e', _preprocess_data_from le d acc = Raise e'.
Proof.
  intros Hin Hv. induction d as [|[k0 v0] t IH]; [contradiction|].
  intros acc. cbn [_preprocess_data_from].
  destruct Hin as [[= -> ->] | Hin].
  - rewrite Hv. now exists e.
  - destruct (get_var le (VStr v0)); cbn [rbind]; [apply (IH Hin) | eauto].
Qed.

End PreprocessDataFacts.

(** X5.  The preprocessed snapshot binds each identifier to the coerced
    value of the last entry of the snapshot whose topic preprocesses to
    it; every binding comes from such an entry, and no identifier
    contains a path separator. *)
Theorem preprocess_data_bindings :
  forall (le : string -> result pyval) (data : PyDict.dict string)
         (pd : PyDict.dict pyval),
    _preprocess_data le data = Ret pd ->
    (forall d1 d2 k v,
        data = d1 ++ (k, v) :: d2 ->
        Forall (fun kv => PyStr.replace_char "/" "_" (fst kv)
                          <> PyStr.replace_char "/" "_" k) d2 ->
        exists w, get_var le (VStr v) = Ret w /\
                  PyDict.get (PyStr.replace_char "/" "_" k) pd = Some w) /\
    (forall k' w,
        PyDict.get k' pd = Some w ->
        PyStr.contains "/" k' = false /\
        exists k v, In (k, v) data /\ k' = PyStr.replace_char "/" "_" k /\
                    get_var le (VStr v) = Ret w).
Proof.
  intros le data pd Hpd. split.
  - intros d1 d2 k v -> Hd2. unfold _preprocess_data in Hpd.
    rewrite preprocess_data_from_app in Hpd.
    destruct (_preprocess_data_from le d1 []) as [acc1|e]; [|discriminate].
    cbn [rbind _preprocess_data_from] in Hpd.
    destruct (get_var le (VStr v)) as [w|e]; [|discriminate].
    cbn [rbind] in Hpd. exists w. split; [reflexivity|].
    rewrite (@preprocess_data_from_other le _ _ _ _ Hd2 Hpd). apply get_set_same.
  - intros k' w Hg.
    destruct (@preprocess_data_from_sound le _ _ _ _ _ Hpd Hg)
      as [H | (k & v & Hin & -> & Hv)]; [discriminate|].
    split; [apply replace_char_removes; discriminate | eauto].
Qed.

Lemma preprocess_data_bindings_witness :
  exists w, get_var Lit.literal_eval (VStr "7") = Ret w /\
            PyDict.get "_a_b"
              [("_a_b", VInt 7); ("_c", VBool true)] = Some w.
Proof.
  refine (proj1 (@preprocess_data_bindings Lit.literal_eval
                   [("/a/b", "on"); ("/c", "true"); ("/a_b", "7")]
                   [("_a_b", VInt 7); ("_c", VBool true)] eq_refl)
            [("/a/b", "on"); ("/c", "true")] [] "/a_b" "7" eq_refl _).
  constructor.
Defined.

(** X6.  One stored payload on which [get_var] raises disables the rules:
    whatever the rule set (other than [None]) and the filter, the pass is
    cut short before the first rule and no action is returned. *)
Theorem poisoned_payload_disables_rules :
  forall (le : string -> result pyval)
         (m : string -> PyDict.dict pyval -> result bool)
         (data : PyDict.dict string) (k v : string) (e : exn)
         (rules : pyval) (f : string),
    In (k, v) data ->
    get_var le (VStr v) = Raise e ->
    rules <> VNone ->
    exists e', evaluate_rules le m rules data f
               = (Ret [], [ErrorUnexpected e']).
Proof.
  intros le m data k v e rules f Hin Hv Hrules.
  destruct (@preprocess_data_from_raises le data k v e Hin Hv []) as [e' He'].
  exists e'. rewrite evaluate_rules_eq. unfold _preprocess_data.
  rewrite He'. now destruct rules.
Qed.

Lemma poisoned_payload_disables_rules_witness :
  exists e', evaluate_rules Lit.literal_eval RefEngine.matches
               (VList [Example.r_match])
               [("/a/b/c", "5"); ("/k", "{[1]: 2}")] ""
             = (Ret [], [ErrorUnexpected e']).
Proof.
  apply (@poisoned_payload_disables_rules Lit.literal_eval RefEngine.matches
           [("/a/b/c", "5"); ("/k", "{[1]: 2}")] "/k" "{[1]: 2}"
           TypeError);
    [right; left; reflexivity | reflexivity | discriminate].
Defined.

(** ** Rule evaluation *)

(** X7.  Evaluation goes through the rules in order: when the pass over
    a first list is not cut short, the pass over the two lists joined
    returns the actions of the first followed by those of the second, and
    logs what the two passes log. *)
Theorem evaluate_rules_concatenation :
  forall (le : string -> result pyval)
         (m : string -> PyDict.dict pyval -> result bool)
         (data : PyDict.dict string) (f : string) (l1 l2 : list pyval)
         (o1 o2 : list pyval) (lg1 lg2 : list log_event),
    evaluate_rules le m (VList l1) data f = (Ret o1, lg1) ->
    aborted lg1 = false ->
    evaluate_rules le m (VList l2) data f = (Ret o2, lg2) ->
    evaluate_rules le m (VList (l1 ++ l2)) data f
    = (Ret (o1 ++ o2), lg1 ++ lg2).
Proof.
  intros le m data f l1 l2 o1 o2 lg1 lg2.
  destruct (_preprocess_data le data) as [pd|e] eqn:Hpd.
  - rewrite !(evaluate_rules_list le m _ data f Hpd), for_each_app.
    destruct (rules_loop_shape m pd f l1) as (res1 & oa & lga & H1 & _).
    destruct (rules_loop_shape m pd f l2) as (res2 & ob & lgb & H2 & _).
    rewrite H1, !H2. cbn [output log app].
    destruct res1 as [[]|e1].
    + intros [= <- <-] _ [= <- <-]. f_equal.
      destruct res2; [reflexivity | now rewrite app_assoc].
    + intros [= <- <-] Ha. now rewrite aborted_app_unexpected in Ha.
  - rewrite (evaluate_rules_eq le m (VList l1)), Hpd.
    intros [= <- <-]. discriminate.
Qed.

Lemma evaluate_rules_concatenation_witness :
  evaluate_rules Lit.literal_eval RefEngine.matches
    (VList ([Example.r_absent; Example.r_match] ++ [Example.r_match]))
    Example.snapshot ""
  = (Ret ([Example.switch_on] ++ [Example.switch_on]),
     [DebugRuleEngine "_q_r_s == 1"; InfoNotFound SymbolResolutionError;
      DebugRuleEngine "_a_b_c == 5"] ++ [DebugRuleEngine "_a_b_c == 5"]).
Proof.
  apply evaluate_rules_concatenation; reflexivity.
Defined.

(** X8.  What one well-formed rule does, evaluated alone: nothing at all
    when its expression does not contain the filter; otherwise the engine
    runs, and the rule returns its actions in list order when the engine
    answers true, nothing when it answers false or raises one of the two
    errors of the inner handlers, and cuts the pass short on any other
    error or when its actions cannot be iterated. *)
Theorem single_rule_outcome :
  forall (le : string -> result pyval)
         (m : string -> PyDict.dict pyval -> result bool)
         (data : PyDict.dict string) (pd : PyDict.dict pyval) (f : string)
         (r : pyval) (text : string) (acts : pyval),
    _preprocess_data le data = Ret pd ->
    PyVal.getitem r "rule" = Ret (VStr text) ->
    PyVal.getitem r "actions" = Ret acts ->
    evaluate_rules le m (VList [r]) data f =
    let text' := PyStr.replace_char "/" "_" text in
    if PyStr.contains (PyStr.replace_char "/" "_" f) text' then
      match m text' pd with
      | Ret true =>
          match PyVal.iter acts with
          | Ret items => (Ret items, [DebugRuleEngine text'])
          | Raise e =>
              (Ret [], [DebugRuleEngine text'; ErrorUnexpected TypeError])
          end
      | Ret false => (Ret [], [DebugRuleEngine text'])
      | Raise e =>
          (Ret [],
           [DebugRuleEngine text';
            if exn_eqb e RuleSyntaxError then ErrorRuleSyntax text'
            else if exn_eqb e SymbolResolutionError then InfoNotFound e
            else ErrorUnexpected e])
      end
    else (Ret [], []).
Proof.
  intros le m data pd f r text acts Hpd Hr Ha.
  rewrite (evaluate_rules_list le m _ data f Hpd).
  cbn [for_each]. unfold bind at 1, evaluate_rule. run_m.
  rewrite Hr. cbn. rewrite Ha. cbn.
  destruct (PyStr.contains _ _); [|reflexivity].
  destruct (m (PyStr.replace_char "/" "_" text) pd) as [[|]|e].
  - destruct (PyVal.iter acts) as [items|e] eqn:Hit.
    + now rewrite for_each_append_output.
    + now rewrite (iter_raises _ Hit).
  - reflexivity.
  - destruct e; reflexivity.
Qed.

Lemma single_rule_outcome_witness :
  evaluate_rules Lit.literal_eval RefEngine.matches
    (VList [Example.r_syntax]) Example.snapshot "/a/b/c"
  = (Ret [],
     [DebugRuleEngine "_a_b_c is 5"; ErrorRuleSyntax "_a_b_c is 5"]).
Proof.
  apply (@single_rule_outcome Lit.literal_eval RefEngine.matches
           Example.snapshot [("_a_b_c", VInt 5)] "/a/b/c" Example.r_syntax
           "/a/b/c is 5" (VList [Example.fan_on]));
    reflexivity.
Defined.

(** X9.  A record without a usable ['rule'] or without ['actions'] cuts
    the pass short where it stands, whatever the filter: the subscripts
    are evaluated before the pre-filter, so no later rule is evaluated
    even when the filter would have skipped the record. *)
Theorem malformed_rule_record_aborts :
  forall (le : string -> result pyval)
         (m : string -> PyDict.dict pyval -> result bool)
         (data : PyDict.dict string) (pd : PyDict.dict pyval) (f : string)
         (r : pyval) (rest : list pyval) (e : exn),
    _preprocess_data le data = Ret pd ->
    PyVal.getitem r "rule" = Raise e \/
    (exists v, PyVal.getitem r "rule" = Ret v /\
               _preprocess_rule v = Raise e) \/
    (exists v, PyVal.getitem r "rule" = Ret (VStr v) /\
               PyVal.getitem r "actions" = Raise e) ->
    evaluate_rules le m (VList (r :: rest)) data f
    = (Ret [], [ErrorUnexpected e]).
Proof.
  intros le m data pd f r rest e Hpd H.
  rewrite (evaluate_rules_list le m _ data f Hpd).
  cbn [for_each]. unfold bind at 1, evaluate_rule. run_m.
  destruct H as [H | [(v & H1 & H2) | (v & H1 & H2)]].
  - now rewrite H.
  - rewrite H1. cbn. now rewrite H2.
  - rewrite H1. cbn. now rewrite H2.
Qed.

Lemma malformed_rule_record_aborts_witness :
  evaluate_rules Lit.literal_eval RefEngine.matches
    (VList [VDict [(VStr "rule", VStr "/q/r/s == 1")]; Example.r_match])
    Example.snapshot "/a/b/c"
  = (Ret [], [ErrorUnexpected KeyError]).
Proof.
  apply (@malformed_rule_record_aborts Lit.literal_eval RefEngine.matches
           Example.snapshot [("_a_b_c", VInt 5)]);
    [reflexivity | right; right; exists "/q/r/s == 1"; split; reflexivity].
Defined.

Section EvaluationSoundness.

Variable m : string -> PyDict.dict pyval -> result bool.
Variable pd : PyDict.dict pyval.
Variable f : string.

Lemma evaluate_rule_sound (r : pyval) (s s' : eval_state) (res : result unit) :
  evaluate_rule m pd f r s = (res, s') ->
  forall a, In a (output s') ->
    In a (output s) \/
    exists text acts items,
      PyVal.getitem r "rule" = Ret (VStr text) /\
      PyVal.getitem r "actions" = Ret acts /\
      PyVal.iter acts = Ret items /\ In a items /\
      PyStr.contains (PyStr.replace_char "/" "_" f)
        (PyStr.replace_char "/" "_" text) = true /\
      m (PyStr.replace_char "/" "_" text) pd = Ret true.
Proof.
  unfold evaluate_rule. run_m.
  destruct (PyVal.getitem r "rule") as [rule|e] eqn:Hr; cbn beta iota;
    [|intros [= _ <-]; auto].
  destruct rule as [| | | |text| | | |]; cbn [_preprocess_rule];
    try (intros [= _ <-]; auto).
  destruct (PyVal.getitem r "actions") as [acts|e] eqn:Ha; cbn beta iota;
    [|intros [= _ <-]; auto].
  destruct (PyStr.contains (PyStr.replace_char "/" "_" f)
              (PyStr.replace_char "/" "_" text)) eqn:Hc;
    [|intros [= _ <-]; auto].
  destruct (m (PyStr.replace_char "/" "_" text) pd) as [[|]|e] eqn:Hm.
  - destruct (PyVal.iter acts) as [items|e] eqn:Hit.
    + rewrite for_each_append_output. cbn. intros [= _ <-] a Hin.
      cbn in Hin. apply in_app_or in Hin as [Hin | Hin]; [now left|].
      right. exists text, acts, items. auto 10.
    + rewrite (iter_raises _ Hit). cbn. intros [= _ <-]. auto.
  - cbn. intros [= _ <-]. auto.
  - destruct e; cbn; intros [= _ <-]; auto.
Qed.

Lemma rules_loop_sound (l : list pyval) :
  forall (s s' : eval_state) (res : result unit),
    for_each l (evaluate_rule m pd f) s = (res, s') ->
    forall a, In a (output s') ->
      In a (output s) \/
      exists r text acts items,
        In r l /\
        PyVal.getitem r "rule" = Ret (VStr text) /\
        PyVal.getitem r "actions" = Ret acts /\
        PyVal.iter acts = Ret items /\ In a items /\
        PyStr.contains (PyStr.replace_char "/" "_" f)
          (PyStr.replace_char "/" "_" text) = true /\
        m (PyStr.replace_char "/" "_" text) pd = Ret true.
Proof.
  induction l as [|r t IH]; intros s s' res; cbn [for_each].
  - intros [= _ <-]. auto.
  - unfold bind.
    destruct (evaluate_rule m pd f r s) as [[[]|e] s1] eqn:H1.
    + intros H a Hin.
      destruct (IH _ _ _ H a Hin) as [Hs1 | (r' & text & acts & items & Hr & Hrest)].
      * destruct (evaluate_rule_sound r s H1 a Hs1)
          as [? | (text & acts & items & Hrest)]; [now left|].
        right. exists r, text, acts, items. split; [now left | exact Hrest].
      * right. exists r', text, acts, items. split; [now right | exact Hrest].
    + intros [= _ <-] a Hin.
      destruct (evaluate_rule_sound r s H1 a Hin)
        as [? | (text & acts & items & Hrest)]; [now left|].
      right. exists r, text, acts, items. split; [now left | exact Hrest].
Qed.

End EvaluationSoundness.

(** X10.  [evaluate_rules] invents nothing: every action it returns is an
    item of the ['actions'] of a rule of the list whose preprocessed
    expression contains the preprocessed filter and on which the engine
    answered true for the preprocessed snapshot. *)
Theorem returned_actions_come_from_matching_rules :
  forall (le : string -> result pyval)
         (m : string -> PyDict.dict pyval -> result bool)
         (l : list pyval) (data : PyDict.dict string) (f : string)
         (out : list pyval) (a : pyval),
    fst (evaluate_rules le m (VList l) data f) = Ret out ->
    In a out ->
    exists pd r text acts items,
      _preprocess_data le data = Ret pd /\
      In r l /\
      PyVal.getitem r "rule" = Ret (VStr text) /\
      PyVal.getitem r "actions" = Ret acts /\
      PyVal.iter acts = Ret items /\ In a items /\
      PyStr.contains (PyStr.replace_char "/" "_" f)
        (PyStr.replace_char "/" "_" text) = true /\
      m (PyStr.replace_char "/" "_" text) pd = Ret true.
Proof.
  intros le m l data f out a.
  destruct (_preprocess_data le data) as [pd|e] eqn:Hpd.
  - rewrite (evaluate_rules_list le m _ data f Hpd).
    destruct (for_each l (evaluate_rule m pd f) (mk_eval_state [] []))
      as [res s'] eqn:H.
    cbn. intros [= <-] Hin.
    destruct (rules_loop_sound m pd f l _ H a Hin)
      as [[] | (r & text & acts & items & Hrest)].
    exists pd, r, text, acts, items. split; [reflexivity | exact Hrest].
  - rewrite evaluate_rules_eq, Hpd. cbn. intros [= <-] [].
Qed.

Lemma returned_actions_come_from_matching_rules_witness :
  exists pd r text acts items,
    _preprocess_data Lit.literal_eval Example.snapshot = Ret pd /\
    In r [Example.r_absent; Example.r_match] /\
    PyVal.getitem r "rule" = Ret (VStr text) /\
    PyVal.getitem r "actions" = Ret acts /\
    PyVal.iter acts = Ret items /\ In Example.switch_on items /\
    PyStr.contains (PyStr.replace_char "/" "_" "/a/b/c")
      (PyStr.replace_char "/" "_" text) = true /\
    RefEngine.matches (PyStr.replace_char "/" "_" text) pd = Ret true.
Proof.
  apply (@returned_actions_come_from_matching_rules Lit.literal_eval
           RefEngine.matches [Example.r_absent; Example.r_match]
           Example.snapshot "/a/b/c" [Example.switch_on]);
    [reflexivity | left; reflexivity].
Defined.

(** ** The rule repository *)

(** X11.  [load_rules] does not look at what it loads: whatever value the
    document has under ['rules'] is returned, iterable or not; without a
    file name, or when reading or parsing raises, the result is [None].
    A value that cannot be iterated (other than [None]) then makes every
    evaluation return no action and log [TypeError]. *)
Theorem load_rules_installs_what_it_parsed :
  forall (file : string) (v : pyval),
    Repository.load_rules (Some file) (Ret v) = v /\
    (forall r, Repository.load_rules None r = VNone) /\
    (forall e, Repository.load_rules (Some file) (Raise e) = VNone) /\
    (forall le m data f pd e,
        v <> VNone ->
        PyVal.iter v = Raise e ->
        _preprocess_data le data = Ret pd ->
        evaluate_rules le m (Repository.load_rules (Some file) (Ret v))
          data f
        = (Ret [], [ErrorUnexpected TypeError])).
Proof.
  intros file v. split; [apply load_rules_any | split; [|split]].
  - reflexivity.
  - reflexivity.
  - intros le m data f pd e Hv Hit Hpd.
    rewrite load_rules_any, evaluate_rules_eq, Hpd, Hit.
    rewrite (iter_raises _ Hit). now destruct v.
Qed.

Lemma load_rules_installs_what_it_parsed_witness :
  evaluate_rules Lit.literal_eval RefEngine.matches
    (Repository.load_rules (Some "rules.yaml") (Ret (VInt 5)))
    Example.snapshot ""
  = (Ret [], [ErrorUnexpected TypeError]).
Proof.
  apply (proj2 (proj2 (proj2
           (load_rules_installs_what_it_parsed "rules.yaml" (VInt 5))))
           Lit.literal_eval RefEngine.matches Example.snapshot ""
           [("_a_b_c", VInt 5)] TypeError);
    [discriminate | reflexivity | reflexivity].
Defined.

(** X12.  While the fingerprint is the one recorded, a turn reloads
    nothing: the wrapper is left as it is, whatever the source now
    contains. *)
Theorem unchanged_fingerprint_reloads_nothing :
  forall (w : Repository.watcher) (t : Z) (read : result pyval),
    last_modified_time (Repository.self w) = Some t ->
    Repository.load_and_run_turn (Ret t) read w
    = (Ret tt, Repository.mk_watcher (Repository.self w) (Some t)).
Proof.
  intros [[file r last] cur] t read Hlast. cbn in Hlast. subst last.
  unfold Repository.load_and_run_turn, Repository.read_current. run_m.
  cbn. now rewrite Z.eqb_refl.
Qed.

Lemma unchanged_fingerprint_reloads_nothing_witness :
  Repository.load_and_run_turn (Ret 100) (Ret (VList [])) Example.watcher
  = (Ret tt, Example.watcher).
Proof.
  apply (unchanged_fingerprint_reloads_nothing Example.watcher
           (Ret (VList [])) (t := 100) eq_refl).
Defined.

(** X13.  A watcher that has never obtained a fingerprint and does not
    find the source still calls [load_rules], then reads the unbound
    [current_modified_time]: [UnboundLocalError] ends the thread, with
    the rules set to what [load_rules] returned and no fingerprint
    recorded. *)
Theorem missing_source_ends_fresh_watcher :
  forall (wrapper : RuleEngineWrapper) (read : result pyval),
    last_modified_time wrapper = None ->
    Repository.load_and_run_turn (Raise FileNotFoundError) read
      (Repository.mk_watcher wrapper None)
    = (Raise UnboundLocalError,
       Repository.mk_watcher
         (mk_wrapper (yaml_file wrapper)
            (Repository.load_rules (yaml_file wrapper) read) None)
         None).
Proof.
  intros [file r last] read Hlast. cbn in Hlast. subst last. reflexivity.
Qed.

Lemma missing_source_ends_fresh_watcher_witness :
  Repository.load_and_run
    [(Raise FileNotFoundError, Raise FileNotFoundError);
     (Ret 100, Ret (VList [Example.r_match]))]
    (Repository.init (Some "rules.yaml"))
  = (Raise UnboundLocalError, Repository.init (Some "rules.yaml")).
Proof.
  unfold Repository.load_and_run, bind, Repository.init.
  rewrite (missing_source_ends_fresh_watcher
             (mk_wrapper (Some "rules.yaml") VNone None)
             (Raise FileNotFoundError) eq_refl).
  reflexivity.
Defined.

(** X14.  Once a turn has returned, the recorded fingerprint and the
    local one are the same and stay so: from such a state a source that
    has disappeared ([FileNotFoundError]) leaves the watcher unchanged,
    rules included; every turn whose [getmtime] returns or raises
    [FileNotFoundError] returns, and a turn raises only what [getmtime]
    raised, so that [UnboundLocalError] cannot occur any more. *)
Theorem watcher_fingerprints_stay_synchronised :
  forall (w w' : Repository.watcher) (mt : result Z) (read : result pyval),
    (Repository.load_and_run_turn mt read w = (Ret tt, w') ->
     exists t, last_modified_time (Repository.self w') = Some t /\
               Repository.current_modified_time w' = Some t) /\
    (forall t,
        last_modified_time (Repository.self w) = Some t ->
        Repository.current_modified_time w = Some t ->
        Repository.load_and_run_turn (Raise FileNotFoundError) read w
        = (Ret tt, w) /\
        (forall t', fst (Repository.load_and_run_turn (Ret t') read w)
                    = Ret tt) /\
        (forall e, fst (Repository.load_and_run_turn mt read w) = Raise e ->
                   mt = Raise e)).
Proof.
  intros [[file r last] cur] w' mt read. split.
  - unfold Repository.load_and_run_turn, Repository.read_current. run_m.
    destruct mt as [t|e]; cbn.
    + destruct last as [l|]; cbn.
      * destruct (Z.eqb_spec t l) as [->|Hne]; cbn;
          intros [= <-]; cbn; eauto.
      * intros [= <-]; cbn; eauto.
    + destruct e; cbn; try discriminate.
      destruct last as [l|]; cbn.
      * destruct cur as [c|]; cbn; [|discriminate].
        destruct (Z.eqb_spec c l) as [->|Hne]; cbn;
          intros [= <-]; cbn; eauto.
      * destruct cur as [c|]; cbn; [|discriminate].
        intros [= <-]; cbn; eauto.
  - intros t Hl Hc. cbn in Hl, Hc. subst last cur.
    unfold Repository.load_and_run_turn, Repository.read_current. run_m.
    split; [|split].
    + cbn. now rewrite Z.eqb_refl.
    + intros t'. cbn. now destruct (t' =? t).
    + intros e'. destruct mt as [t'|e]; cbn -[Z.eqb].
      * destruct (t' =? t); cbn; discriminate.
      * destruct e; cbn -[Z.eqb]; try (intros [= <-]; reflexivity).
        rewrite Z.eqb_refl. cbn. discriminate.
Qed.

Lemma watcher_fingerprints_stay_synchronised_witness :
  Repository.load_and_run_turn (Raise FileNotFoundError) (Raise OSError)
    Example.watcher
  = (Ret tt, Example.watcher).
Proof.
  apply (proj2 (watcher_fingerprints_stay_synchronised Example.watcher
                  Example.watcher (Raise FileNotFoundError) (Raise OSError))
           100 eq_refl eq_refl).
Defined.

(** ** Message intake *)

Lemma decode_raises (l : list Init.Byte.byte) (e : exn) :
  Utf8.decode l = Raise e -> e = UnicodeDecodeError.
Proof.
  unfold Utf8.decode. destruct (Utf8.well_formed l); congruence.
Qed.

(** When the topic decodes, the handler is [on_message] on the text
    decoded. *)
Lemma callback_decoded_topic (le : string -> result pyval)
    (m : string -> PyDict.dict pyval -> result bool)
    (str : pyval -> string) (now : string) (msg : Paho.MQTTMessage)
    (h : MQTTInterface) (t : string) :
  Paho.topic msg = Ret t ->
  on_message_callback le m str now msg h
  = on_message le m str now (mk_message t (Paho.payload msg)) h.
Proof.
  intros Ht.
  unfold on_message_callback, on_message, callback_try, callback_except,
    on_message_try, after_decode, try_except_Exception, bind, lift.
  rewrite Ht. cbn [topic payload].
  destruct (Utf8.decode (Paho.payload msg)) as [p|e]; reflexivity.
Qed.

(** When it does not, the [except] clause raises in its turn, with
    nothing written. *)
Lemma callback_undecodable_topic (le : string -> result pyval)
    (m : string -> PyDict.dict pyval -> result bool)
    (str : pyval -> string) (now : string) (msg : Paho.MQTTMessage)
    (h : MQTTInterface) (e : exn) :
  Paho.topic msg = Raise e ->
  on_message_callback le m str now msg h = (Raise e, h).
Proof.
  intros Ht.
  unfold on_message_callback, callback_try, callback_except,
    try_except_Exception, bind, lift, modify.
  rewrite Ht.
  destruct (Utf8.decode (Paho.payload msg)) as [p|e']; reflexivity.
Qed.

(** X15.  The handler raises exactly when the topic or the payload of
    the delivered message is not UTF-8: [UnicodeDecodeError] for the
    topic, which the [except] clause reads again, and otherwise
    [UnboundLocalError] for the payload, which that clause formats
    unbound.  The interface is then left as it was. *)
Theorem on_message_raises_iff :
  forall (le : string -> result pyval)
         (m : string -> PyDict.dict pyval -> result bool)
         (str : pyval -> string) (now : string) (msg : Paho.MQTTMessage)
         (h : MQTTInterface) (e : exn),
    fst (on_message_callback le m str now msg h) = Raise e <->
    snd (on_message_callback le m str now msg h) = h /\
    (Paho.topic msg = Raise UnicodeDecodeError /\ e = UnicodeDecodeError \/
     (exists t, Paho.topic msg = Ret t) /\
     Utf8.decode (Paho.payload msg) = Raise UnicodeDecodeError /\
     e = UnboundLocalError).
Proof.
  intros le m str now msg h e.
  destruct (Paho.topic msg) as [t|et] eqn:Ht.
  - rewrite (callback_decoded_topic le m str now msg h Ht).
    set (msg' := mk_message t (Paho.payload msg)).
    change (Paho.payload msg) with (payload msg').
    intake_cases le m str now msg' h;
      try (split; [discriminate
                  | intros (_ & [[[=] _] | (_ & [=] & _)])]).
    pose proof (decode_raises _ Hdecode) as ->.
    split.
    + intros [= <-]. split; [reflexivity | right]. eauto.
    + intros (_ & [[[=] _] | (_ & _ & ->)]). reflexivity.
  - rewrite (callback_undecodable_topic le m str now msg h Ht).
    pose proof (decode_raises _ Ht) as ->. cbn [fst snd].
    split.
    + intros [= <-]. split; [reflexivity | left; split; reflexivity].
    + intros (_ & [[_ ->] | ([t [=]] & _)]). reflexivity.
Qed.

Lemma on_message_raises_iff_witness :
  on_message_callback Lit.literal_eval RefEngine.matches RefStr.str
    Example.now
    (Paho.mk_MQTTMessage [Init.Byte.xc3; Init.Byte.x28]
       (list_byte_of_string "on"))
    Example.hub
  = (Raise UnicodeDecodeError, Example.hub).
Proof.
  pose proof (proj2 (on_message_raises_iff Lit.literal_eval RefEngine.matches
                       RefStr.str Example.now
                       (Paho.mk_MQTTMessage [Init.Byte.xc3; Init.Byte.x28]
                          (list_byte_of_string "on"))
                       Example.hub UnicodeDecodeError)) as H.
  rewrite (surjective_pairing (on_message_callback _ _ _ _ _ _)).
  rewrite H; [reflexivity|].
  split; [reflexivity | left; split; reflexivity].
Defined.

Lemma get_set_inv {V : Type} (k k' : string) (v : V) (d : PyDict.dict V) :
  PyDict.get k (PyDict.set k' v d) <> None ->
  k = k' \/ PyDict.get k d <> None.
Proof.
  destruct (String.eqb_spec k k') as [->|Hne]; [now left|].
  rewrite get_set_other by assumption. now right.
Qed.

(** X16.  The store only holds topics of the tree: when the ping topic
    starts with the separator and every stored topic does, the same is
    true after any message. *)
Theorem store_keys_stay_on_the_tree :
  forall (le : string -> result pyval)
         (m : string -> PyDict.dict pyval -> result bool)
         (str : pyval -> string) (now : string) (msg : mqtt_message)
         (h : MQTTInterface),
    PyStr.startswith (topic_ping h) "/" = true ->
    (forall k, PyDict.get k (messages h) <> None ->
               PyStr.startswith k "/" = true) ->
    forall k,
      PyDict.get k (messages (snd (on_message le m str now msg h))) <> None ->
      PyStr.startswith k "/" = true.
Proof.
  intros le m str now msg h Hping Hall k.
  intake_cases le m str now msg h; auto.
  - intros H. apply get_set_inv in H as [-> | H]; auto.
  - destruct (PyDict.get (topic_ping h)
                (PyDict.set (topic msg) p (messages h))).
    + intros H. apply get_set_inv in H as [-> | H]; auto.
    + intros H. apply get_set_inv in H as [-> | H]; [assumption|].
      apply get_set_inv in H as [-> | H]; auto.
  - destruct (PyDict.get (topic_ping h)
                (PyDict.set (topic msg) p (messages h))).
    + intros H. apply get_set_inv in H as [-> | H]; auto.
    + intros H. apply get_set_inv in H as [-> | H]; [assumption|].
      apply get_set_inv in H as [-> | H]; auto.
  - intros H. apply get_set_inv in H as [-> | H]; auto.
Qed.

Lemma store_keys_stay_on_the_tree_witness :
  PyDict.get "/k/fan/state"
    (messages (snd (Example.on_message Example.now
                      (Example.message "/k/fan/state" "on")
                      Example.hub))) <> None /\
  PyStr.startswith "/k/fan/state" "/" = true.
Proof.
  split; [vm_compute; discriminate|].
  apply (store_keys_stay_on_the_tree Lit.literal_eval RefEngine.matches
           RefStr.str Example.now (Example.message "/k/fan/state" "on")
           Example.hub eq_refl).
  - intros k. cbn.
    destruct (String.eqb_spec k "/a/b/c") as [->|_];
      [reflexivity | intros H; now elim H].
  - vm_compute; discriminate.
Defined.

(** X17.  A message never removes or reorders what is queued and never
    touches the configuration: both queues grow at their end only, the
    database queue by at most the message itself, and the rule engine and
    the ping topic are the ones the interface had. *)
Theorem on_message_only_appends :
  forall (le : string -> result pyval)
         (m : string -> PyDict.dict pyval -> result bool)
         (str : pyval -> string) (now : string) (msg : mqtt_message)
         (h : MQTTInterface),
    let h' := snd (on_message le m str now msg h) in
    (exists reqs, publish_queue h' = publish_queue h ++ reqs) /\
    (db_queue h' = db_queue h \/
     exists p, Utf8.decode (payload msg) = Ret p /\
               db_queue h' = db_queue h ++ [(topic msg, p)]) /\
    (exists evs, events h' = events h ++ evs) /\
    rule_engine h' = rule_engine h /\
    topic_ping h' = topic_ping h.
Proof.
  intros le m str now msg h h'. subst h'.
  intake_cases le m str now msg h;
    repeat split;
    try (exists []; now rewrite app_nil_r);
    try (now left);
    try (right; exists p; now split);
    try (eexists; rewrite <- ?app_assoc; reflexivity).
Qed.

Lemma before_last_slash_free (a : string) :
  PyStr.contains "/" a = false -> PyStr.before_last_slash a = None.
Proof.
  induction a as [|c t IH]; [reflexivity|].
  cbn [PyStr.contains String.prefix PyStr.before_last_slash].
  destruct (ascii_dec "/" c) as [<-|Hne].
  - destruct t; discriminate.
  - intros H. rewrite (IH H).
    now rewrite (proj2 (Ascii.eqb_neq c "/")) by congruence.
Qed.

Lemma rsplit_slash_head_app (d a : string) :
  PyStr.contains "/" a = false ->
  PyStr.rsplit_slash_head (d ++ "/" ++ a) = d.
Proof.
  intros Ha. unfold PyStr.rsplit_slash_head.
  assert (H : PyStr.before_last_slash (d ++ "/" ++ a) = Some d).
  { induction d as [|c t IH]; cbn.
    - now rewrite (before_last_slash_free a Ha).
    - cbn in IH. now rewrite IH. }
  now rewrite H.
Qed.

(** X18.  The liveness record is keyed by the topic without its last
    segment: for a topic [d/a] outside [/global/], with [a] free of
    separators and a stored record that parses to a dictionary, the
    step queues the message for the database, then publishes on the ping
    topic that dictionary with [d] bound to the current time, so that all
    attributes of one device refresh one entry. *)
Theorem liveness_entry_is_the_device_path :
  forall (le : string -> result pyval) (str : pyval -> string)
         (now d a p : string) (fr : frame)
         (entries : list (pyval * pyval)),
    PyStr.startswith (d ++ "/" ++ a) "/global/" = false ->
    PyStr.contains "/" a = false ->
    le match PyDict.get (topic_ping (this fr)) (messages (this fr)) with
       | Some v => v
       | None => "{}"
       end = Ret (VDict entries) ->
    let h' := this (snd (process_liveness le str now (d ++ "/" ++ a) p fr)) in
    fst (process_liveness le str now (d ++ "/" ++ a) p fr) = Ret tt /\
    db_queue h' = db_queue (this fr) ++ [(d ++ "/" ++ a, p)%string] /\
    publish_queue h' =
    publish_queue (this fr) ++
    [(VStr (topic_ping (this fr)),
      str (VDict (Lit.insert (VStr d) (VStr now) entries)))].
Proof.
  intros le str now d a p fr entries Hres Ha Hle h'. subst h'.
  rewrite process_liveness_eq, Hres. cbv zeta. rewrite Hle.
  cbn [rbind PyVal.setitem]. rewrite (rsplit_slash_head_app d a Ha).
  repeat split.
Qed.

Lemma liveness_entry_is_the_device_path_witness :
  publish_queue
    (this (snd (process_liveness Lit.literal_eval RefStr.str Example.now
                  ("/k/fan" ++ "/" ++ "state") "on"
                  (mk_frame
                     (mk_hub [("/global/ping/devices",
                               "{'/k/fan': 'then', '/a/b': 'then'}")]
                        [] [] None default_topic_ping [])
                     (Some "on")))))
  = [] ++
    [(VStr default_topic_ping,
      RefStr.str
        (VDict (Lit.insert (VStr "/k/fan") (VStr Example.now)
                  [(VStr "/k/fan", VStr "then");
                   (VStr "/a/b", VStr "then")])))].
Proof.
  refine (proj2 (proj2
            (@liveness_entry_is_the_device_path Lit.literal_eval RefStr.str
               Example.now "/k/fan" "state" "on" _ _ _ _ _)));
    reflexivity.
Defined.

(** X19.  A stored ping record that does not parse to a dictionary stops
    the liveness publishing and nothing else: the message is stored and
    queued for the database, the exception is printed by the handler, and
    the publish queue is the one the rules step left. *)
Theorem corrupt_ping_record_stops_liveness_only :
  forall (le : string -> result pyval)
         (m : string -> PyDict.dict pyval -> result bool)
         (str : pyval -> string) (now : string) (msg : mqtt_message)
         (h : MQTTInterface) (p : string) (fr2 : frame) (e : exn),
    Utf8.decode (payload msg) = Ret p ->
    PyStr.startswith (topic msg) "/" = true ->
    PyStr.startswith (topic msg) "/global/" = false ->
    changed h (topic msg) p = true ->
    topic_ping h <> topic msg ->
    process_rules le m str (topic msg)
      (mk_frame (set_message (topic msg) p h) (Some p)) = (Ret tt, fr2) ->
    rbind (le match PyDict.get (topic_ping h) (messages h) with
              | Some v => v
              | None => "{}"
              end)
      (fun d => PyVal.setitem d (PyStr.rsplit_slash_head (topic msg))
                  (VStr now)) = Raise e ->
    let h' := snd (on_message le m str now msg h) in
    fst (on_message le m str now msg h) = Ret tt /\
    PyDict.get (topic msg) (messages h') = Some p /\
    db_queue h' = db_queue h ++ [(topic msg, p)] /\
    publish_queue h' = publish_queue (this fr2) /\
    events h' = events (this fr2) ++ [PrintedError e].
Proof.
  intros le m str now msg h p fr2 e Hd Hs Hg Hc Hne Hrules Hlive h'.
  subst h'.
  rewrite (on_message_changed le m str now msg h Hd Hs Hc), Hrules.
  destruct (process_rules_shape le m str (topic msg)
              (mk_frame (set_message (topic msg) p h) (Some p)))
    as (r2 & reqs & Hshape & _).
  rewrite Hrules in Hshape. injection Hshape as _ ->.
  rewrite process_liveness_eq, Hg. cbv zeta.
  cbn [this payload_var set_message messages db_queue publish_queue
       rule_engine topic_ping events].
  rewrite (get_set_other p (messages h) Hne), Hlive.
  cbn [fst snd record messages db_queue publish_queue events].
  repeat split. cbn [this messages].
  destruct (PyDict.get (topic_ping h) (messages h)).
  - apply get_set_same.
  - rewrite get_set_other by congruence. apply get_set_same.
Qed.

Lemma corrupt_ping_record_stops_liveness_only_witness :
  let h := mk_hub [("/global/ping/devices", "5")] [] [] None
             default_topic_ping [] in
  let h' := snd (Example.on_message Example.now
                   (Example.message "/a/b/c" "5") h) in
  fst (Example.on_message Example.now (Example.message "/a/b/c" "5") h)
  = Ret tt /\
  PyDict.get "/a/b/c" (messages h') = Some "5" /\
  db_queue h' = [] ++ [("/a/b/c", "5")] /\
  publish_queue h' = [] /\
  events h' = [] ++ [PrintedError TypeError].
Proof.
  intros h.
  apply (@corrupt_ping_record_stops_liveness_only Lit.literal_eval
           RefEngine.matches RefStr.str Example.now
           (Example.message "/a/b/c" "5") h "5"
           (mk_frame (set_message "/a/b/c" "5" h) (Some "5")) TypeError);
    solve [reflexivity | discriminate].
Defined.

Lemma get_var_dict_needs_text (le : string -> result pyval) (a : pyval)
    (d : list (pyval * pyval)) :
  get_var le a = Ret (VDict d) ->
  exists s, a = VStr s /\ le s = Ret (VDict d).
Proof.
  destruct a as [|b|n|f|s|l|l|l|d']; try discriminate.
  intros H. exists s. split; [reflexivity|].
  destruct (_is_int (VStr s)) eqn:Hi.
  { apply is_int_text in Hi as [n Hn].
    rewrite (get_var_int_text le s Hn) in H. discriminate. }
  destruct (_is_float (VStr s)) eqn:Hf.
  { unfold get_var in H. rewrite Hi, Hf in H.
    apply is_float_text in Hf as (f & Hf & _).
    cbn in H. rewrite Hf in H. discriminate. }
  destruct (_is_bool (VStr s)) eqn:Hb.
  { unfold get_var in H. rewrite Hi, Hf, Hb in H. discriminate. }
  rewrite (get_var_literal_text le s Hi Hf Hb) in H.
  destruct (le s) as [w|e]; [congruence|].
  destruct (isinstance e ValueError || isinstance e SyntaxError);
    discriminate.
Qed.

(** X20.  Only an action written as text is ever published: a request
    is enqueued for an action only when the action is a string that
    [ast.literal_eval] turns into a dictionary holding ['topic'] and
    ['params']; the request is that topic with the text of the
    parameters, in which no single quote is left.  An action that is
    already a dictionary yields no request. *)
Theorem only_text_actions_are_published :
  forall (le : string -> result pyval) (str : pyval -> string)
         (a t : pyval) (p : string),
    action_request le str a = Ret (t, p) ->
    exists s d params,
      a = VStr s /\ le s = Ret (VDict d) /\
      PyVal.lookup (VStr "topic") d = Some t /\
      PyVal.lookup (VStr "params") d = Some params /\
      p = PyStr.replace_char "'" "034" (str params) /\
      PyStr.contains "'" p = false.
Proof.
  intros le str a t p. unfold action_request.
  destruct (get_var le a) as [ad|e] eqn:Hv; [|discriminate].
  cbn [rbind].
  destruct ad as [| | | | | | | |d]; try discriminate.
  cbn [PyVal.getitem].
  destruct (PyVal.lookup (VStr "topic") d) as [t'|] eqn:Ht; [|discriminate].
  cbn [rbind].
  destruct (PyVal.lookup (VStr "params") d) as [params|] eqn:Hp;
    [|discriminate].
  cbn [rbind]. intros [= <- <-].
  destruct (get_var_dict_needs_text le a Hv) as (s & -> & Hle).
  exists s, d, params. repeat split; try assumption.
  apply replace_char_removes. discriminate.
Qed.

Lemma only_text_actions_are_published_witness :
  exists s d params,
    Example.switch_on = VStr s /\
    Lit.literal_eval s = Ret (VDict d) /\
    PyVal.lookup (VStr "topic") d = Some (VStr "/x/y/z") /\
    PyVal.lookup (VStr "params") d = Some params /\
    PyStr.replace_char "'" "034" "{'on': True}"
    = PyStr.replace_char "'" "034" (RefStr.str params) /\
    PyStr.contains "'" (PyStr.replace_char "'" "034" "{'on': True}")
    = false.
Proof.
  apply (@only_text_actions_are_published Lit.literal_eval RefStr.str
           Example.switch_on (VStr "/x/y/z")).
  reflexivity.
Defined.

Lemma enqueue_actions_until_failure (le : string -> result pyval)
    (str : pyval -> string) (pre : list pyval)
    (reqs : list (pyval * string)) (a : pyval) (post : list pyval)
    (e : exn) :
  Forall2 (fun x r => action_request le str x = Ret r) pre reqs ->
  action_request le str a = Raise e ->
  forall fr,
    for_each (pre ++ a :: post) (enqueue_action le str) fr =
    (Raise e,
     mk_frame
       (mk_hub (messages (this fr)) (db_queue (this fr))
          (publish_queue (this fr) ++ reqs) (rule_engine (this fr))
          (topic_ping (this fr)) (events (this fr)))
       (payload_var fr)).
Proof.
  intros Hpre Ha. induction Hpre as [|x r pre reqs Hx _ IH]; intros fr.
  - cbn [app for_each]. unfold bind, enqueue_action at 1. run_m.
    rewrite Ha. rewrite app_nil_r. now destruct fr as [[] ?].
  - cbn [app for_each]. unfold bind, enqueue_action at 1, update. run_m.
    rewrite Hx. cbn beta iota. rewrite IH. cbn.
    now rewrite <- app_assoc.
Qed.

(** X21.  An action whose request cannot be built stops the update where
    it stands: the requests of the actions before it stay queued, those
    after it are never enqueued, and the message, though stored, is
    neither queued for the database nor counted as a sign of life; the
    handler prints the exception and the call returns. *)
Theorem failing_action_skips_persistence_and_liveness :
  forall (le : string -> result pyval)
         (m : string -> PyDict.dict pyval -> result bool)
         (str : pyval -> string) (now : string) (msg : mqtt_message)
         (h : MQTTInterface) (p : string) (engine : RuleEngineWrapper)
         (pre post : list pyval) (a : pyval)
         (reqs : list (pyval * string)) (e : exn),
    Utf8.decode (payload msg) = Ret p ->
    PyStr.startswith (topic msg) "/" = true ->
    changed h (topic msg) p = true ->
    rule_engine h = Some engine ->
    fst (evaluate_rules le m (rules engine)
           (PyDict.set (topic msg) p (messages h)) (topic msg))
    = Ret (pre ++ a :: post) ->
    Forall2 (fun x r => action_request le str x = Ret r) pre reqs ->
    action_request le str a = Raise e ->
    let h' := snd (on_message le m str now msg h) in
    fst (on_message le m str now msg h) = Ret tt /\
    messages h' = PyDict.set (topic msg) p (messages h) /\
    publish_queue h' = publish_queue h ++ reqs /\
    db_queue h' = db_queue h /\
    exists logged,
      events h' =
      events h ++
      [Evaluated (PyDict.set (topic msg) p (messages h)) (topic msg) logged;
       PrintedError e].
Proof.
  intros le m str now msg h p engine pre post a reqs e
         Hd Hs Hc He Hev Hpre Ha h'. subst h'.
  rewrite (on_message_changed le m str now msg h Hd Hs Hc).
  unfold process_rules, update. run_m.
  cbn [this payload_var set_message rule_engine messages]. rewrite He.
  destruct (evaluate_rules le m (rules engine)
              (PyDict.set (topic msg) p (messages h)) (topic msg))
    as [returned logged].
  cbn [fst] in Hev. subst returned. cbn beta iota.
  rewrite (@enqueue_actions_until_failure le str pre reqs a post e Hpre Ha).
  cbn. repeat split. exists logged. now rewrite <- app_assoc.
Qed.

Lemma failing_action_skips_persistence_and_liveness_witness :
  let h := mk_hub [] [("/old", "1")] []
             (Some (mk_wrapper None
                      (VList [Example.rule_info "/a/b/c == 5"
                                [Example.switch_on;
                                 VDict [(VStr "topic", VStr "/x")];
                                 Example.fan_on]])
                      None))
             default_topic_ping [] in
  let h' := snd (Example.on_message Example.now
                   (Example.message "/a/b/c" "5") h) in
  fst (Example.on_message Example.now (Example.message "/a/b/c" "5") h)
  = Ret tt /\
  messages h' = PyDict.set "/a/b/c" "5" [] /\
  publish_queue h' =
  [] ++ [(VStr "/x/y/z", PyStr.replace_char "'" "034" "{'on': True}")] /\
  db_queue h' = [("/old", "1")] /\
  exists logged,
    events h' =
    [] ++ [Evaluated (PyDict.set "/a/b/c" "5" []) "/a/b/c" logged;
           PrintedError ValueError].
Proof.
  intros h.
  refine (@failing_action_skips_persistence_and_liveness Lit.literal_eval
            RefEngine.matches RefStr.str Example.now
            (Example.message "/a/b/c" "5") h "5" _
            [Example.switch_on] [Example.fan_on]
            (VDict [(VStr "topic", VStr "/x")])
            [(VStr "/x/y/z", PyStr.replace_char "'" "034" "{'on': True}")]
            ValueError eq_refl eq_refl eq_refl eq_refl eq_refl _ eq_refl).
  repeat constructor.
Defined.

(** ** The dispatcher *)

Section DispatcherFacts.

Variable client_publish : pyval -> string -> result unit.

Lemma set_publish_queue_same (h : MQTTInterface) :
  set_publish_queue (publish_queue h) h = h.
Proof. now destruct h. Qed.

Lemma start_loop_takes (n : nat) :
  forall s : dispatcher,
    Forall (fun x => client_publish (fst x) (snd x) = Ret tt)
      (firstn n (publish_queue (iface s))) ->
    start_loop client_publish n s =
    (Ret tt,
     mk_dispatcher
       (set_publish_queue (skipn n (publish_queue (iface s))) (iface s))
       (published s ++ firstn n (publish_queue (iface s)))).
Proof.
  induction n as [|n IH]; intros [h pub] Hok; cbn [iface published] in *.
  - cbn. unfold ret. now rewrite set_publish_queue_same, app_nil_r.
  - cbn [start_loop]. unfold bind at 1, start_turn. run_m.
    cbn [iface published].
    destruct (publish_queue h) as [|[t p] rest] eqn:Hq.
    + rewrite IH; cbn [iface published]; rewrite Hq;
        [|now rewrite firstn_nil].
      now rewrite firstn_nil, skipn_nil.
    + cbn [firstn skipn] in *. inversion Hok as [|? ? Hx Hrest]; subst.
      cbn [fst snd] in Hx. rewrite Hx. cbn beta iota.
      rewrite IH; cbn [iface published set_publish_queue publish_queue];
        [|assumption].
      now rewrite <- app_assoc.
Qed.

Lemma start_loop_add (a b : nat) (s : dispatcher) :
  start_loop client_publish (a + b) s =
  bind (start_loop client_publish a)
    (fun _ => start_loop client_publish b) s.
Proof.
  revert s. induction a as [|a IH]; intros s; [reflexivity|].
  cbn [Nat.add start_loop]. unfold bind.
  destruct (start_turn client_publish s) as [[[]|e] s']; [|reflexivity].
  rewrite IH. reflexivity.
Qed.

End DispatcherFacts.

(** X22.  The drain loop publishes in the order of the queue: as long as
    the transport takes the requests, [n] turns hand it the first [n]
    queued requests in order and leave the others queued in order, and
    turns on an empty queue do nothing. *)
Theorem drain_loop_is_fifo :
  forall (client_publish : pyval -> string -> result unit) (n : nat)
         (s : dispatcher),
    Forall (fun x => client_publish (fst x) (snd x) = Ret tt)
      (firstn n (publish_queue (iface s))) ->
    start_loop client_publish n s =
    (Ret tt,
     mk_dispatcher
       (set_publish_queue (skipn n (publish_queue (iface s))) (iface s))
       (published s ++ firstn n (publish_queue (iface s)))).
Proof. intros. now apply start_loop_takes. Qed.

Lemma drain_loop_is_fifo_witness :
  start_loop (fun _ _ => Ret tt) 5
    (mk_dispatcher
       (mk_hub [] [] [(VStr "/x", "1"); (VStr "/y", "2"); (VStr "/x", "3")]
          None default_topic_ping [])
       [])
  = (Ret tt,
     mk_dispatcher (mk_hub [] [] [] None default_topic_ping [])
       [(VStr "/x", "1"); (VStr "/y", "2"); (VStr "/x", "3")]).
Proof.
  apply (drain_loop_is_fifo (fun _ _ => Ret tt) 5
           (mk_dispatcher
              (mk_hub [] []
                 [(VStr "/x", "1"); (VStr "/y", "2"); (VStr "/x", "3")]
                 None default_topic_ping [])
              [])).
  repeat constructor.
Defined.

(** X23.  A request the transport refuses is lost and ends the loop: it
    has left the queue, it is not among the published ones, the
    exception leaves the loop, and the requests behind it stay queued
    for good. *)
Theorem refused_request_is_lost :
  forall (client_publish : pyval -> string -> result unit)
         (h : MQTTInterface) (pub q1 q2 : list (pyval * string))
         (t : pyval) (p : string) (e : exn) (n : nat),
    publish_queue h = q1 ++ (t, p) :: q2 ->
    Forall (fun x => client_publish (fst x) (snd x) = Ret tt) q1 ->
    client_publish t p = Raise e ->
    (length q1 < n)%nat ->
    start_loop client_publish n (mk_dispatcher h pub) =
    (Raise e, mk_dispatcher (set_publish_queue q2 h) (pub ++ q1)).
Proof.
  intros cp h pub q1 q2 t p e n Hq Hok He Hn.
  replace n with (length q1 + S (n - S (length q1)))%nat by lia.
  rewrite start_loop_add. unfold bind at 1.
  rewrite start_loop_takes; cbn [iface published]; rewrite Hq;
    [|now rewrite firstn_app, firstn_all, Nat.sub_diag, app_nil_r].
  rewrite firstn_app, firstn_all, Nat.sub_diag, skipn_app, skipn_all,
    Nat.sub_diag.
  cbn [firstn skipn app start_loop]. rewrite app_nil_r.
  unfold bind at 1, start_turn. run_m.
  cbn [iface published set_publish_queue publish_queue].
  now rewrite He.
Qed.

Lemma refused_request_is_lost_witness :
  start_loop
    (fun t _ => match t with VStr _ => Ret tt | _ => Raise TypeError end) 9
    (mk_dispatcher
       (mk_hub [] [] [(VStr "/x", "1"); (VNone, "2"); (VStr "/x", "3")]
          None default_topic_ping [])
       [])
  = (Raise TypeError,
     mk_dispatcher
       (set_publish_queue [(VStr "/x", "3")]
          (mk_hub [] [] [(VStr "/x", "1"); (VNone, "2"); (VStr "/x", "3")]
             None default_topic_ping []))
       ([] ++ [(VStr "/x", "1")])).
Proof.
  apply (@refused_request_is_lost
           (fun t _ => match t with VStr _ => Ret tt | _ => Raise TypeError end)
           _ [] [(VStr "/x", "1")] [(VStr "/x", "3")] VNone "2" TypeError 9);
    [reflexivity | repeat constructor | reflexivity | cbn; lia].
Defined.

(** ** The query surface *)

Lemma collect_without_match (patt : string) (ms : PyDict.dict string) :
  (forall k v, In (k, v) ms -> PyStr.startswith k patt = false) ->
  forall out, Web.collect patt ms out = out.
Proof.
  induction ms as [|[k v] t IH]; intros H out; [reflexivity|].
  cbn [Web.collect]. rewrite (H k v) by now left.
  apply IH. intros k' v' Hin. apply (H k' v'). now right.
Qed.

(** X24.  What the query surface refuses: a command other than the two it
    knows, and a query that selects no stored topic, for which the
    nesting is applied to [None]; both are answered with status 400, so an
    empty selection is an error and not an empty listing. *)
Theorem query_without_match_is_an_error :
  forall (command room device : option string) (ms : PyDict.dict string),
    (command <> Some "list_device" ->
     command <> Some "list_all_devices" ->
     Web.execute_command command room device ms = inl Web.CommandNotKnown) /\
    ((forall k v, In (k, v) ms ->
        PyStr.startswith k
          ("/" ++ Web.format_arg room ++ "/" ++ Web.format_arg device ++ "/")
        = false) ->
     Web.execute_command (Some "list_device") room device ms
     = inl (Web.Builtin AttributeError) /\
     Web.web_request (Some "list_device") room device ms = (400, None)) /\
    ((forall k v, In (k, v) ms -> PyStr.startswith k "/" = false) ->
     Web.execute_command (Some "list_all_devices") room device ms
     = inl (Web.Builtin AttributeError)).
Proof.
  intros command room device ms. split; [|split].
  - intros H1 H2. unfold Web.execute_command.
    destruct command as [c|]; [|reflexivity].
    destruct (String.eqb_spec c "list_device"); [congruence|].
    destruct (String.eqb_spec c "list_all_devices"); [congruence|].
    reflexivity.
  - intros H. unfold Web.web_request, Web.execute_command.
    cbn [String.eqb Ascii.eqb Bool.eqb].
    now rewrite (collect_without_match _ ms H).
  - intros H. unfold Web.execute_command.
    cbn [String.eqb Ascii.eqb Bool.eqb].
    now rewrite (collect_without_match _ ms H).
Qed.

Lemma query_without_match_is_an_error_witness :
  Web.web_request (Some "list_device") (Some "kitchen") None
    [("/a/b/c", "5"); ("/kitchen/fan/state", "on")]
  = (400, None).
Proof.
  apply (proj1 (proj2 (query_without_match_is_an_error (Some "list_device")
                         (Some "kitchen") None
                         [("/a/b/c", "5"); ("/kitchen/fan/state", "on")]))).
  intros k v [[= <- <-] | [[= <- <-] | []]]; reflexivity.
Defined.

Lemma set_has_key {V : Type} (k : string) (v : V) (d : PyDict.dict V) :
  In (k, v) (PyDict.set k v d).
Proof.
  induction d as [|[k1 v1] t IH]; cbn [PyDict.set]; [now left|].
  destruct (String.eqb_spec k k1) as [->|Hne]; [now left | now right].
Qed.

Lemma set_keeps_others {V : Type} (k k0 : string) (v v0 : V)
    (d : PyDict.dict V) :
  k0 <> k -> In (k0, v0) d -> In (k0, v0) (PyDict.set k v d).
Proof.
  intros Hne. induction d as [|[k1 v1] t IH]; cbn [PyDict.set];
    [contradiction|].
  destruct (String.eqb_spec k k1) as [->|Hne1].
  - intros [[= <- <-] | Hin]; [congruence | now right].
  - intros [H | Hin]; [now left | right; auto].
Qed.

Lemma set_keeps_keys {V : Type} (k k0 : string) (v : V)
    (d : PyDict.dict V) :
  k0 = k \/ (exists v0, In (k0, v0) d) ->
  exists v', In (k0, v') (PyDict.set k v d).
Proof.
  destruct (string_dec k0 k) as [->|Hne].
  - intros _. exists v. apply set_has_key.
  - intros [-> | [v0 Hin]]; [congruence|].
    exists v0. now apply set_keeps_others.
Qed.

Lemma or_empty_keeps (out : PyDict.dict string) (k v : string) :
  In (k, v) out -> In (k, v) (Web.or_empty (Some out)).
Proof. destruct out; auto. Qed.

Lemma collect_keeps_selected (patt : string) (ms : PyDict.dict string) :
  forall (acc : option (PyDict.dict string)) (k : string),
    (exists out v, acc = Some out /\ In (k, v) out) \/
    (exists v, In (k, v) ms /\ PyStr.startswith k patt = true) ->
    exists out v, Web.collect patt ms acc = Some out /\ In (k, v) out.
Proof.
  induction ms as [|[k1 v1] t IH]; intros acc k; cbn [Web.collect].
  - intros [H | (v & [] & _)]. exact H.
  - intros H. destruct (PyStr.startswith k1 patt) eqn:Hs.
    + apply IH.
      destruct H as [(out & v & -> & Hin) | (v & [[= -> ->] | Hin] & Hk)].
      * left. destruct (@set_keeps_keys _ k1 k v1 (Web.or_empty (Some out)))
          as [v' Hv']; [right; exists v; now apply or_empty_keeps|].
        eauto.
      * left. destruct (@set_keeps_keys _ k k v (Web.or_empty acc))
          as [v' Hv']; [now left|]. eauto.
      * right. eauto.
    + apply IH.
      destruct H as [H | (v & [[= -> ->] | Hin] & Hk)];
        [now left | congruence | right; eauto].
Qed.

Lemma nest_items_parts (items : PyDict.dict string) :
  forall (n n' : Web.nested_dict),
    Web.nest_items items n = Ret n' ->
    forall k v, In (k, v) items ->
      length (Web.split_slash (Web.lstrip_slash k)) = 3%nat.
Proof.
  induction items as [|[k1 v1] t IH]; intros n n' H k v; [contradiction|].
  cbn [Web.nest_items] in H.
  destruct (Web.split_slash (Web.lstrip_slash k1))
    as [|r [|d [|a [|x parts]]]] eqn:Hp; try discriminate.
  intros [[= <- <-] | Hin]; [now rewrite Hp | exact (IH _ _ H k v Hin)].
Qed.

Lemma nest_items_raises (items : PyDict.dict string) :
  forall (n : Web.nested_dict) (e : exn),
    Web.nest_items items n = Raise e -> e = ValueError.
Proof.
  induction items as [|[k1 v1] t IH]; intros n e; cbn [Web.nest_items];
    [discriminate|].
  destruct (Web.split_slash (Web.lstrip_slash k1))
    as [|r [|d [|a [|x parts]]]]; try (intros [= <-]; reflexivity).
  apply IH.
Qed.

(** X25.  One stored topic that does not have exactly three segments
    breaks the listing of all devices: the unpacking of its parts raises
    [ValueError] and the whole query is answered with status 400.  The
    store accepts every topic that starts with the separator, so a single
    message on a topic such as [/a/b] has this effect. *)
Theorem stray_topic_breaks_list_all_devices :
  forall (room device : option string) (ms : PyDict.dict string)
         (k v : string),
    In (k, v) ms ->
    PyStr.startswith k "/" = true ->
    length (Web.split_slash (Web.lstrip_slash k)) <> 3%nat ->
    Web.execute_command (Some "list_all_devices") room device ms
    = inl (Web.Builtin ValueError) /\
    Web.web_request (Some "list_all_devices") room device ms = (400, None).
Proof.
  intros room device ms k v Hin Hs Hparts.
  assert (H : Web.execute_command (Some "list_all_devices") room device ms
              = inl (Web.Builtin ValueError)).
  { unfold Web.execute_command. cbn [String.eqb Ascii.eqb Bool.eqb].
    destruct (@collect_keeps_selected "/" ms None k) as (out & v' & -> & Hout);
      [right; eauto|].
    cbn [Web.__get_nested_dict].
    destruct (Web.nest_items out []) as [n'|e] eqn:Hn.
    - elim Hparts. exact (@nest_items_parts out _ _ Hn k v' Hout).
    - now rewrite (@nest_items_raises out _ _ Hn). }
  split; [exact H|]. unfold Web.web_request. now rewrite H.
Qed.

Lemma stray_topic_breaks_list_all_devices_witness :
  Web.web_request (Some "list_all_devices") None None
    (messages (snd (Example.on_message Example.now
                      (Example.message "/a/b" "1") Example.hub)))
  = (400, None).
Proof.
  apply (@stray_topic_breaks_list_all_devices None None _ "/a/b" "1");
    [right; left; reflexivity | reflexivity | cbn; lia].
Defined.

Unset Implicit Arguments.

Lemma contains_slash_cons (c : ascii) (t : string) :
  PyStr.contains "/" (String c t) = false <->
  c <> "/"%char /\ PyStr.contains "/" t = false.
Proof.
  cbn [PyStr.contains String.prefix].
  destruct (ascii_dec "/" c) as [<-|Hne].
  - split; [destruct t; discriminate | intros [H _]; congruence].
  - cbn. split; [intros H; split; congruence | tauto].
Qed.

Lemma split_slash_free (x : string) :
  PyStr.contains "/" x = false -> Web.split_slash x = [x].
Proof.
  induction x as [|c t IH]; [reflexivity|].
  intros H. apply contains_slash_cons in H as [Hc Ht].
  cbn [Web.split_slash]. rewrite (proj2 (Ascii.eqb_neq c "/") Hc).
  now rewrite (IH Ht).
Qed.

Lemma split_slash_not_nil (x : string) : Web.split_slash x <> [].
Proof.
  destruct x as [|c t]; cbn [Web.split_slash]; [discriminate|].
  destruct (Ascii.eqb c "/"); [discriminate|].
  destruct (Web.split_slash t); discriminate.
Qed.

Lemma split_slash_single (x : string) :
  length (Web.split_slash x) = 1%nat -> PyStr.contains "/" x = false.
Proof.
  induction x as [|c t IH]; [reflexivity|].
  cbn [Web.split_slash]. destruct (Ascii.eqb_spec c "/") as [->|Hne].
  - cbn [length]. intros [= H].
    apply length_zero_iff_nil in H. now apply split_slash_not_nil in H.
  - intros H. apply contains_slash_cons. split; [assumption|].
    apply IH. destruct (Web.split_slash t) eqn:E; [|exact H].
    now apply split_slash_not_nil in E.
Qed.

Lemma split_slash_app (r x : string) :
  PyStr.contains "/" r = false ->
  Web.split_slash (r ++ "/" ++ x) = r :: Web.split_slash x.
Proof.
  induction r as [|c t IH]; [reflexivity|].
  intros H. apply contains_slash_cons in H as [Hc Ht].
  cbn [append Web.split_slash]. rewrite (proj2 (Ascii.eqb_neq c "/") Hc).
  cbn [append] in IH. now rewrite (IH Ht).
Qed.

Lemma lstrip_slash_segment (r y : string) :
  r <> "" -> PyStr.contains "/" r = false ->
  Web.lstrip_slash ("/" ++ r ++ y) = (r ++ y)%string.
Proof.
  destruct r as [|c t]; [congruence|].
  intros _ H. apply contains_slash_cons in H as [Hc _].
  cbn. now rewrite (proj2 (Ascii.eqb_neq c "/") Hc).
Qed.

(** The parts of a key under [/r/d/]. *)
Lemma device_key_parts (r d rest : string) :
  r <> "" -> PyStr.contains "/" r = false -> PyStr.contains "/" d = false ->
  Web.split_slash (Web.lstrip_slash ("/" ++ r ++ "/" ++ d ++ "/" ++ rest))
  = r :: d :: Web.split_slash rest.
Proof.
  intros Hr Hfr Hfd. rewrite lstrip_slash_segment by assumption.
  rewrite split_slash_app by assumption.
  now rewrite split_slash_app by assumption.
Qed.

Lemma attribute_of_filed (r d a v : string) (n : Web.nested_dict) :
  Web.attribute_of (Web.file_value r d a v n) r d a = Some v.
Proof.
  unfold Web.attribute_of, Web.file_value. now rewrite !get_set_same.
Qed.

Lemma attribute_of_filed_other (r d a r' d' a' v : string)
    (n : Web.nested_dict) :
  [r'; d'; a'] <> [r; d; a] ->
  Web.attribute_of (Web.file_value r' d' a' v n) r d a
  = Web.attribute_of n r d a.
Proof.
  intros Hne. unfold Web.attribute_of, Web.file_value.
  destruct (string_dec r r') as [<-|Hr];
    [|now rewrite get_set_other by assumption].
  rewrite get_set_same.
  destruct (string_dec d d') as [<-|Hd].
  - rewrite get_set_same.
    assert (Ha : a <> a') by congruence.
    rewrite (get_set_other _ _ Ha).
    destruct (PyDict.get r n) as [devices|]; [|reflexivity].
    now destruct (PyDict.get d devices).
  - rewrite (get_set_other _ _ Hd).
    now destruct (PyDict.get r n).
Qed.

Lemma nest_items_app (i1 i2 : PyDict.dict string) (n : Web.nested_dict) :
  Web.nest_items (i1 ++ i2) n
  = rbind (Web.nest_items i1 n) (Web.nest_items i2).
Proof.
  revert n. induction i1 as [|[k v] t IH]; intros n; [reflexivity|].
  cbn [app Web.nest_items].
  destruct (Web.split_slash (Web.lstrip_slash k))
    as [|r [|d [|a [|x parts]]]]; try reflexivity.
  apply IH.
Qed.

Lemma nest_items_other (items : PyDict.dict string) (r d a : string) :
  (forall k v, In (k, v) items ->
     Web.split_slash (Web.lstrip_slash k) <> [r; d; a]) ->
  forall n n',
    Web.nest_items items n = Ret n' ->
    Web.attribute_of n' r d a = Web.attribute_of n r d a.
Proof.
  induction items as [|[k v] t IH]; intros H n n'; cbn [Web.nest_items].
  - now intros [= <-].
  - destruct (Web.split_slash (Web.lstrip_slash k))
      as [|r' [|d' [|a' [|x parts]]]] eqn:Hp; try discriminate.
    intros Hn. rewrite (IH (fun k0 v0 Hin => H k0 v0 (or_intror Hin)) _ _ Hn).
    apply attribute_of_filed_other. rewrite <- Hp. apply (H k v). now left.
Qed.

Lemma nest_items_total (items : PyDict.dict string) :
  (forall k v, In (k, v) items ->
     length (Web.split_slash (Web.lstrip_slash k)) = 3%nat) ->
  forall n, exists n', Web.nest_items items n = Ret n'.
Proof.
  induction items as [|[k v] t IH]; intros H n; cbn [Web.nest_items];
    [eauto|].
  pose proof (H k v (or_introl eq_refl)) as Hk.
  destruct (Web.split_slash (Web.lstrip_slash k))
    as [|r [|d [|a [|x parts]]]]; try discriminate.
  apply IH. intros k0 v0 Hin. apply (H k0 v0). now right.
Qed.

Lemma string_app_assoc (x y z : string) :
  ((x ++ y) ++ z = x ++ (y ++ z))%string.
Proof. induction x; simpl; congruence. Qed.

Lemma set_fresh {V : Type} (k : string) (v : V) (d : PyDict.dict V) :
  (forall v', ~ In (k, v') d) -> PyDict.set k v d = d ++ [(k, v)].
Proof.
  induction d as [|[k1 v1] t IH]; intros H; cbn [PyDict.set app];
    [reflexivity|].
  destruct (String.eqb_spec k k1) as [->|Hne].
  - elim (H v1). now left.
  - f_equal. apply IH. intros v' Hin. apply (H v'). now right.
Qed.

Lemma or_empty_some (out : PyDict.dict string) :
  Web.or_empty (Some out) = out.
Proof. now destruct out. Qed.

Lemma collect_onto (patt : string) (ms : PyDict.dict string) :
  forall acc : PyDict.dict string,
    NoDup (map fst ms) ->
    (forall k v, In (k, v) ms -> forall v', ~ In (k, v') acc) ->
    Web.collect patt ms (Some acc)
    = Some (acc ++ filter (fun kv => PyStr.startswith (fst kv) patt) ms).
Proof.
  induction ms as [|[k v] t IH]; intros acc Hnd Hfresh;
    cbn [Web.collect filter fst].
  - now rewrite app_nil_r.
  - cbn [map fst] in Hnd. inversion Hnd as [|? ? Hk Ht]; subst.
    destruct (PyStr.startswith k patt).
    + rewrite or_empty_some.
      rewrite set_fresh by (apply (Hfresh k v); now left).
      rewrite IH; [now rewrite <- app_assoc | assumption |].
      intros k2 v2 Hin v' Hacc. apply in_app_or in Hacc as [Hacc | [[= -> _] | []]].
      * apply (Hfresh k2 v2 (or_intror Hin) v' Hacc).
      * apply Hk. apply (in_map fst) in Hin. exact Hin.
    + apply IH; [assumption|].
      intros k2 v2 Hin. apply (Hfresh k2 v2). now right.
Qed.

Lemma collect_filter (patt : string) (ms : PyDict.dict string) :
  NoDup (map fst ms) ->
  Web.collect patt ms None =
  match filter (fun kv => PyStr.startswith (fst kv) patt) ms with
  | [] => None
  | x :: t => Some (x :: t)
  end.
Proof.
  induction ms as [|[k v] t IH]; intros Hnd; cbn [Web.collect filter fst];
    [reflexivity|].
  cbn [map fst] in Hnd. inversion Hnd as [|? ? Hk Ht]; subst.
  destruct (PyStr.startswith k patt); [|now apply IH].
  cbn [Web.or_empty PyDict.set]. rewrite collect_onto; [reflexivity | assumption|].
  intros k2 v2 Hin v' [[= -> _] | []].
  apply Hk. apply (in_map fst) in Hin. exact Hin.
Qed.

Lemma NoDup_keys_filter (sel : string * string -> bool)
    (ms : PyDict.dict string) :
  NoDup (map fst ms) -> NoDup (map fst (filter sel ms)).
Proof.
  induction ms as [|x t IH]; cbn [map filter]; [auto|].
  intros Hnd. inversion Hnd as [|? ? Hk Ht]; subst.
  destruct (sel x); [|auto]. cbn [map]. constructor; [|auto].
  intros Hin. apply Hk. apply in_map_iff in Hin as (y & Hy & Hin).
  apply filter_In in Hin as [Hin _]. rewrite <- Hy. now apply in_map.
Qed.

Lemma NoDup_keys_split (i1 i2 : PyDict.dict string) (k v : string) :
  NoDup (map fst (i1 ++ (k, v) :: i2)) ->
  forall v2, ~ In (k, v2) i2.
Proof.
  rewrite map_app. cbn [map fst]. intros Hnd v2 Hin.
  apply NoDup_remove_2 in Hnd. apply Hnd. apply in_or_app. right.
  apply (in_map fst) in Hin. exact Hin.
Qed.

(** X26.  What the hub stored is what the listing of a device reports:
    with [/r/d/a] stored, [r], [d] and [a] free of separators and [r] not
    empty, and every stored topic under [/r/d/] made of three segments,
    [list_device] for [r] and [d] answers with status 200 and a nesting in
    which [r], [d], [a] lead to the stored text. *)
Theorem stored_attribute_is_listed :
  forall (ms : PyDict.dict string) (r d a v : string),
    NoDup (map fst ms) ->
    r <> "" ->
    PyStr.contains "/" r = false ->
    PyStr.contains "/" d = false ->
    PyStr.contains "/" a = false ->
    In (("/" ++ r ++ "/" ++ d ++ "/" ++ a)%string, v) ms ->
    (forall k' v',
        In (k', v') ms ->
        PyStr.startswith k' ("/" ++ r ++ "/" ++ d ++ "/") = true ->
        length (Web.split_slash (Web.lstrip_slash k')) = 3%nat) ->
    exists nested,
      Web.execute_command (Some "list_device") (Some r) (Some d) ms
      = inr nested /\
      Web.web_request (Some "list_device") (Some r) (Some d) ms
      = (200, Some nested) /\
      Web.attribute_of nested r d a = Some v.
Proof.
  intros ms r d a v Hnd Hr Hfr Hfd Hfa Hin Hwell.
  set (patt := ("/" ++ r ++ "/" ++ d ++ "/")%string) in *.
  set (sel := fun kv : string * string => PyStr.startswith (fst kv) patt).
  assert (Hkey : ("/" ++ r ++ "/" ++ d ++ "/" ++ a
                  = patt ++ a)%string).
  { unfold patt. now rewrite !string_app_assoc. }
  assert (Hsel : In (("/" ++ r ++ "/" ++ d ++ "/" ++ a)%string, v)
                   (filter sel ms)).
  { apply filter_In. split; [assumption|]. unfold sel. cbn [fst].
    apply prefix_app. exists a. exact Hkey. }
  assert (Hparts : forall rest,
             Web.split_slash (Web.lstrip_slash (patt ++ rest))
             = r :: d :: Web.split_slash rest).
  { intros rest. rewrite <- (device_key_parts r d rest Hr Hfr Hfd).
    unfold patt. now rewrite !string_app_assoc. }
  destruct (nest_items_total (filter sel ms)) with (n := @nil (string * PyDict.dict (PyDict.dict string)))
    as [nested Hn].
  { intros k' v' Hk'. apply filter_In in Hk' as [Hk' Hs].
    exact (Hwell k' v' Hk' Hs). }
  assert (Hexec : Web.execute_command (Some "list_device") (Some r) (Some d) ms
                  = inr nested).
  { unfold Web.execute_command. cbn [String.eqb Ascii.eqb Bool.eqb Web.format_arg].
    fold patt. rewrite (collect_filter patt ms Hnd). fold sel.
    destruct (filter sel ms) as [|x t] eqn:Hf; [contradiction|].
    cbn [Web.__get_nested_dict]. now rewrite Hn. }
  exists nested. split; [exact Hexec | split].
  - unfold Web.web_request. now rewrite Hexec.
  - pose proof (NoDup_keys_filter sel ms Hnd) as Hndf.
    apply in_split in Hsel as (i1 & i2 & Hsplit).
    rewrite Hsplit in Hn, Hndf.
    rewrite nest_items_app in Hn.
    destruct (Web.nest_items i1 []) as [n1|e]; [|discriminate].
    cbn [rbind Web.nest_items] in Hn.
    rewrite Hkey, Hparts, (split_slash_free a Hfa) in Hn.
    rewrite (nest_items_other i2 r d a) with (n := Web.file_value r d a v n1)
                                           (n' := nested);
      [apply attribute_of_filed | | exact Hn].
    intros k2 v2 Hin2 Heq.
    assert (Hin2' : In (k2, v2) (filter sel ms))
      by (rewrite Hsplit; apply in_or_app; right; now right).
    apply filter_In in Hin2' as [Hms Hs2]. unfold sel in Hs2. cbn [fst] in Hs2.
    apply prefix_app in Hs2 as [rest ->].
    rewrite Hparts in Heq. injection Heq as Heq.
    assert (Hlen : length (Web.split_slash rest) = 1%nat)
      by now rewrite Heq.
    rewrite (split_slash_free rest (split_slash_single rest Hlen)) in Heq.
    injection Heq as ->.
    rewrite <- Hkey in Hin2.
    exact (NoDup_keys_split i1 i2 _ v Hndf v2 Hin2).
Qed.

Lemma stored_attribute_is_listed_witness :
  exists nested,
    Web.execute_command (Some "list_device") (Some "k") (Some "fan")
      (messages (snd (Example.on_message Example.now
                        (Example.message "/k/fan/state" "on") Example.hub)))
    = inr nested /\
    Web.web_request (Some "list_device") (Some "k") (Some "fan")
      (messages (snd (Example.on_message Example.now
                        (Example.message "/k/fan/state" "on") Example.hub)))
    = (200, Some nested) /\
    Web.attribute_of nested "k" "fan" "state" = Some "on".
Proof.
  apply (stored_attribute_is_listed _ "k" "fan" "state" "on").
  - cbn. repeat constructor; cbn; intuition discriminate.
  - discriminate.
  - reflexivity.
  - reflexivity.
  - reflexivity.
  - cbn. right. left. reflexivity.
  - cbn. intros k' v' [[= <- <-] | [[= <- <-] | [[= <- <-] | []]]];
      reflexivity || discriminate.
Defined.

(** ** Intake, composed *)

Lemma payload_is_stored (le : string -> result pyval)
    (m : string -> PyDict.dict pyval -> result bool)
    (str : pyval -> string) (now : string) (msg : mqtt_message)
    (h : MQTTInterface) (p : string) :
  Utf8.decode (payload msg) = Ret p ->
  PyStr.startswith (topic msg) "/" = true ->
  PyDict.get (topic msg) (messages (snd (on_message le m str now msg h)))
  = Some p.
Proof.
  intros Hd Hs.
  assert (Hping : forall ms : PyDict.dict string,
             PyDict.get (topic msg)
               match PyDict.get (topic_ping h)
                       (PyDict.set (topic msg) p ms) with
               | Some _ => PyDict.set (topic msg) p ms
               | None => PyDict.set (topic_ping h) "{}"
                           (PyDict.set (topic msg) p ms)
               end = Some p).
  { intros ms.
    destruct (PyDict.get (topic_ping h) (PyDict.set (topic msg) p ms))
      eqn:Hg; [apply get_set_same|].
    rewrite get_set_other; [apply get_set_same|].
    intros E. rewrite <- E, get_set_same in Hg. discriminate. }
  intake_cases le m str now msg h; try congruence;
    injection Hd as <-; try apply get_set_same; try apply Hping.
  now apply changed_false.
Qed.

(** X27.  A message delivered twice is processed once: after a message
    that decodes, on a topic of the tree, the same topic and payload
    delivered again, at any later time, change nothing and evaluate no
    rule. *)
Theorem duplicate_delivery_is_ignored :
  forall (le : string -> result pyval)
         (m : string -> PyDict.dict pyval -> result bool)
         (str : pyval -> string) (now now' : string) (msg : mqtt_message)
         (h : MQTTInterface) (p : string),
    Utf8.decode (payload msg) = Ret p ->
    PyStr.startswith (topic msg) "/" = true ->
    on_message le m str now' msg (snd (on_message le m str now msg h))
    = (Ret tt, snd (on_message le m str now msg h)).
Proof.
  intros le m str now now' msg h p Hd Hs.
  apply on_message_unchanged with (p := p); [assumption|].
  apply changed_false. now apply payload_is_stored.
Qed.

Lemma duplicate_delivery_is_ignored_witness :
  Example.on_message "2024-05-01 10:00:07" (Example.message "/a/b/c" "5")
    (snd (Example.on_message Example.now (Example.message "/a/b/c" "5")
            Example.hub))
  = (Ret tt,
     snd (Example.on_message Example.now (Example.message "/a/b/c" "5")
            Example.hub)).
Proof.
  apply (duplicate_delivery_is_ignored Lit.literal_eval RefEngine.matches
           RefStr.str Example.now "2024-05-01 10:00:07"
           (Example.message "/a/b/c" "5") Example.hub "5");
    reflexivity.
Defined.

Lemma no_members_nil {A : Type} (l : list A) :
  (forall x, ~ In x l) -> l = [].
Proof.
  destruct l as [|x t]; [reflexivity|]. intros H. elim (H x). now left.
Qed.

(** X28.  While the store holds, under another topic, a payload on which
    [get_var] raises, no update publishes an action: the only request an
    update can add to the publish queue is the liveness record on the
    ping topic. *)
Theorem poisoned_store_publishes_no_action :
  forall (le : string -> result pyval)
         (m : string -> PyDict.dict pyval -> result bool)
         (str : pyval -> string) (now : string) (msg : mqtt_message)
         (h : MQTTInterface) (k v : string) (e : exn),
    In (k, v) (messages h) ->
    k <> topic msg ->
    get_var le (VStr v) = Raise e ->
    let h' := snd (on_message le m str now msg h) in
    publish_queue h' = publish_queue h \/
    exists record,
      publish_queue h' = publish_queue h ++ [(VStr (topic_ping h), record)].
Proof.
  intros le m str now msg h k v e Hin Hk Hv h'. subst h'.
  assert (Hnone : forall p reqs,
    (forall x, In x reqs ->
       exists engine actions a,
         rule_engine h = Some engine /\
         fst (evaluate_rules le m (rules engine)
                (PyDict.set (topic msg) p (messages h)) (topic msg))
         = Ret actions /\
         In a actions /\ action_request le str a = Ret x) ->
    reqs = []).
  { intros p reqs H. apply no_members_nil. intros x Hx.
    destruct (H x Hx) as (engine & actions & a & _ & Hev & Ha & _).
    assert (Hin' : In (k, v) (PyDict.set (topic msg) p (messages h)))
      by now apply set_keeps_others.
    rewrite evaluate_rules_eq in Hev.
    destruct (@preprocess_data_from_raises le _ k v e Hin' Hv []) as [e' He'].
    unfold _preprocess_data in Hev. rewrite He' in Hev.
    destruct (rules engine); cbn in Hev; injection Hev as <-;
      contradiction. }
  intake_cases le m str now msg h; try (now left);
    rewrite (Hnone p reqs Hreqs), app_nil_r; try (now left).
  right. eexists. reflexivity.
Qed.

Lemma poisoned_store_publishes_no_action_witness :
  let h := mk_hub [("/k", "{[1]: 2}"); ("/a/b/c", "4")] [] []
             (Some Example.engine) default_topic_ping [] in
  let h' := snd (Example.on_message Example.now
                   (Example.message "/a/b/c" "5") h) in
  publish_queue h' = [] \/
  exists record,
    publish_queue h' = [] ++ [(VStr default_topic_ping, record)].
Proof.
  intros h.
  apply (poisoned_store_publishes_no_action Lit.literal_eval
           RefEngine.matches RefStr.str Example.now
           (Example.message "/a/b/c" "5") h "/k" "{[1]: 2}" TypeError);
    [left; reflexivity | discriminate | reflexivity].
Defined.
